(** * ExamTracker: the exam-structure recovery core, embedded in Rocq

    This development embeds the question detection pipeline of the
    ExamTracker repository:

    - [buildLinesFromItems]          (line reconstruction from glyph runs),
    - [filterHeaderFooterLines]      (repeating header / footer suppression),
    - [extractQuestionsFromLines]    (line based detector),
    - [extractQuestionsFromText2]    (flat text detector),
    - [detectQuestionsFromPages]     (layout aware, scored detector; the
                                      repository carries two revisions),
    - [parsePdf]                     (acquisition orchestrator).

    Modelling conventions.

    - A JavaScript string is a Rocq [string]; every [ascii] is one UTF-16
      code unit below 256 (the Latin-1 range), so ["228"%char] is U+00E4.
      Code units above 255 are outside the model; regular expressions that
      mention them (dashes U+2013, U+2014) keep them in their character
      classes, where they never match a Latin-1 subject.
    - JavaScript numbers that carry page coordinates, counts and scores are
      integers ([Z]); NaN and infinities are outside the model.  Products
      with the decimal constants 0.6 and p/100 are taken exactly.
    - Regular expressions are interpreted by a backtracking matcher that
      follows the ECMAScript matching order (leftmost start, greedy or lazy
      quantifiers, ordered alternation, look-ahead, word boundaries,
      capture groups, the [i] flag).  Each regular expression of the
      source is written as its source text and parsed by [re_parse].
    - [Array.prototype.sort] is a stable sort; the comparators of the
      source are consistent on integers.
    - JavaScript [Map]s and [Set]s that are only looked up are [gmap]s and
      [gset]s; a [Map] that is iterated is an association list in
      insertion order. *)

From Stdlib Require Import ZArith Ascii String List Bool Lia Sorting.Permutation Sorting.Sorted.
From Stdlib Require Import DecimalString DecimalZ DecimalPos QArith Qround.
From stdpp Require Import gmap strings list fin_maps.

Open Scope string_scope.
Open Scope Z_scope.

(* ===================================================================== *)
(** ** Code units and character predicates *)
(* ===================================================================== *)

Module Js.

Definition code (c : ascii) : N := N_of_ascii c.
Definition chr (n : N) : ascii := ascii_of_N n.

Definition in_range (lo hi n : N) : bool := ((lo <=? n) && (n <=? hi))%N.

(** [\s]: the WhiteSpace and LineTerminator code units below 256. *)
Definition is_space (c : ascii) : bool :=
  let n := code c in (in_range 9 13 n || (n =? 32) || (n =? 160))%N.

Definition is_digit (c : ascii) : bool := in_range 48 57 (code c).

Definition is_upper_az (c : ascii) : bool := in_range 65 90 (code c).
Definition is_lower_az (c : ascii) : bool := in_range 97 122 (code c).

(** [\w] *)
Definition is_word (c : ascii) : bool :=
  is_upper_az c || is_lower_az c || is_digit c || (code c =? 95)%N.

Definition is_line_terminator (c : ascii) : bool :=
  let n := code c in ((n =? 10) || (n =? 13))%N.

(** [String.prototype.toUpperCase] / [toLowerCase] on one Latin-1 code
    unit.  U+00B5, U+00DF and U+00FF have no Latin-1 upper case and are
    left alone, as ECMAScript's Canonicalize leaves them alone relative to
    every other Latin-1 unit. *)
Definition upper (c : ascii) : ascii :=
  let n := code c in
  if (in_range 97 122 n || (in_range 224 254 n && negb (n =? 247)))%N
  then chr (n - 32) else c.

Definition lower (c : ascii) : ascii :=
  let n := code c in
  if (in_range 65 90 n || (in_range 192 222 n && negb (n =? 215)))%N
  then chr (n + 32) else c.

Fixpoint smap (f : ascii -> ascii) (s : string) : string :=
  match s with
  | EmptyString => EmptyString
  | String c s' => String (f c) (smap f s')
  end.

Definition toLowerCase : string -> string := smap lower.
Definition toUpperCase : string -> string := smap upper.

(** [s.slice(a, b)] for [0 <= a]. *)
Definition slice (a b : nat) (s : string) : string := substring a (b - a) s.

(** [s.slice(a)] *)
Fixpoint drop (n : nat) (s : string) : string :=
  match n, s with
  | O, _ => s
  | S n', String _ s' => drop n' s'
  | S _, EmptyString => EmptyString
  end.

Fixpoint trimStart (s : string) : string :=
  match s with
  | String c s' => if is_space c then trimStart s' else s
  | EmptyString => EmptyString
  end.

Fixpoint srev_onto (s acc : string) : string :=
  match s with
  | EmptyString => acc
  | String c s' => srev_onto s' (String c acc)
  end.

Definition srev (s : string) : string := srev_onto s EmptyString.

Definition trimEnd (s : string) : string := srev (trimStart (srev s)).

(** [s.trim()] *)
Definition trim (s : string) : string := trimEnd (trimStart s).

(** [s.replace(/\s+/g, ' ')] *)
Fixpoint collapse_ws_from (inrun : bool) (s : string) : string :=
  match s with
  | EmptyString => EmptyString
  | String c s' =>
      if is_space c
      then (if inrun then collapse_ws_from true s'
            else String " " (collapse_ws_from true s'))
      else String c (collapse_ws_from false s')
  end.

Definition collapse_ws : string -> string := collapse_ws_from false.

Definition is_blank_tab (c : ascii) : bool := ((code c =? 9) || (code c =? 32))%N.

(** [s.replace(/[\t ]+/g, ' ')] *)
Fixpoint collapse_blanks_from (inrun : bool) (s : string) : string :=
  match s with
  | EmptyString => EmptyString
  | String c s' =>
      if is_blank_tab c
      then (if inrun then collapse_blanks_from true s'
            else String " " (collapse_blanks_from true s'))
      else String c (collapse_blanks_from false s')
  end.

Definition collapse_blanks : string -> string := collapse_blanks_from false.

(** [String(n)] for an integer [n]. *)
Definition String_of (n : Z) : string := NilZero.string_of_int (Z.to_int n).

(** [parseInt(s, 10)] on a string of decimal digits ([None] is NaN). *)
Fixpoint parse_digits (acc : Z) (seen : bool) (s : string) : option Z :=
  match s with
  | EmptyString => if seen then Some acc else None
  | String c s' =>
      if is_digit c
      then parse_digits (10 * acc + Z.of_N (code c - 48)) true s'
      else if seen then Some acc else None
  end.

Definition parseInt (s : string) : option Z := parse_digits 0 false (trimStart s).

(** [s.split(sep)] on one separator code unit. *)
Fixpoint split_on (sep : ascii) (cur : string) (s : string) : list string :=
  match s with
  | EmptyString => [srev cur]
  | String c s' =>
      if Ascii.eqb c sep then srev cur :: split_on sep EmptyString s'
      else split_on sep (String c cur) s'
  end.

(** [s.split(/\r?\n/)] *)
Fixpoint split_lines_from (cur : string) (s : string) : list string :=
  match s with
  | EmptyString => [srev cur]
  | String c s' =>
      if (code c =? 10)%N then srev cur :: split_lines_from EmptyString s'
      else if (code c =? 13)%N then
        match s' with
        | String c' s'' =>
            if (code c' =? 10)%N then srev cur :: split_lines_from EmptyString s''
            else split_lines_from (String c cur) s'
        | EmptyString => split_lines_from (String c cur) s'
        end
      else split_lines_from (String c cur) s'
  end.

Definition split_lines : string -> list string := split_lines_from EmptyString.

(** [parts.join(sep)] *)
Fixpoint join (sep : string) (l : list string) : string :=
  match l with
  | [] => EmptyString
  | [x] => x
  | x :: l' => x +:+ sep +:+ join sep l'
  end.

(** Truthiness of a string: [!!s]. *)
Definition truthy (s : string) : bool :=
  match s with EmptyString => false | _ => true end.

End Js.

(* ===================================================================== *)
(** ** Regular expressions: syntax, parser and backtracking matcher *)
(* ===================================================================== *)

Module Re.

(** Members of a character class, by code point. *)
Inductive citem : Type :=
| CC (c : N)            (* one code point *)
| CR (lo hi : N)        (* a range *)
| CSpace                (* \s *)
| CDigit                (* \d *)
| CWord.                (* \w *)

Inductive regex : Type :=
| Eps
| Never
| Chr (c : N)
| Any                                   (* . *)
| Cls (neg : bool) (items : list citem) (* [...] and [^...] *)
| Seq (r1 r2 : regex)
| Alt (r1 r2 : regex)
| Rep (mn : nat) (mx : option nat) (greedy : bool) (r : regex)
| Grp (n : nat) (r : regex)             (* capturing group number n *)
| Bol                                   (* ^ *)
| Eol                                   (* $ *)
| Wordb                                 (* \b *)
| Look (neg : bool) (r : regex).        (* (?=r) and (?!r) *)

(** *** Matcher *)

Record mstate : Type := MState {
  pos  : nat;                       (* index of the next code unit *)
  prev : option ascii;              (* the code unit before [pos] *)
  rest : string;                    (* the subject from [pos] on *)
  caps : list (nat * (nat * nat))   (* group, start, end; newest first *)
}.

Definition advance (st : mstate) (c : ascii) (s' : string) : mstate :=
  MState (S (pos st)) (Some c) s' (caps st).

Definition citem_has (it : citem) (c : ascii) : bool :=
  match it with
  | CC n => (Js.code c =? n)%N
  | CR lo hi => Js.in_range lo hi (Js.code c)
  | CSpace => Js.is_space c
  | CDigit => Js.is_digit c
  | CWord => Js.is_word c
  end.

(** With the [i] flag a code unit matches a class member when their
    canonical forms agree; inside Latin-1 the candidates are the unit, its
    upper case and its lower case. *)
Definition citem_match (icase : bool) (it : citem) (c : ascii) : bool :=
  citem_has it c
  || (icase && (citem_has it (Js.upper c) || citem_has it (Js.lower c))).

Definition cls_match (icase neg : bool) (items : list citem) (c : ascii) : bool :=
  xorb neg (existsb (fun it => citem_match icase it c) items).

Definition chr_match (icase : bool) (n : N) (c : ascii) : bool :=
  citem_match icase (CC n) c.

Definition is_word_opt (o : option ascii) : bool :=
  match o with Some c => Js.is_word c | None => false end.

Definition next_unit (s : string) : option ascii :=
  match s with String c _ => Some c | EmptyString => None end.

Definition orelse {A} (a b : option A) : option A :=
  match a with Some _ => a | None => b end.

Definition dec_max (mx : option nat) : option nat :=
  match mx with Some n => Some (Nat.pred n) | None => None end.

Definition max_is_zero (mx : option nat) : bool :=
  match mx with Some O => true | _ => false end.

Section Matcher.
Variable icase : bool.

Definition step_unit (p : ascii -> bool) (st : mstate)
    (k : mstate -> option mstate) : option mstate :=
  match rest st with
  | String c s' => if p c then k (advance st c s') else None
  | EmptyString => None
  end.

(** [rmatch r st k]: match [r] at [st], then continue with [k]; the first
    success in ECMAScript's backtracking order wins. *)
Fixpoint rmatch (r : regex) (st : mstate) (k : mstate -> option mstate)
    {struct r} : option mstate :=
  match r with
  | Eps => k st
  | Never => None
  | Chr n => step_unit (chr_match icase n) st k
  | Any => step_unit (fun c => negb (Js.is_line_terminator c)) st k
  | Cls neg items => step_unit (cls_match icase neg items) st k
  | Seq r1 r2 => rmatch r1 st (fun st1 => rmatch r2 st1 k)
  | Alt r1 r2 => orelse (rmatch r1 st k) (rmatch r2 st k)
  | Rep mn mx greedy r1 =>
      (fix loop (fuel mn : nat) (mx : option nat) (st : mstate)
           (k : mstate -> option mstate) {struct fuel} : option mstate :=
         match fuel with
         | O => None
         | S fuel' =>
             match mn with
             | S mn' =>
                 rmatch r1 st (fun st1 => loop fuel' mn' (dec_max mx) st1 k)
             | O =>
                 if max_is_zero mx then k st
                 else
                   let more :=
                     rmatch r1 st (fun st1 =>
                       if Nat.eqb (pos st1) (pos st) then None
                       else loop fuel' O (dec_max mx) st1 k) in
                   if greedy then orelse more (k st) else orelse (k st) more
             end
         end) (S (mn + String.length (rest st)))%nat mn mx st k
  | Grp n r1 =>
      rmatch r1 st (fun st1 =>
        k (MState (pos st1) (prev st1) (rest st1)
                  ((n, (pos st, pos st1)) :: caps st1)))
  | Bol => if Nat.eqb (pos st) 0 then k st else None
  | Eol => match rest st with EmptyString => k st | _ => None end
  | Wordb =>
      if xorb (is_word_opt (prev st)) (is_word_opt (next_unit (rest st)))
      then k st else None
  | Look neg r1 =>
      match rmatch r1 st Some with
      | Some st1 =>
          if neg then None
          else k (MState (pos st) (prev st) (rest st) (caps st1))
      | None => if neg then k st else None
      end
  end.

(** Try every start index from the current one on, leftmost first. *)
Fixpoint search (r : regex) (p : nat) (pv : option ascii) (s : string)
    : option (nat * mstate) :=
  match rmatch r (MState p pv s []) Some with
  | Some st => Some (p, st)
  | None =>
      match s with
      | String c s' => search r (S p) (Some c) s'
      | EmptyString => None
      end
  end.
End Matcher.

(** *** Parser for the source text of a regular expression *)

Definition hex_val (c : ascii) : option N :=
  let n := Js.code c in
  if Js.in_range 48 57 n then Some (n - 48)%N
  else if Js.in_range 65 70 n then Some (n - 55)%N
  else if Js.in_range 97 102 n then Some (n - 87)%N
  else None.

(** After a backslash: a class escape, a control escape, [\uXXXX] or an
    identity escape.  Returns the class members and the remaining text. *)
Definition parse_escape (s : string) : option (list citem * string) :=
  match s with
  | String "s" s' => Some ([CSpace], s')
  | String "d" s' => Some ([CDigit], s')
  | String "w" s' => Some ([CWord], s')
  | String "n" s' => Some ([CC 10], s')
  | String "r" s' => Some ([CC 13], s')
  | String "t" s' => Some ([CC 9], s')
  | String "u" (String a (String b (String c (String d s')))) =>
      match hex_val a, hex_val b, hex_val c, hex_val d with
      | Some x, Some y, Some z, Some w =>
          Some ([CC (((x * 16 + y) * 16 + z) * 16 + w)%N], s')
      | _, _, _, _ => None
      end
  | String c s' => Some ([CC (Js.code c)], s')
  | EmptyString => None
  end.

(** The inside of [[...]], up to and including the closing bracket. *)
Fixpoint parse_class (fuel : nat) (acc : list citem) (s : string)
    : option (list citem * string) :=
  match fuel with
  | O => None
  | S fuel' =>
      match s with
      | EmptyString => None
      | String "]" s' => Some (rev acc, s')
      | String "\" s' =>
          match parse_escape s' with
          | Some ([CC lo], String "-" (String c s'')) =>
              if Ascii.eqb c "]" then parse_class fuel' (CC lo :: acc) (String "-" (String c s''))
              else if Ascii.eqb c "\" then
                match parse_escape s'' with
                | Some ([CC hi], s3) => parse_class fuel' (CR lo hi :: acc) s3
                | _ => None
                end
              else parse_class fuel' (CR lo (Js.code c) :: acc) s''
          | Some (its, s'') => parse_class fuel' (rev_append its acc) s''
          | None => None
          end
      | String lo (String "-" (String c s'')) =>
          if Ascii.eqb c "]" then parse_class fuel' (CC (Js.code lo) :: acc) (String "-" (String c s''))
          else if Ascii.eqb c "\" then
            match parse_escape s'' with
            | Some ([CC hi], s3) => parse_class fuel' (CR (Js.code lo) hi :: acc) s3
            | _ => None
            end
          else parse_class fuel' (CR (Js.code lo) (Js.code c) :: acc) s''
      | String c s' => parse_class fuel' (CC (Js.code c) :: acc) s'
      end
  end.

Fixpoint parse_nat (acc : nat) (seen : bool) (s : string) : option (nat * string) :=
  match s with
  | String c s' =>
      if Js.is_digit c
      then parse_nat (10 * acc + N.to_nat (Js.code c - 48)) true s'
      else if seen then Some (acc, s) else None
  | EmptyString => if seen then Some (acc, s) else None
  end.

(** A quantifier after an atom, if there is one. *)
Definition parse_quant (s : string) : option (nat * option nat * string) :=
  match s with
  | String "*" s' => Some (O, None, s')
  | String "+" s' => Some (1%nat, None, s')
  | String "?" s' => Some (O, Some 1%nat, s')
  | String "{" s' =>
      match parse_nat 0 false s' with
      | Some (lo, String "}" s'') => Some (lo, Some lo, s'')
      | Some (lo, String "," (String "}" s'')) => Some (lo, None, s'')
      | Some (lo, String "," s'') =>
          match parse_nat 0 false s'' with
          | Some (hi, String "}" s3) => Some (lo, Some hi, s3)
          | _ => None
          end
      | _ => None
      end
  | _ => None
  end.

Definition with_quant (r : regex) (s : string) : regex * string :=
  match parse_quant s with
  | Some (lo, hi, String "?" s') => (Rep lo hi false r, s')
  | Some (lo, hi, s') => (Rep lo hi true r, s')
  | None => (r, s)
  end.

Definition seq (r1 r2 : regex) : regex :=
  match r1 with Eps => r2 | _ => Seq r1 r2 end.

(** [parse_alt fuel g s]: a disjunction, up to a closing parenthesis or
    the end of the text; [g] is the number of the next capturing group. *)
Fixpoint parse_alt (fuel : nat) (g : nat) (s : string) {struct fuel}
    : option (regex * nat * string) :=
  match fuel with
  | O => None
  | S fuel' =>
      match parse_seq fuel' g Eps s with
      | Some (r1, g1, String "|" s') =>
          match parse_alt fuel' g1 s' with
          | Some (r2, g2, s'') => Some (Alt r1 r2, g2, s'')
          | None => None
          end
      | other => other
      end
  end
with parse_seq (fuel : nat) (g : nat) (acc : regex) (s : string) {struct fuel}
    : option (regex * nat * string) :=
  match fuel with
  | O => None
  | S fuel' =>
      match s with
      | EmptyString => Some (acc, g, s)
      | String "|" _ => Some (acc, g, s)
      | String ")" _ => Some (acc, g, s)
      | String "(" (String "?" (String ":" s')) =>
          match parse_alt fuel' g s' with
          | Some (r, g1, String ")" s'') =>
              let (q, s3) := with_quant r s'' in
              parse_seq fuel' g1 (seq acc q) s3
          | _ => None
          end
      | String "(" (String "?" (String "=" s')) =>
          match parse_alt fuel' g s' with
          | Some (r, g1, String ")" s'') =>
              parse_seq fuel' g1 (seq acc (Look false r)) s''
          | _ => None
          end
      | String "(" (String "?" (String "!" s')) =>
          match parse_alt fuel' g s' with
          | Some (r, g1, String ")" s'') =>
              parse_seq fuel' g1 (seq acc (Look true r)) s''
          | _ => None
          end
      | String "(" s' =>
          match parse_alt fuel' (S g) s' with
          | Some (r, g1, String ")" s'') =>
              let (q, s3) := with_quant (Grp g r) s'' in
              parse_seq fuel' g1 (seq acc q) s3
          | _ => None
          end
      | String "[" (String "^" s') =>
          match parse_class fuel' [] s' with
          | Some (its, s'') =>
              let (q, s3) := with_quant (Cls true its) s'' in
              parse_seq fuel' g (seq acc q) s3
          | None => None
          end
      | String "[" s' =>
          match parse_class fuel' [] s' with
          | Some (its, s'') =>
              let (q, s3) := with_quant (Cls false its) s'' in
              parse_seq fuel' g (seq acc q) s3
          | None => None
          end
      | String "^" s' => parse_seq fuel' g (seq acc Bol) s'
      | String "$" s' => parse_seq fuel' g (seq acc Eol) s'
      | String "." s' =>
          let (q, s3) := with_quant Any s' in
          parse_seq fuel' g (seq acc q) s3
      | String "\" (String "b" s') => parse_seq fuel' g (seq acc Wordb) s'
      | String "\" s' =>
          match parse_escape s' with
          | Some ([CC n], s'') =>
              let (q, s3) := with_quant (Chr n) s'' in
              parse_seq fuel' g (seq acc q) s3
          | Some (its, s'') =>
              let (q, s3) := with_quant (Cls false its) s'' in
              parse_seq fuel' g (seq acc q) s3
          | None => None
          end
      | String c s' =>
          let (q, s3) := with_quant (Chr (Js.code c)) s' in
          parse_seq fuel' g (seq acc q) s3
      end
  end.

(** The regular expression written [src]; text that does not parse gives
    [Never]. *)
Definition re_parse (src : string) : regex :=
  match parse_alt (S (2 * String.length src)) 1 src with
  | Some (r, _, EmptyString) => r
  | _ => Never
  end.

Definition parses (src : string) : bool :=
  match parse_alt (S (2 * String.length src)) 1 src with
  | Some (_, _, EmptyString) => true
  | _ => false
  end.

(** *** The RegExp object and the String methods that take one *)

Record RegExp : Type := mkRegExp {
  re_source : regex;
  re_ignoreCase : bool
}.

(** A successful match: index, end index and captures. *)
Record MatchResult : Type := mkMatch {
  m_index : nat;
  m_end : nat;
  m_caps : list (nat * (nat * nat));
  m_input : string
}.

Definition exec_from (re : RegExp) (s : string) (from : nat) : option MatchResult :=
  let pv := match from with
            | O => None
            | S p => next_unit (Js.drop p s)
            end in
  if Nat.ltb (String.length s) from then None
  else
    match search (re_ignoreCase re) (re_source re) from pv (Js.drop from s) with
    | Some (i, st) => Some (mkMatch i (pos st) (caps st) s)
    | None => None
    end.

(** [s.match(re)] for a regular expression without the [g] flag. *)
Definition smatch (re : RegExp) (s : string) : option MatchResult := exec_from re s 0.

(** [re.test(s)] *)
Definition test (re : RegExp) (s : string) : bool :=
  match smatch re s with Some _ => true | None => false end.

Fixpoint cap_lookup (n : nat) (l : list (nat * (nat * nat))) : option (nat * nat) :=
  match l with
  | [] => None
  | (g, se) :: l' => if Nat.eqb g n then Some se else cap_lookup n l'
  end.

(** [m[0]] *)
Definition m0 (m : MatchResult) : string := Js.slice (m_index m) (m_end m) (m_input m).

(** [m[n]] for [n >= 1]; [None] is [undefined]. *)
Definition group (m : MatchResult) (n : nat) : option string :=
  match cap_lookup n (m_caps m) with
  | Some (a, b) => Some (Js.slice a b (m_input m))
  | None => None
  end.

Definition group_or_empty (m : MatchResult) (n : nat) : string :=
  match group m n with Some s => s | None => EmptyString end.

(** The successive results of [re.exec(s)] for a [g] regular expression,
    with [lastIndex] starting at 0: the body of
    [while ((m = re.exec(s)) !== null)].  Every regular expression used
    this way consumes at least one code unit per match. *)
Fixpoint exec_all_from (fuel : nat) (re : RegExp) (s : string) (from : nat)
    : list MatchResult :=
  match fuel with
  | O => []
  | S fuel' =>
      match exec_from re s from with
      | Some m =>
          m :: (if Nat.ltb from (m_end m) then exec_all_from fuel' re s (m_end m) else [])
      | None => []
      end
  end.

Definition exec_all (re : RegExp) (s : string) : list MatchResult :=
  exec_all_from (S (String.length s)) re s 0.

Definition rx (src : string) : RegExp := mkRegExp (re_parse src) false.
Definition rxi (src : string) : RegExp := mkRegExp (re_parse src) true.

End Re.

(* ===================================================================== *)
(** ** [Array.prototype.sort] *)
(* ===================================================================== *)

Section Sort.
Context {A : Type}.
Variable cmp : A -> A -> Z.

(** [x] goes before the first element it does not exceed, so equal
    elements keep their order (the sort is stable). *)
Fixpoint sort_insert (x : A) (l : list A) : list A :=
  match l with
  | [] => [x]
  | y :: l' => if cmp x y <=? 0 then x :: y :: l' else y :: sort_insert x l'
  end.

Fixpoint js_sort (l : list A) : list A :=
  match l with
  | [] => []
  | x :: l' => sort_insert x (js_sort l')
  end.
End Sort.

(** [a || b] on numbers. *)
Definition num_or (a b : Z) : Z := if a =? 0 then b else a.

(* ===================================================================== *)
(** ** Text normalisation shared by the detectors *)
(* ===================================================================== *)

(** [input.normalize('NFD').replace(/\p{M}+/gu, '')] on Latin-1: a letter
    with a canonical decomposition becomes its base letter; Latin-1 holds
    no combining mark. *)
Definition strip_diacritic (c : ascii) : ascii :=
  let n := Js.code c in
  if Js.in_range 192 197 n then "A"
  else if (n =? 199)%N then "C"
  else if Js.in_range 200 203 n then "E"
  else if Js.in_range 204 207 n then "I"
  else if (n =? 209)%N then "N"
  else if Js.in_range 210 214 n then "O"
  else if Js.in_range 217 220 n then "U"
  else if (n =? 221)%N then "Y"
  else if Js.in_range 224 229 n then "a"
  else if (n =? 231)%N then "c"
  else if Js.in_range 232 235 n then "e"
  else if Js.in_range 236 239 n then "i"
  else if (n =? 241)%N then "n"
  else if Js.in_range 242 246 n then "o"
  else if Js.in_range 249 252 n then "u"
  else if ((n =? 253) || (n =? 255))%N then "y"
  else c.

Definition normalizeDiacritics (input : string) : string := Js.smap strip_diacritic input.

(** [input.replace(/[\u2012\u2013\u2014\u2212]/g, '-')]: no Latin-1 code
    unit is one of these dashes. *)
Definition normalizeDashes (input : string) : string := input.

(** [s.replace(/\s+\n/g, '\n')]: a maximal run of white space that holds
    a line feed is cut back to one line feed placed at its last line
    feed; what follows that line feed stays. *)
Fixpoint ws_run (s : string) : string * string :=
  match s with
  | String c s' =>
      if Js.is_space c then let (r, t) := ws_run s' in (String c r, t)
      else (EmptyString, s)
  | EmptyString => (EmptyString, EmptyString)
  end.

Fixpoint after_last_lf (r : string) : option string :=
  match r with
  | EmptyString => None
  | String c r' =>
      match after_last_lf r' with
      | Some t => Some t
      | None => if (Js.code c =? 10)%N then Some r' else None
      end
  end.

Fixpoint strip_ws_before_lf (fuel : nat) (s : string) : string :=
  match fuel with
  | O => s
  | S fuel' =>
      match s with
      | EmptyString => EmptyString
      | String c s' =>
          if Js.is_space c then
            let (r, t) := ws_run s in
            match r with
            | String c0 r0 =>
                match after_last_lf r0 with
                | Some tail =>
                    String "010" (tail +:+ strip_ws_before_lf fuel' t)
                | None => r +:+ strip_ws_before_lf fuel' t
                end
            | EmptyString => String c (strip_ws_before_lf fuel' s')
            end
          else String c (strip_ws_before_lf fuel' s')
      end
  end.

Definition normalizeTextKeepLines (input : string) : string :=
  let s := normalizeDashes (normalizeDiacritics input) in
  let s1 := Js.collapse_blanks s in
  strip_ws_before_lf (S (String.length s1)) s1.

(* ===================================================================== *)
(** ** Line reconstruction *)
(* ===================================================================== *)

(** A pdf.js text item; [transform] holds the translation components
    [tr[4]], [tr[5]] of the item's matrix when the matrix is present. *)
Record PdfjsTextItem : Type := mkItem {
  str : string;
  transform : option (Z * Z);
  hasEOL : bool
}.

Record Span : Type := mkSpan { sp_text : string; sp_x : Z; sp_y : Z }.

Record Bucket : Type := mkBucket { b_y : Z; b_parts : list Span }.

Record Line : Type := mkLine { ln_page : Z; ln_text : string; ln_x : Z; ln_y : Z }.

Record DetectorConfig : Type := mkConfig {
  yTolerancePx : Z;
  gapXThresholdPx : Z;
  leftMarginPercentile : Z;
  headerFooterPercent : Z;
  scoreThreshold : Z;
  contextWindow : nat;
  debug : bool
}.

Definition DEFAULT_CONFIG : DetectorConfig := mkConfig 3 4 25 7 2 120 false.

(** The loop [for (const it of items)] that collects the spans. *)
Definition spanOfItem (it : PdfjsTextItem) : list Span :=
  if Js.truthy (str it) then
    match transform it with
    | Some (x, y) => [mkSpan (str it) x y]
    | None => [mkSpan (str it) 0 0]
    end
  else [].

Definition spansOf (items : list PdfjsTextItem) : list Span := flat_map spanOfItem items.

(** [(a, b) => (b.y - a.y) || (a.x - b.x)] *)
Definition cmpSpan (a b : Span) : Z := num_or (sp_y b - sp_y a) (sp_x a - sp_x b).

(** [(a, b) => a.x - b.x] *)
Definition cmpX (a b : Span) : Z := sp_x a - sp_x b.

(** [raw.find(l => Math.abs(l.y - sp.y) <= yTol)], then [push] onto the
    found bucket, or a new bucket at the end. *)
Fixpoint place (yTol : Z) (sp : Span) (raw : list Bucket) : list Bucket :=
  match raw with
  | [] => [mkBucket (sp_y sp) [sp]]
  | l :: raw' =>
      if Z.abs (b_y l - sp_y sp) <=? yTol
      then mkBucket (b_y l) (b_parts l ++ [sp]) :: raw'
      else l :: place yTol sp raw'
  end.

Definition groupSpans (yTol : Z) (spans : list Span) : list Bucket :=
  fold_left (fun raw sp => place yTol sp raw) spans [].

(** The buckets of one page, in creation order. *)
Definition rawLines (yTol : Z) (items : list PdfjsTextItem) : list Bucket :=
  groupSpans yTol (js_sort cmpSpan (spansOf items)).

(** The inner loop over [l.parts]; [prevX = None] is negative infinity. *)
Fixpoint joinParts (gapX : Z) (txt : string) (prevX : option Z) (parts : list Span) : string :=
  match parts with
  | [] => txt
  | p :: parts' =>
      let wide := match prevX with
                  | None => true
                  | Some px => gapX <? sp_x p - px
                  end in
      let txt1 := if Js.truthy txt && wide then txt +:+ " " else txt in
      joinParts gapX (txt1 +:+ sp_text p) (Some (sp_x p)) parts'
  end.

Definition bucketParts (l : Bucket) : list Span := js_sort cmpX (b_parts l).

Definition bucketText (gapX : Z) (l : Bucket) : string :=
  Js.trim (Js.collapse_ws (joinParts gapX EmptyString None (bucketParts l))).

Definition firstX (parts : list Span) : Z :=
  match parts with p :: _ => sp_x p | [] => 0 end.

Definition lineOfBucket (gapX : Z) (page : Z) (l : Bucket) : list Line :=
  let clean := bucketText gapX l in
  if Js.truthy clean then [mkLine page clean (firstX (bucketParts l)) (b_y l)] else [].

(** [buildLinesFromItems(items, page, cfg)] of the question detector. *)
Definition buildLinesFromItems (items : list PdfjsTextItem) (page : Z)
    (cfg : DetectorConfig) : list Line :=
  flat_map (lineOfBucket (gapXThresholdPx cfg) page) (rawLines (yTolerancePx cfg) items).

(** [percentile(values, p)]; [(p / 100) * n] is taken exactly. *)
Definition percentile (values : list Z) (p : Z) : Z :=
  match values with
  | [] => 0
  | _ =>
      let arr := js_sort Z.sub values in
      let n := Z.of_nat (length arr) in
      let idx := Z.min (n - 1) (Z.max 0 (p * n / 100)) in
      nth (Z.to_nat idx) arr 0
  end.

Inductive Band : Type := Header | Footer.

(** [isHeaderFooter(y, pageMinY, pageMaxY, percent)]; the comparisons with
    [(percent / 100) * span] are scaled by 100. *)
Definition isHeaderFooter (y pageMinY pageMaxY percent : Z) : option Band :=
  let span := Z.max 1 (pageMaxY - pageMinY) in
  if 100 * pageMaxY - percent * span <=? 100 * y then Some Header
  else if 100 * y <=? 100 * pageMinY + percent * span then Some Footer
  else None.

Definition first_code (s : string) : N :=
  match s with String c _ => Js.code c | EmptyString => 0%N end.

(** [letterRange(a, b)] *)
Definition letterRange (a b : string) : list string :=
  let s := first_code (Js.toLowerCase a) in
  let e := first_code (Js.toLowerCase b) in
  let lo := N.max 97 (N.min s e) in
  let hi := N.min 122 (N.max s e) in
  map (fun k => String (Js.chr (lo + N.of_nat k)) EmptyString)
      (seq 0 (N.to_nat (hi + 1 - lo))).

(* ===================================================================== *)
(** ** Tokens *)
(* ===================================================================== *)

Inductive TokenKind : Type := main | sub.

Record Position : Type := mkPosition { p_page : Z; p_x : Z; p_y : Z }.

Record TokenMeta : Type := mkToken {
  token : string;
  kind : TokenKind;
  parent : option string;
  tk_page : Z;
  tk_x : Z;
  tk_y : Z;
  confidence : Q;
  positions : option (list Position)
}.

Record PageInput : Type := mkPage {
  pg_page : Z;
  pg_items : list PdfjsTextItem;
  pg_width : option Z;
  pg_height : option Z
}.

(** The state that [detectQuestionsFromPages] threads through its loops. *)
Record DState : Type := mkDState {
  allTokens : list TokenMeta;
  tokenIndex : gmap string nat;
  lastMain : Z;
  lastMainPage : Z;
  anyMainAccepted : bool;
  lastSectionPage : Z
}.

Definition initDState : DState := mkDState [] ∅ 0 0 false (-1).

(** [Math.max(0, Math.min(1, n / d))] for [d > 0]. *)
Definition clamp01 (n d : Z) : Q :=
  if n <=? 0 then 0%Q
  else if d <=? n then 1%Q
  else Qmake n (Z.to_pos d).

(** The branch [if (!tokenIndex.has(token)) { set; push } else if
    (conf.debug) { positions = [...positions, pos] }]. *)
Definition recordToken (dbg : bool) (tk : TokenMeta) (st : DState) : DState :=
  match tokenIndex st !! token tk with
  | None =>
      mkDState (allTokens st ++ [tk])
               (<[token tk := length (allTokens st)]> (tokenIndex st))
               (lastMain st) (lastMainPage st) (anyMainAccepted st) (lastSectionPage st)
  | Some idx =>
      if dbg then
        let pos := mkPosition (tk_page tk) (tk_x tk) (tk_y tk) in
        let add (old : TokenMeta) :=
          mkToken (token old) (kind old) (parent old) (tk_page old) (tk_x old)
                  (tk_y old) (confidence old)
                  (Some (from_option id [] (positions old) ++ [pos])%list) in
        mkDState (alter add idx (allTokens st)) (tokenIndex st)
                 (lastMain st) (lastMainPage st) (anyMainAccepted st) (lastSectionPage st)
      else st
  end.

(** The branch of the sub-range expansion, which has no [else]. *)
Definition recordTokenIfNew (tk : TokenMeta) (st : DState) : DState :=
  match tokenIndex st !! token tk with
  | None => recordToken false tk st
  | Some _ => st
  end.

(** [(a, b) => (a.page - b.page) || (b.y - a.y) || (a.x - b.x)] *)
Definition cmpToken (a b : TokenMeta) : Z :=
  num_or (tk_page a - tk_page b) (num_or (tk_y b - tk_y a) (tk_x a - tk_x b)).

Definition list_max (d : Z) (l : list Z) : Z :=
  match l with
  | [] => d
  | v :: l' => fold_left Z.max l' v
  end.

Definition list_min (d : Z) (l : list Z) : Z :=
  match l with
  | [] => d
  | v :: l' => fold_left Z.min l' v
  end.

(* ===================================================================== *)
(** ** The question detector (the revision that re-sorts its tokens) *)
(* ===================================================================== *)

Module Detector.

Definition headingWord : string :=
  "(?:uppgift|problem|fr(?:a|\u00E5)ga|question|q\b|section|sektion)".

Definition headRe_src : string := "^\s*" +:+ headingWord.
Definition reMainHead_src : string :=
  "^\s*(?:" +:+ headingWord +:+ "\s*)?([1-9]\d?)(?!\s*p(?:oang|oints)?\b)\s*([\.:\)])?".
Definition reInlineCombined_src : string :=
  "^\s*([1-9]\d?)(?!\s*p(?:oang|points)?\b)\s*([a-zA-Z])\s*[\)\.:]".
Definition reSubOnly_src : string := "^\s*\(?([a-zA-Z])\)?\s*[\)\.:]".
Definition reSubRange_src : string :=
  "deluppgift(?:er)?[^a-zA-Z]{0,10}([a-zA-Z])\s*[\-\u2013\u2014]\s*([a-zA-Z])".
Definition reContext_src : string :=
  "(poa?ng|points|task|scenario|svara|beskriv|motivera|f(?:\u00F6r|or)klara|definiera|bevisa|visa|ber[a\u00E4]kna)".
Definition reDateTime_src : string :=
  "\b(?:\d{4}-\d{2}-\d{2}|\d{1,2}[\.\/\-]\d{1,2}[\.\/\-]\d{2,4}|\d{1,2}:\d{2}|(?:[01]\d|2[0-3])\d{2})\b".
Definition reNumericRange_src : string := "\b\d+\s*[\-\u2013\u2014]\s*\d+\b".
Definition rePageIndicator_src : string :=
  "\b(?:sida|page)\b(?:\s*\d+(?:\s*(?:av|of)\s*\d+)?)?".
Definition reScoreSummary_src : string :=
  "\b(?:max\s*poa?ng|betyg\s*\d|betyg\b|total(?:\s*poa?ng|\s*points)?|points?)\b".
Definition reNumFollowedByPoints_src : string :=
  "^\s*(?:" +:+ headingWord +:+ "\s*)?([1-9]\d?)\s?(?:\u00A0)?(?:p(?:[\)\.]|\b)|poa?ng\b|points\b)".
Definition reMultiNumbersRow_src : string :=
  "(?:\b\d+(?:[\.,]\d+)?\b[\s,;:]{1,3}){3,}\d+".
Definition reSectionHeading_src : string := "^\s*(?:sektion|section)\s+\d+[a-z]?\b".

Definition headRe := Eval vm_compute in Re.rxi headRe_src.
Definition reMainHead := Eval vm_compute in Re.rxi reMainHead_src.
Definition reInlineCombined := Eval vm_compute in Re.rx reInlineCombined_src.
Definition reSubOnly := Eval vm_compute in Re.rx reSubOnly_src.
Definition reSubRange := Eval vm_compute in Re.rxi reSubRange_src.
Definition reContext := Eval vm_compute in Re.rxi reContext_src.
Definition reDateTime := Eval vm_compute in Re.rx reDateTime_src.
Definition reNumericRange := Eval vm_compute in Re.rx reNumericRange_src.
Definition rePageIndicator := Eval vm_compute in Re.rxi rePageIndicator_src.
Definition reScoreSummary := Eval vm_compute in Re.rxi reScoreSummary_src.
Definition reNumFollowedByPoints := Eval vm_compute in Re.rxi reNumFollowedByPoints_src.
Definition reMultiNumbersRow := Eval vm_compute in Re.rx reMultiNumbersRow_src.
Definition reSectionHeading := Eval vm_compute in Re.rxi reSectionHeading_src.

Definition sources : list string :=
  [headRe_src; reMainHead_src; reInlineCombined_src; reSubOnly_src; reSubRange_src;
   reContext_src; reDateTime_src; reNumericRange_src; rePageIndicator_src;
   reScoreSummary_src; reNumFollowedByPoints_src; reMultiNumbersRow_src;
   reSectionHeading_src].

Definition MAX_SCORE : Z := 10.

(** [confFromScore] *)
Definition confFromScore (thr s : Z) : Q := clamp01 (s - thr) (Z.max 1 (MAX_SCORE - thr)).

(** The [fp] test: the line carries a number followed by a point marker,
    and that number is [mainNum]. *)
Definition followedByPoints (t : string) (mainNum : option Z) : bool :=
  match Re.smatch reNumFollowedByPoints t with
  | Some fp =>
      match Js.parseInt (Re.group_or_empty fp 1), mainNum with
      | Some a, Some b => a =? b
      | _, _ => false
      end
  | None => false
  end.

(** What the matching part of the loop body finds on one line. *)
Record Cand : Type := mkCand {
  c_mainNum : option Z;
  c_subLetter : option string;
  c_isSubOnly : bool;
  c_score : Z;
  c_excluded : bool
}.

(** The body of the [while] loop up to the sequence heuristics: the three
    pattern matches and the additive signals that do not read the state. *)
Definition scanLine (conf : DetectorConfig) (xThreshold maxY : Z) (ln : Line)
    (nextText : string) : Cand :=
  let t := normalizeTextKeepLines (ln_text ln) in
  let headerFoot := isHeaderFooter (ln_y ln) 0 maxY (headerFooterPercent conf) in
  let nearby := Js.slice 0 (contextWindow conf + 40) (t +:+ " " +:+ nextText) in
  let m := Re.smatch reMainHead t in
  (* main heading *)
  let '(mainNum, score, excluded) :=
    match m with
    | Some mm =>
        let n := Js.parseInt (Re.group_or_empty mm 1) in
        let sc := (if Re.test headRe t then 3 else 0)
                  + (if Js.truthy (Re.group_or_empty mm 2) then 2 else 0) in
        (n, sc, followedByPoints t n)
    | None => (None, 0, false)
    end in
  (* inline combined: 2a) *)
  let '(mainNum, subLetter, score, excluded) :=
    match m with
    | Some _ => (mainNum, None, score, excluded)
    | None =>
        match Re.smatch reInlineCombined t with
        | Some mi =>
            let n := Js.parseInt (Re.group_or_empty mi 1) in
            (n, Some (Js.toLowerCase (Re.group_or_empty mi 2)), score + 2,
             excluded || followedByPoints t n)
        | None => (mainNum, None, score, excluded)
        end
    end in
  (* sub-only row like a) *)
  let '(subLetter, isSubOnly) :=
    match m, subLetter with
    | None, None =>
        match Re.smatch reSubOnly t with
        | Some ms => (Some (Js.toLowerCase (Re.group_or_empty ms 1)), true)
        | None => (None, false)
        end
    | _, _ => (subLetter, false)
    end in
  (* additional signals *)
  let hasMain := match mainNum with Some _ => true | None => false end in
  let score := if hasMain && (ln_x ln <=? xThreshold) then score + 2 else score in
  let score := if hasMain && Re.test reContext nearby then score + 1 else score in
  (* section heading *)
  let isSection := Re.test reSectionHeading t && (ln_x ln <=? xThreshold) in
  let excluded := excluded || isSection in
  (* exclusions *)
  let score := if Re.test reDateTime t || Re.test reNumericRange t then score - 3 else score in
  let score := if Re.test reMultiNumbersRow t then score - 2 else score in
  let excluded := excluded || Re.test rePageIndicator t in
  let excluded := excluded || Re.test reScoreSummary t in
  let score := match headerFoot with Some _ => score - 2 | None => score end in
  mkCand mainNum subLetter isSubOnly score excluded.

(** [reSectionHeading.test(t) && ln.x <= xThreshold] *)
Definition isSectionLine (xThreshold : Z) (ln : Line) : bool :=
  Re.test reSectionHeading (normalizeTextKeepLines (ln_text ln)) && (ln_x ln <=? xThreshold).

(** The sequence heuristics, which read [lastMain], [lastMainPage] and
    [lastSectionPage]. *)
Definition seqScore (st : DState) (page : Z) (mainNum : Z) : Z :=
  if 0 <? lastMain st then
    if mainNum =? lastMain st + 1 then 2
    else if mainNum =? lastMain st then 1
    else if mainNum =? lastMain st + 2 then 0
    else if (mainNum <? lastMain st - 1) && (lastMainPage st + 1 <? page)
            && negb (lastMainPage st <=? lastSectionPage st) then -2
    else 0
  else
    (if (5 <? mainNum) && (page <=? 2) then -3 else 0)
    + (if 15 <=? mainNum then -2 else 0).

Definition setSeq (st : DState) (lm lmp : Z) (any : bool) : DState :=
  mkDState (allTokens st) (tokenIndex st) lm lmp any (lastSectionPage st).

Definition resetSection (st : DState) (page : Z) : DState :=
  mkDState (allTokens st) (tokenIndex st) 0 (lastMainPage st) (anyMainAccepted st) page.

(** One iteration of the [while] loop. *)
Definition processLine (conf : DetectorConfig) (page xThreshold maxY : Z)
    (ln : Line) (nextText : string) (st : DState) : DState :=
  let t := normalizeTextKeepLines (ln_text ln) in
  let c := scanLine conf xThreshold maxY ln nextText in
  (* section heading: soft reset *)
  let st := if isSectionLine xThreshold ln then resetSection st page else st in
  let score := match c_mainNum c with
               | Some n => c_score c + seqScore st page n
               | None => c_score c
               end in
  let thr := scoreThreshold conf in
  let tk (name : string) (k : TokenKind) (par : option string) : TokenMeta :=
    mkToken name k par page (ln_x ln) (ln_y ln) (confFromScore thr score) None in
  (* accept main candidate *)
  let '(acceptedMain, st) :=
    match c_mainNum c with
    | Some n =>
        if negb (c_excluded c) && (thr <=? score) then
          let st1 := recordToken (debug conf) (tk (Js.String_of n) main None) st in
          (true, setSeq st1 (Z.max (lastMain st1) n) page true)
        else (false, st)
    | None => (false, st)
    end in
  (* sub handling *)
  let st :=
    match c_subLetter c with
    | Some letter =>
        if Js.truthy letter
           && (acceptedMain
               || (negb (c_isSubOnly c) && anyMainAccepted st)
               || (0 <? lastMain st))
        then
          let par :=
            if acceptedMain then from_option Js.String_of EmptyString (c_mainNum c)
            else if negb (lastMain st =? 0) then Js.String_of (lastMain st)
            else from_option Js.String_of EmptyString (c_mainNum c) in
          if Js.truthy par
          then recordToken (debug conf) (tk (par +:+ letter) sub (Some par)) st
          else st
        else st
    | None => st
    end in
  (* expand sub-range near accepted mains *)
  if acceptedMain then
    let near := Js.slice 0 (contextWindow conf + 40) (t +:+ " " +:+ nextText) in
    match Re.smatch reSubRange near, c_mainNum c with
    | Some mr, Some n =>
        fold_left
          (fun s L => recordTokenIfNew (tk (Js.String_of n +:+ L) sub (Some (Js.String_of n))) s)
          (letterRange (Re.group_or_empty mr 1) (Re.group_or_empty mr 2)) st
    | _, _ => st
    end
  else st.

Fixpoint processLines (conf : DetectorConfig) (page xThreshold maxY : Z)
    (lines : list Line) (st : DState) : DState :=
  match lines with
  | [] => st
  | ln :: rest =>
      let nextText := match rest with
                      | l2 :: _ => normalizeTextKeepLines (ln_text l2)
                      | [] => EmptyString
                      end in
      processLines conf page xThreshold maxY rest
        (processLine conf page xThreshold maxY ln nextText st)
  end.

(** First pass: [linesByPage] and [allXs]. *)
Definition buildAll (conf : DetectorConfig) (pages : list PageInput)
    : gmap Z (list Line) * list Z :=
  fold_left
    (fun acc pi =>
       let lines := buildLinesFromItems (pg_items pi) (pg_page pi) conf in
       (<[pg_page pi := lines]> (fst acc), (snd acc ++ map ln_x lines)%list))
    pages (∅, []).

Definition processPage (conf : DetectorConfig) (linesByPage : gmap Z (list Line))
    (xThresholdGlobal : Z) (st : DState) (pageInput : PageInput) : DState :=
  let page := pg_page pageInput in
  let lines := from_option id [] (linesByPage !! page) in
  match pg_items pageInput, lines with
  | [], _ => st
  | _, [] => st
  | _, _ =>
      let maxY := match pg_height pageInput with
                  | Some h => h
                  | None => list_max 0 (map ln_y lines)
                  end in
      processLines conf page xThresholdGlobal maxY lines st
  end.

(** The tokens before the final sort. *)
Definition collect (conf : DetectorConfig) (pages : list PageInput) : DState :=
  let '(linesByPage, allXs) := buildAll conf pages in
  let xThresholdGlobal := percentile allXs (leftMarginPercentile conf) in
  fold_left (processPage conf linesByPage xThresholdGlobal) pages initDState.

(** [detectQuestionsFromPages(pages, cfg).tokens] *)
Definition detectQuestionsFromPages (pages : list PageInput) (conf : DetectorConfig)
    : list TokenMeta :=
  js_sort cmpToken (allTokens (collect conf pages)).

End Detector.

(* ===================================================================== *)
(** ** Completions: a normal value or a thrown exception *)
(* ===================================================================== *)

Inductive JsError : Type :=
| ReferenceError (what : string)   (* raised by the language *)
| HostError (what : string).       (* raised by a collaborator *)

Inductive Completion (A : Type) : Type :=
| Normal (a : A)
| Throw (e : JsError).

Arguments Normal {A} a.
Arguments Throw {A} e.

Definition bindC {A B} (c : Completion A) (f : A -> Completion B) : Completion B :=
  match c with
  | Normal a => f a
  | Throw e => Throw e
  end.

(* ===================================================================== *)
(** ** The question detector (the revision that keeps first-appearance
       order) *)
(* ===================================================================== *)

Module DetectorB.

Definition headingWord : string :=
  "(?:uppgift|problem|fraga|fr\u00E5ga|question|section|sektion|q)".

(** [new RegExp('^\s*' + headingWord, 'i')]: in the string literal [\s] is
    the letter s. *)
Definition head_src : string := "^s*" +:+ headingWord.
Definition reMainHead_src : string :=
  "^\s*(?:" +:+ headingWord +:+ "\s*)?([1-9]\d?)(?!\s*p(?:oang|oints)?\b)\s*([\.:\)])?".
Definition reInlineCombined_src : string :=
  "^\s*([1-9]\d?)(?!\s*p(?:oang|points)?\b)\s*([a-zA-Z])\s*\)".
Definition reSubOnly_src : string := "^\s*\(?([a-zA-Z])\)?\s*\)".
Definition reSubRange_src : string :=
  "deluppgift(?:er)?[^a-zA-Z]{0,10}([a-zA-Z])\s*[-\u2013\u2014]\s*([a-zA-Z])".
Definition reContext_src : string := "(poa?ng|points|task|scenario|svara|beskriv)".
Definition reDateTime_src : string :=
  "\b(?:\d{4}-\d{2}-\d{2}|\d{1,2}[\.\/\-]\d{1,2}[\.\/\-]\d{2,4}|\d{1,2}:\d{2})\b".
Definition reNumericRange_src : string := "\b\d+\s*[-\u2013\u2014]\s*\d+\b".
Definition rePageIndicator_src : string := "\b(?:sida|page)\s*\d+(?:\s*(?:av|of)\s*\d+)?\b".
Definition reScoreSummary_src : string :=
  "\b(?:max\s*poa?ng|betyg\s*\d|betyg\b|total(?:\s*poa?ng|\s*points)?|points?)\b".
Definition reNumFollowedByPoints_src : string :=
  "^\s*(?:" +:+ headingWord +:+ "\s*)?([1-9]\d?)\s{0,1}p(?:oang|oints)?\b".
Definition reMultiNumbersRow_src : string :=
  "(?:\b\d+(?:[\.,]\d+)?\b[\s,;:]{1,3}){3,}\d+".

Definition head := Eval vm_compute in Re.rxi head_src.
Definition reMainHead := Eval vm_compute in Re.rxi reMainHead_src.
Definition reInlineCombined := Eval vm_compute in Re.rx reInlineCombined_src.
Definition reSubOnly := Eval vm_compute in Re.rx reSubOnly_src.
Definition reSubRange := Eval vm_compute in Re.rxi reSubRange_src.
Definition reContext := Eval vm_compute in Re.rxi reContext_src.
Definition reDateTime := Eval vm_compute in Re.rx reDateTime_src.
Definition reNumericRange := Eval vm_compute in Re.rx reNumericRange_src.
Definition rePageIndicator := Eval vm_compute in Re.rxi rePageIndicator_src.
Definition reScoreSummary := Eval vm_compute in Re.rxi reScoreSummary_src.
Definition reNumFollowedByPoints := Eval vm_compute in Re.rxi reNumFollowedByPoints_src.
Definition reMultiNumbersRow := Eval vm_compute in Re.rx reMultiNumbersRow_src.

Definition sources : list string :=
  [head_src; reMainHead_src; reInlineCombined_src; reSubOnly_src; reSubRange_src;
   reContext_src; reDateTime_src; reNumericRange_src; rePageIndicator_src;
   reScoreSummary_src; reNumFollowedByPoints_src; reMultiNumbersRow_src].

Definition followedByPoints (t : string) (mainNum : option Z) : bool :=
  match Re.smatch reNumFollowedByPoints t with
  | Some fp =>
      match Js.parseInt (Re.group_or_empty fp 1), mainNum with
      | Some a, Some b => a =? b
      | _, _ => false
      end
  | None => false
  end.

(** [excluded = true] is written above the [let excluded = false] of the
    same block: the binding is still in its temporal dead zone, and the
    assignment throws. *)
Definition assignExcludedEarly {A : Type} : Completion A :=
  Throw (ReferenceError "Cannot access 'excluded' before initialization").

Record Cand : Type := mkCand {
  c_mainNum : option Z;
  c_subLetter : option string;
  c_isSubOnly : bool;
  c_score : Z;
  c_excluded : bool
}.

Definition scanLine (conf : DetectorConfig) (xThreshold minY maxY : Z) (ln : Line)
    (nextText : string) : Completion Cand :=
  let t := normalizeTextKeepLines (ln_text ln) in
  let headerFoot := isHeaderFooter (ln_y ln) minY maxY (headerFooterPercent conf) in
  let nearby := Js.slice 0 (contextWindow conf + 40) (t +:+ " " +:+ nextText) in
  let m := Re.smatch reMainHead t in
  bindC
    (match m with
     | Some mm =>
         let n := Js.parseInt (Re.group_or_empty mm 1) in
         let sc := (if Re.test head t then 3 else 0)
                   + (if Js.truthy (Re.group_or_empty mm 2) then 2 else 0) in
         if followedByPoints t n then assignExcludedEarly
         else Normal (n, sc)
     | None => Normal (None, 0)
     end)
    (fun '(mainNum, score) =>
  bindC
    (match m with
     | Some _ => Normal (mainNum, None, score)
     | None =>
         match Re.smatch reInlineCombined t with
         | Some mi =>
             let n := Js.parseInt (Re.group_or_empty mi 1) in
             if followedByPoints t n then assignExcludedEarly
             else Normal (n, Some (Js.toLowerCase (Re.group_or_empty mi 2)), score + 2)
         | None => Normal (mainNum, None, score)
         end
     end)
    (fun '(mainNum, subLetter, score) =>
  let '(subLetter, isSubOnly) :=
    match m, subLetter with
    | None, None =>
        match Re.smatch reSubOnly t with
        | Some ms => (Some (Js.toLowerCase (Re.group_or_empty ms 1)), true)
        | None => (None, false)
        end
    | _, _ => (subLetter, false)
    end in
  let hasMain := match mainNum with Some _ => true | None => false end in
  let score := if hasMain && (ln_x ln <=? xThreshold) then score + 2 else score in
  let score := if hasMain && Re.test reContext nearby then score + 1 else score in
  (* let excluded = false; *)
  let excluded := false in
  let score := if Re.test reDateTime t || Re.test reNumericRange t then score - 3 else score in
  let score := if Re.test reMultiNumbersRow t then score - 2 else score in
  let excluded := excluded || Re.test rePageIndicator t in
  let excluded := excluded || Re.test reScoreSummary t in
  let score := match headerFoot with Some _ => score - 2 | None => score end in
  Normal (mkCand mainNum subLetter isSubOnly score excluded))).

Definition seqScore (st : DState) (page : Z) (mainNum : Z) : Z :=
  if 0 <? lastMain st then
    if mainNum =? lastMain st + 1 then 2
    else if mainNum =? lastMain st then 1
    else if mainNum =? lastMain st + 2 then 0
    else if (mainNum <? lastMain st - 1) && (lastMainPage st + 1 <? page) then -2
    else 0
  else
    (if (5 <? mainNum) && (page <=? 2) then -3 else 0)
    + (if 15 <=? mainNum then -2 else 0).

Definition setSeq (st : DState) (lm lmp : Z) (any : bool) : DState :=
  mkDState (allTokens st) (tokenIndex st) lm lmp any (lastSectionPage st).

Definition processLine (conf : DetectorConfig) (page xThreshold minY maxY : Z)
    (ln : Line) (nextText : string) (st : DState) : Completion DState :=
  let t := normalizeTextKeepLines (ln_text ln) in
  bindC (scanLine conf xThreshold minY maxY ln nextText) (fun c =>
  let score := match c_mainNum c with
               | Some n => c_score c + seqScore st page n
               | None => c_score c
               end in
  let thr := scoreThreshold conf in
  let tk (name : string) (k : TokenKind) (par : option string) (cf : Q) : TokenMeta :=
    mkToken name k par page (ln_x ln) (ln_y ln) cf None in
  let '(acceptedMain, st) :=
    match c_mainNum c with
    | Some n =>
        if negb (c_excluded c) && (thr <=? score) then
          let st1 := recordToken (debug conf)
                       (tk (Js.String_of n) main None (clamp01 (score - (thr - 1)) 8)) st in
          (true, setSeq st1 (Z.max (lastMain st1) n) page true)
        else (false, st)
    | None => (false, st)
    end in
  let st :=
    match c_subLetter c with
    | Some letter =>
        if Js.truthy letter
           && (acceptedMain
               || (negb (c_isSubOnly c) && anyMainAccepted st)
               || (0 <? lastMain st))
        then
          let par :=
            if acceptedMain then from_option Js.String_of EmptyString (c_mainNum c)
            else if negb (lastMain st =? 0) then Js.String_of (lastMain st)
            else from_option Js.String_of EmptyString (c_mainNum c) in
          if Js.truthy par
          then recordToken (debug conf)
                 (tk (par +:+ letter) sub (Some par) (clamp01 (score - (thr - 2)) 8)) st
          else st
        else st
    | None => st
    end in
  if acceptedMain then
    let near := Js.slice 0 (contextWindow conf + 40) (t +:+ " " +:+ nextText) in
    match Re.smatch reSubRange near, c_mainNum c with
    | Some mr, Some n =>
        Normal (fold_left
          (fun s L => recordTokenIfNew
                        (tk (Js.String_of n +:+ L) sub (Some (Js.String_of n)) (3 # 5)%Q) s)
          (letterRange (Re.group_or_empty mr 1) (Re.group_or_empty mr 2)) st)
    | _, _ => Normal st
    end
  else Normal st).

Fixpoint processLines (conf : DetectorConfig) (page xThreshold minY maxY : Z)
    (lines : list Line) (st : DState) : Completion DState :=
  match lines with
  | [] => Normal st
  | ln :: rest =>
      let nextText := match rest with
                      | l2 :: _ => normalizeTextKeepLines (ln_text l2)
                      | [] => EmptyString
                      end in
      bindC (processLine conf page xThreshold minY maxY ln nextText st)
            (processLines conf page xThreshold minY maxY rest)
  end.

(** One iteration of [for (const pageInput of pages)].  With no line the
    [while] loop does not run. *)
Definition processPage (conf : DetectorConfig) (st : DState) (pageInput : PageInput)
    : Completion DState :=
  match pg_items pageInput with
  | [] => Normal st
  | items =>
      let page := pg_page pageInput in
      let lines := buildLinesFromItems items page conf in
      let xThreshold := percentile (map ln_x lines) (leftMarginPercentile conf) in
      let minY := list_min 0 (map ln_y lines) in
      let maxY := list_max 0 (map ln_y lines) in
      processLines conf page xThreshold minY maxY lines st
  end.

Fixpoint processPages (conf : DetectorConfig) (pages : list PageInput) (st : DState)
    : Completion DState :=
  match pages with
  | [] => Normal st
  | pi :: rest => bindC (processPage conf st pi) (processPages conf rest)
  end.

(** [detectQuestionsFromPages(pages, cfg).tokens], or the exception the
    call throws. *)
Definition detectQuestionsFromPages (pages : list PageInput) (conf : DetectorConfig)
    : Completion (list TokenMeta) :=
  bindC (processPages conf pages initDState) (fun st => Normal (allTokens st)).

End DetectorB.

(* ===================================================================== *)
(** ** The text-layer and flat-text detectors of the PDF parser *)
(* ===================================================================== *)

Module Pdf.

(** A reconstructed line, as [parsePdf] keeps it. *)
Record TextLine : Type := mkTextLine { tl_text : string; tl_page : Z }.

(** A question record; the constant fields [theme], [status],
    [difficulty] and [comments] are left out. *)
Record Question : Type := mkQuestion {
  q_id : string;
  q_number : string;
  q_points : Z;
  q_page : option Z;
  q_confidence : option Z
}.

(** [buildLinesFromItems(items, page)] of the parser: tolerance 3 and gap
    threshold 3, and the lines keep no coordinates. *)
Definition textLineOfBucket (page : Z) (l : Bucket) : list TextLine :=
  let clean := bucketText 3 l in
  if Js.truthy clean then [mkTextLine clean page] else [].

Definition buildLinesFromItems (items : list PdfjsTextItem) (page : Z) : list TextLine :=
  flat_map (textLineOfBucket page) (rawLines 3 items).

(** *** Shared helpers of the extractors *)

Definition rePts1 := Eval vm_compute in Re.rxi "\((\d{1,3})\s*p(?:oang)?\)".
Definition rePts2 := Eval vm_compute in Re.rxi "(\d{1,3})\s*p(?:oang)?\b".
Definition rePts3 := Eval vm_compute in Re.rxi "\b(?:poang|points)\s*:?\s*(\d{1,3})\b".
Definition rePtsList := Eval vm_compute in
  Re.rxi "\((\s*\d{1,3}(?:\s*\+\s*\d{1,3})+)\)\s*p?(?:oang)?".

Fixpoint first_points (patterns : list Re.RegExp) (s : string) : option Z :=
  match patterns with
  | [] => None
  | re :: rest =>
      match Re.smatch re s with
      | Some m =>
          match Js.parseInt (Re.group_or_empty m 1) with
          | Some v => Some v
          | None => first_points rest s
          end
      | None => first_points rest s
      end
  end.

(** [parsePts(seg)] *)
Definition parsePts (seg : string) : option Z :=
  first_points [rePts1; rePts2; rePts3] (normalizeDiacritics seg).

(** [parsePtsList(seg)] *)
Definition parsePtsList (seg : string) : option (list Z) :=
  match Re.smatch rePtsList (normalizeDiacritics seg) with
  | None => None
  | Some m =>
      let list := omap (fun s => Js.parseInt (Js.trim s))
                       (Js.split_on "+" EmptyString (Re.group_or_empty m 1)) in
      if (2 <=? length list)%nat then Some list else None
  end.

(** The detection state: [mainOrder], [hasMain], [subOrder],
    [pointsByToken], [pageByToken]. *)
Record XState : Type := mkXState {
  mainOrder : list Z;
  hasMain : gset Z;
  subOrder : gmap Z (list string);
  pointsByToken : gmap string Z;
  pageByToken : gmap string Z
}.

Definition initXState : XState := mkXState [] ∅ ∅ ∅ ∅.

Definition ensureMain (n : Z) (st : XState) : XState :=
  let '(mo, hm) :=
    if decide (n ∈ hasMain st) then (mainOrder st, hasMain st)
    else ((mainOrder st ++ [n])%list, {[n]} ∪ hasMain st) in
  let so := match subOrder st !! n with
            | Some _ => subOrder st
            | None => <[n := []]> (subOrder st)
            end in
  mkXState mo hm so (pointsByToken st) (pageByToken st).

Definition subsOf (st : XState) (n : Z) : list string :=
  from_option id [] (subOrder st !! n).

Definition includes (l : list string) (x : string) : bool :=
  existsb (String.eqb x) l.

(** [const arr = subOrder.get(n)!; if (!arr.includes(L)) arr.push(L)] *)
Definition pushSub (n : Z) (L : string) (st : XState) : XState :=
  if includes (subsOf st n) L then st
  else mkXState (mainOrder st) (hasMain st)
                (<[n := (subsOf st n ++ [L])%list]> (subOrder st))
                (pointsByToken st) (pageByToken st).

Definition setSubs (n : Z) (subs : list string) (st : XState) : XState :=
  mkXState (mainOrder st) (hasMain st) (<[n := subs]> (subOrder st))
           (pointsByToken st) (pageByToken st).

(** [if (!pointsByToken.has(token)) pointsByToken.set(token, pts)] *)
Definition setPoints (tok : string) (pts : Z) (st : XState) : XState :=
  match pointsByToken st !! tok with
  | Some _ => st
  | None => mkXState (mainOrder st) (hasMain st) (subOrder st)
                     (<[tok := pts]> (pointsByToken st)) (pageByToken st)
  end.

Definition setPointsOpt (tok : string) (pts : option Z) (st : XState) : XState :=
  match pts with Some v => setPoints tok v st | None => st end.

(** [if (!pageByToken.has(token)) pageByToken.set(token, page)] *)
Definition setPage (tok : string) (page : Z) (st : XState) : XState :=
  match pageByToken st !! tok with
  | Some _ => st
  | None => mkXState (mainOrder st) (hasMain st) (subOrder st)
                     (pointsByToken st) (<[tok := page]> (pageByToken st))
  end.

Definition hasPoints (st : XState) (tok : string) : bool :=
  match pointsByToken st !! tok with Some _ => true | None => false end.

Definition tokenOf (n : Z) (L : string) : string := Js.String_of n +:+ L.

(** Points near a match: ahead of it first, then behind it. *)
Definition pointsAround (t : string) (m : Re.MatchResult) : option Z :=
  let e := Re.m_end m in
  let ahead := Js.slice e (e + 120) t in
  let behind := Js.slice (Re.m_index m - 50) (Re.m_index m) t in
  match parsePts ahead with
  | Some v => Some v
  | None => parsePts behind
  end.

(** The letters [a], [b], ... for [k < count]. *)
Definition firstLetters (count : nat) : list string :=
  map (fun k => String (Js.chr (97 + N.of_nat k)) EmptyString) (seq 0 count).

(** The loop [for (let k = 0; k < L; k++)] that hands out the points of a
    distribution list to the sub-letters, by position. *)
Fixpoint assignList (withPage : option Z) (n : Z) (subs : list string) (pts : list Z)
    (st : XState) : XState :=
  match subs, pts with
  | L :: subs', v :: pts' =>
      let tok := tokenOf n L in
      let st1 := match withPage with Some p => setPage tok p st | None => st end in
      assignList withPage n subs' pts' (setPoints tok v st1)
  | _, _ => st
  end.

(** The final loop over [mainOrder], with its cap test after each main
    question. *)
Fixpoint emitTokens (so : gmap Z (list string)) (mo : list Z) (tokens : list string)
    : list string :=
  match mo with
  | [] => tokens
  | n :: rest =>
      let subs := from_option id [] (so !! n) in
      let tokens1 :=
        match subs with
        | [] => (tokens ++ [Js.String_of n])%list
        | _ => (tokens ++ map (tokenOf n) subs)%list
        end in
      if (150 <=? length tokens1)%nat then tokens1
      else emitTokens so rest tokens1
  end.

Definition finalTokens (st : XState) : list string :=
  emitTokens (subOrder st) (mainOrder st) [].

(** *** [extractQuestionsFromLines] *)

Definition mainLineRe := Eval vm_compute in
  Re.rxi "^(?:uppg(?:ift)?|problem|fraga|question|q)?\s*([1-9]\d?)\s*(?:[\)\.:]|\b)".
Definition letterLineRe := Eval vm_compute in
  Re.rx "^(?:deluppgift\s*)?\(?([a-zA-Z])\)?\s*[\)\.:]".
Definition combinedRe := Eval vm_compute in
  Re.rx "(?:\b(?:uppgift|problem|fraga|question|q)\s*)?([1-9]\d?)\s*([a-zA-Z])\s*[\)\.:]".
Definition eachRe := Eval vm_compute in
  Re.rxi "deluppgift(?:er)?[^a-zA-Z]{0,10}([a-zA-Z])\s*[\-\u2013\u2014]\s*([a-zA-Z]).*?(vardera|var)".

(** One iteration of [while ((m = combinedRe.exec(t)) !== null)]. *)
Definition onCombined (withPage : option Z) (t : string) (st : XState) (m : Re.MatchResult)
    : XState :=
  match Js.parseInt (Re.group_or_empty m 1) with
  | None => st
  | Some n =>
      let L := Js.toLowerCase (Re.group_or_empty m 2) in
      let st := pushSub n L (ensureMain n st) in
      let tok := tokenOf n L in
      let st := match withPage with Some p => setPage tok p st | None => st end in
      if hasPoints st tok then st else setPointsOpt tok (pointsAround t m) st
  end.

(** The loop over the letters of a "Deluppgifter a-d: 3p vardera" phrase. *)
Definition onEach (withPage : option Z) (n : Z) (ptsEach : Z) (letters : list string)
    (st : XState) : XState :=
  fold_left
    (fun s L =>
       let s := pushSub n L (ensureMain n s) in
       let s := match withPage with Some p => setPage (tokenOf n L) p s | None => s end in
       setPoints (tokenOf n L) ptsEach s)
    letters st.

(** The "(3+2+1)p" distribution tied to main question [n]. *)
Definition onList (withPage : option Z) (n : Z) (nearby : string) (st : XState) : XState :=
  match parsePtsList nearby with
  | Some (v :: list') =>
      let list := v :: list' in
      let st := ensureMain n st in
      let st := match subsOf st n with
                | [] => setSubs n (firstLetters (Nat.min 26 (length list))) st
                | _ => st
                end in
      assignList withPage n (subsOf st n) list st
  | _ => st
  end.

(** The body of the [for] loop over the lines; [next] is the following
    line, if there is one. *)
Definition lineStep (ln : TextLine) (next : option TextLine)
    (acc : XState * option Z) : XState * option Z :=
  let '(st, currentMain) := acc in
  let page := tl_page ln in
  let t := normalizeDiacritics (tl_text ln) in
  let nextText := match next with
                  | Some l2 => Some (normalizeDiacritics (tl_text l2))
                  | None => None
                  end in
  (* inline combined tokens like 2a) *)
  let st := fold_left (onCombined (Some page) t) (Re.exec_all combinedRe t) st in
  let main_hit :=
    match Re.smatch mainLineRe t with
    | Some mm =>
        match Js.parseInt (Re.group_or_empty mm 1) with
        | Some n => Some (mm, n)
        | None => None
        end
    | None => None
    end in
  match main_hit with
  | Some (mm, n) =>
      (* main line markers *)
      let st := setPage (Js.String_of n) page (ensureMain n st) in
      let rem := Js.drop (String.length (Re.m0 mm)) t in
      let pts := match parsePts rem, nextText with
                 | Some v, _ => Some v
                 | None, Some nt => parsePts nt
                 | None, None => None
                 end in
      let st := setPointsOpt (Js.String_of n) pts st in
      let nearby := rem +:+ " " +:+ from_option id EmptyString nextText in
      let st :=
        match Re.smatch eachRe nearby, parsePts nearby with
        | Some eachM, Some ptsEach =>
            onEach (Some page) n ptsEach
                   (letterRange (Re.group_or_empty eachM 1) (Re.group_or_empty eachM 2)) st
        | _, _ => st
        end in
      (onList (Some page) n nearby st, Some n)
  | None =>
      (* letter-only under current main *)
      match Re.smatch letterLineRe t, currentMain with
      | Some lm, Some cm =>
          let L := Js.toLowerCase (Re.group_or_empty lm 1) in
          let st := pushSub cm L (ensureMain cm st) in
          let rem := Js.drop (String.length (Re.m0 lm)) t in
          let pts := match parsePts rem, nextText with
                     | Some v, _ => Some v
                     | None, Some nt => parsePts nt
                     | None, None => None
                     end in
          let tok := tokenOf cm L in
          (setPointsOpt tok pts (setPage tok page st), currentMain)
      | _, _ => (st, currentMain)
      end
  end.

Fixpoint linesLoop (lines : list TextLine) (acc : XState * option Z) : XState * option Z :=
  match lines with
  | [] => acc
  | ln :: rest => linesLoop rest (lineStep ln (head rest) acc)
  end.

Definition questionOf (st : XState) (withPage : bool) (tok : string) : Question :=
  mkQuestion ("q-" +:+ tok) tok (from_option id 0 (pointsByToken st !! tok))
             (if withPage then pageByToken st !! tok else None) None.

(** [extractQuestionsFromLines(lines)] *)
Definition extractQuestionsFromLines (lines : list TextLine) : list Question :=
  let st := fst (linesLoop lines (initXState, None)) in
  map (questionOf st true) (finalTokens st).

(** *** [extractQuestionsFromText2] *)

Module Text2.

Definition uprefix : string := "(?:\b(?:uppg(?:ift)?|problem|fraga|question|q)\s*)?".

Definition combinedRe_src : string := uprefix +:+ "([1-9]\d?)\s*([a-zA-Z])\s*[\)\.:]".
Definition mainGlobalRe_src : string :=
  "(?:^|[^A-Za-z0-9])" +:+ uprefix +:+ "([1-9]\d?)(?=\s|[\)\.:])".

Definition combinedRe := Eval vm_compute in Re.rxi combinedRe_src.
Definition mainGlobalRe := Eval vm_compute in Re.rxi mainGlobalRe_src.
Definition letterAnyRe := Eval vm_compute in
  Re.rx "(?:^|[^a-zA-Z0-9])(?:deluppgift\s*)?\(?([a-zA-Z])\)?\s*[\)\.:]".

(** The combined-token loop, which stops once [mainOrder] holds 80
    entries. *)
Fixpoint combinedLoop (normalized : string) (ms : list Re.MatchResult) (st : XState)
    : XState :=
  match ms with
  | [] => st
  | m :: rest =>
      match Js.parseInt (Re.group_or_empty m 1) with
      | None => combinedLoop normalized rest st
      | Some _ =>
          let st1 := onCombined None normalized st m in
          if (80 <=? length (mainOrder st1))%nat then st1
          else combinedLoop normalized rest st1
      end
  end.

(** The body of the line loop; the lines are the trimmed lines of the raw
    text. *)
Definition lineStep (line : string) (next : option string)
    (acc : XState * option Z) : XState * option Z :=
  let '(st, currentMain) := acc in
  let main_hit :=
    match Re.smatch mainLineRe line with
    | Some mm =>
        match Js.parseInt (Re.group_or_empty mm 1) with
        | Some n => Some (mm, n)
        | None => None
        end
    | None => None
    end in
  match main_hit with
  | Some (mm, n) =>
      let st := ensureMain n st in
      let rem := Js.drop (String.length (Re.m0 mm)) line in
      let pts := match parsePts rem, next with
                 | Some v, _ => Some v
                 | None, Some nt => parsePts nt
                 | None, None => None
                 end in
      let st := match pts, subsOf st n with
                | Some v, [] => setPoints (Js.String_of n) v st
                | _, _ => st
                end in
      let nearby := rem +:+ " " +:+ from_option id EmptyString next in
      let st :=
        match Re.smatch eachRe nearby, parsePts nearby with
        | Some eachM, Some ptsEach =>
            onEach None n ptsEach
                   (letterRange (Re.group_or_empty eachM 1) (Re.group_or_empty eachM 2)) st
        | _, _ => st
        end in
      (onList None n nearby st, Some n)
  | None =>
      match Re.smatch letterLineRe line, currentMain with
      | Some lm, Some cm =>
          let L := Js.toLowerCase (Re.group_or_empty lm 1) in
          let st := pushSub cm L (ensureMain cm st) in
          let rem := Js.drop (String.length (Re.m0 lm)) line in
          let pts := match parsePts rem, next with
                     | Some v, _ => Some v
                     | None, Some nt => parsePts nt
                     | None, None => None
                     end in
          (setPointsOpt (tokenOf cm L) pts st, currentMain)
      | _, _ => (st, currentMain)
      end
  end.

Fixpoint linesLoop (lines : list string) (acc : XState * option Z) : XState * option Z :=
  match lines with
  | [] => acc
  | ln :: rest => linesLoop rest (lineStep ln (head rest) acc)
  end.

(** [mainHits]: number and index of every hit of [mainGlobalRe]. *)
Definition mainHitsOf (normalized : string) : list (Z * nat) :=
  omap (fun mh => match Js.parseInt (Re.group_or_empty mh 1) with
                  | Some n => Some (n, Re.m_index mh)
                  | None => None
                  end)
       (Re.exec_all mainGlobalRe normalized).

(** The closest preceding main: the last hit whose index is at most
    [pos]. *)
Definition attachedMain (mainHits : list (Z * nat)) (pos : nat) : option Z :=
  match List.filter (fun h => (snd h <=? pos)%nat) (rev mainHits) with
  | h :: _ => Some (fst h)
  | [] => None
  end.

Definition onLetter (normalized : string) (mainHits : list (Z * nat)) (st : XState)
    (lh : Re.MatchResult) : XState :=
  match attachedMain mainHits (Re.m_index lh) with
  | Some attached =>
      let L := Js.toLowerCase (Re.group_or_empty lh 1) in
      let st := pushSub attached L (ensureMain attached st) in
      setPointsOpt (tokenOf attached L) (pointsAround normalized lh) st
  | None => st
  end.

(** The state after the three passes. *)
Definition collect (text : string) : XState :=
  let normalized := Js.trim (Js.collapse_ws (normalizeDiacritics text)) in
  let st := combinedLoop normalized (Re.exec_all combinedRe normalized) initXState in
  let lines := map Js.trim (Js.split_lines text) in
  let st := fst (linesLoop lines (st, None)) in
  fold_left (onLetter normalized (mainHitsOf normalized))
            (Re.exec_all letterAnyRe normalized) st.

End Text2.

(** [extractQuestionsFromText2(text)] *)
Definition extractQuestionsFromText2 (text : string) : list Question :=
  let st := Text2.collect text in
  map (questionOf st false) (finalTokens st).

(** *** [filterHeaderFooterLines] *)

(** [byPage]: the lines of each page, pages in order of first
    appearance. *)
Fixpoint addToPage (ln : TextLine) (byPage : list (Z * list TextLine))
    : list (Z * list TextLine) :=
  match byPage with
  | [] => [(tl_page ln, [ln])]
  | (p, arr) :: rest =>
      if p =? tl_page ln then (p, (arr ++ [ln])%list) :: rest
      else (p, arr) :: addToPage ln rest
  end.

Definition groupByPage (lines : list TextLine) : list (Z * list TextLine) :=
  fold_left (fun bp ln => addToPage ln bp) lines [].

Definition TOP_K : nat := 3.
Definition BOTTOM_K : nat := 3.

(** [arr.slice(0, TOP_K)] and [arr.slice(Math.max(0, arr.length - BOTTOM_K))] *)
Definition topOf (arr : list TextLine) : list TextLine := firstn TOP_K arr.
Definition botOf (arr : list TextLine) : list TextLine := skipn (length arr - BOTTOM_K) arr.

(** [count.set(key, (count.get(key) || 0) + 1)] *)
Definition bump (count : gmap string Z) (ln : TextLine) : gmap string Z :=
  <[tl_text ln := from_option id 0 (count !! tl_text ln) + 1]> count.

Definition countTexts (groups : list (list TextLine)) : gmap string Z :=
  fold_left (fun cnt grp => fold_left bump grp cnt) groups ∅.

(** [Math.max(2, Math.floor(0.6 * Math.max(1, totalPages)))] *)
Definition threshold (totalPages : Z) : Z := Z.max 2 (3 * Z.max 1 totalPages / 5).

(** Membership in [topCommon] / [botCommon]. *)
Definition common (count : gmap string Z) (thr : Z) (text : string) : bool :=
  match count !! text with
  | Some c => thr <=? c
  | None => false
  end.

(** The inner loop over one page: the lines that are kept. *)
Fixpoint keepFrom (topCount bottomCount : gmap string Z) (thr : Z) (len : nat) (i : nat)
    (arr : list TextLine) : list TextLine :=
  match arr with
  | [] => []
  | ln :: rest =>
      let isTop := (i <? 3)%nat && common topCount thr (tl_text ln) in
      let isBot := (len <=? i + 3)%nat && common bottomCount thr (tl_text ln) in
      if isTop || isBot then keepFrom topCount bottomCount thr len (S i) rest
      else ln :: keepFrom topCount bottomCount thr len (S i) rest
  end.

(** [(a, b) => a.page - b.page] *)
Definition cmpPage (a b : TextLine) : Z := tl_page a - tl_page b.

(** [filterHeaderFooterLines(lines, totalPages)] *)
Definition filterHeaderFooterLines (lines : list TextLine) (totalPages : Z)
    : list TextLine :=
  let byPage := groupByPage lines in
  let topCount := countTexts (map (fun pa => topOf (snd pa)) byPage) in
  let bottomCount := countTexts (map (fun pa => botOf (snd pa)) byPage) in
  let thr := threshold totalPages in
  let out := flat_map (fun pa => keepFrom topCount bottomCount thr (length (snd pa)) 0 (snd pa))
                      byPage in
  js_sort cmpPage out.

End Pdf.

(* ===================================================================== *)
(** ** Course metadata detectors and text repair *)
(* ===================================================================== *)

Module Meta.

(** [s.replace(re, f)] for a regular expression with the [g] flag. *)
Fixpoint replace_matches (s : string) (from : nat) (ms : list Re.MatchResult)
    (f : Re.MatchResult -> string) : string :=
  match ms with
  | [] => Js.drop from s
  | m :: rest =>
      Js.slice from (Re.m_index m) s +:+ f m
        +:+ replace_matches s (Re.m_end m) rest f
  end.

Definition replace_all (re : Re.RegExp) (f : Re.MatchResult -> string) (s : string) : string :=
  replace_matches s 0 (Re.exec_all re s) f.

(** [s.replace(re, f)] for a regular expression without the [g] flag. *)
Definition replace_first (re : Re.RegExp) (f : Re.MatchResult -> string) (s : string) : string :=
  match Re.smatch re s with
  | Some m => Js.slice 0 (Re.m_index m) s +:+ f m +:+ Js.drop (Re.m_end m) s
  | None => s
  end.

(** [String.prototype.toUpperCase]: U+00DF becomes "SS". *)
Fixpoint toUpperCase (s : string) : string :=
  match s with
  | EmptyString => EmptyString
  | String c s' =>
      if (Js.code c =? 223)%N then String "S" (String "S" (toUpperCase s'))
      else String (Js.upper c) (toUpperCase s')
  end.

(** [s.replace(/[.*+?^${}()|[\]\\]/g, '\\$&')] *)
Definition is_special (c : ascii) : bool :=
  existsb (fun n => (Js.code c =? n)%N)
          [46; 42; 43; 63; 94; 36; 123; 125; 40; 41; 124; 91; 93; 92]%N.

Fixpoint escapeRegExp (s : string) : string :=
  match s with
  | EmptyString => EmptyString
  | String c s' =>
      if is_special c then String "\" (String c (escapeRegExp s'))
      else String c (escapeRegExp s')
  end.

(** *** [repairCommonMisencoding] *)

(** The entries of [map] whose keys lie in Latin-1, in order; [s.split(bad)
    .join(good)] replaces every occurrence. *)
Definition misencoded : list (string * string) :=
  [ (String "195" (String "165" EmptyString), String "229" EmptyString);
    (String "195" (String "164" EmptyString), String "228" EmptyString);
    (String "195" (String "182" EmptyString), String "246" EmptyString);
    (String "194" (String " " EmptyString), EmptyString);
    (String "194" (String "183" EmptyString), String "183" EmptyString);
    (String "194" (String "169" EmptyString), String "169" EmptyString);
    (String "194" (String "174" EmptyString), String "174" EmptyString);
    (String "194" (String "176" EmptyString), String "176" EmptyString) ].

Fixpoint replace_pair (a b : ascii) (good : string) (s : string) : string :=
  match s with
  | String x ((String y s'') as s') =>
      if Ascii.eqb x a && Ascii.eqb y b then good +:+ replace_pair a b good s''
      else String x (replace_pair a b good s')
  | _ => s
  end.

Definition replace_literal (bad good : string) (s : string) : string :=
  match bad with
  | String a (String b EmptyString) => replace_pair a b good s
  | _ => s
  end.

Definition reDiaeresisA := Eval vm_compute in Re.rx "\u00A8\s*([aA])".
Definition reDiaeresisO := Eval vm_compute in Re.rx "\u00A8\s*([oO])".
Definition reRingA := Eval vm_compute in Re.rx "[\u02DA\u00B0]\s*([aA])".

Definition pick (upperCase : string) (ifUpper ifLower : ascii) (m : Re.MatchResult) : string :=
  if String.eqb (Re.group_or_empty m 1) upperCase
  then String ifUpper EmptyString else String ifLower EmptyString.

Definition repairCommonMisencoding (input : string) : string :=
  let s := fold_left (fun s bg => replace_literal (fst bg) (snd bg) s) misencoded input in
  let s := replace_all reDiaeresisA (pick "A" "196" "228") s in
  let s := replace_all reDiaeresisO (pick "O" "214" "246") s in
  let s := replace_all reRingA (pick "A" "197" "229") s in
  (* s.normalize('NFC') leaves Latin-1 text as it is *)
  Js.collapse_blanks s.

(** *** Course code *)

Definition fnPatterns : list Re.RegExp :=
  Eval vm_compute in
  [ Re.rx "\b([A-Z]{2})[\s\-_.]?(\d{4})\b";
    Re.rx "\b([A-Z]{3})[\s\-_.]?(\d{3})\b";
    Re.rx "\b([A-Z]{4})[\s\-_.]?(\d{2})\b" ].

(** The first match whose two groups are non-empty. *)
Fixpoint firstCode (ms : list Re.MatchResult) : option string :=
  match ms with
  | [] => None
  | m :: rest =>
      if Js.truthy (Re.group_or_empty m 1) && Js.truthy (Re.group_or_empty m 2)
      then Some (Re.group_or_empty m 1 +:+ Re.group_or_empty m 2)
      else firstCode rest
  end.

Fixpoint firstOf {A B} (f : A -> option B) (l : list A) : option B :=
  match l with
  | [] => None
  | a :: l' => match f a with Some b => Some b | None => firstOf f l' end
  end.

(** [detectCourseCodeFromFilename(name)] *)
Definition detectCourseCodeFromFilename (name : string) : option string :=
  let upper := toUpperCase name in
  firstOf (fun re => firstCode (Re.exec_all re upper)) fnPatterns.

Definition labelledPatterns : list Re.RegExp :=
  Eval vm_compute in
  [ Re.rx "(KURSKOD|COURSE\s*CODE|KURS\s*KOD)[^A-Z0-9]{0,10}([A-Z]{2,4})[ \-\._]?(\d{2,4})";
    Re.rx "(KURSKOD|COURSE\s*CODE|KURS\s*KOD)[^A-Z0-9]{0,10}([A-Z]{2,4}\d{2,4})" ].

Definition genericPatterns : list Re.RegExp :=
  Eval vm_compute in
  [ Re.rx "\b([A-Z]{2})[ \-\._]?(\d{4})\b";
    Re.rx "\b([A-Z]{3})[ \-\._]?(\d{3})\b";
    Re.rx "\b([A-Z]{4})[ \-\._]?(\d{2})\b" ].

(** [scores.set(code, (scores.get(code) || 0) + by)] on a [Map] kept in
    insertion order. *)
Fixpoint bump (code : string) (by_ : Z) (scores : list (string * Z)) : list (string * Z) :=
  match scores with
  | [] => [(code, by_)]
  | (c, v) :: rest =>
      if String.eqb c code then (c, v + by_) :: rest
      else (c, v) :: bump code by_ rest
  end.

Definition labelledCode (m : Re.MatchResult) : string :=
  if Js.truthy (Re.group_or_empty m 3)
  then Re.group_or_empty m 2 +:+ Re.group_or_empty m 3
  else Re.group_or_empty m 2.

Definition genericCode (m : Re.MatchResult) : string :=
  Re.group_or_empty m 1 +:+ Re.group_or_empty m 2.

Definition scoreAll (upper : string) (res : list Re.RegExp) (codeOf : Re.MatchResult -> string)
    (by_ : Z) (scores : list (string * Z)) : list (string * Z) :=
  fold_left
    (fun sc re => fold_left (fun sc m => bump (codeOf m) by_ sc) (Re.exec_all re upper) sc)
    res scores.

(** The loop that keeps the first code with the highest score. *)
Definition bestCode (scores : list (string * Z)) : option string :=
  fst (fold_left
         (fun (acc : option string * Z) cs =>
            if snd acc <? snd cs then (Some (fst cs), snd cs) else acc)
         scores (None, -1)).

(** [detectCourseCodeFromText(text)] *)
Definition detectCourseCodeFromText (text : string) : option string :=
  let upper := toUpperCase text in
  let scores := scoreAll upper labelledPatterns labelledCode 5 [] in
  let scores := scoreAll upper genericPatterns genericCode 1 scores in
  bestCode scores.

(** *** [detectCourseName]

    The character classes of the source hold mis-encoded letters; they
    are written here by code point. *)

Definition lettersClass : string :=
  "[A-Za-z\u0102\u2026\u0102\u201E\u0102\u2013\u0102\u0104\u0102\u00A4\u0102\u00B6]".
Definition capsClass : string := "[A-Z\u0102\u2026\u0102\u201E\u0102\u2013]".
Definition nameClass : string :=
  "[A-Z\u0102\u2026\u0102\u201E\u0102\u2013A-Za-z\u0102\u0104\u0102\u00A4\u0102\u00B60-9 ,.'&\/\-\u00E2\u20AC\u201C]".
(** The same class inside a template literal, where [\/] is [/] and [\-]
    is [-], which makes [/-\u00E2] a range. *)
Definition nameClassTpl : string :=
  "[A-Z\u0102\u2026\u0102\u201E\u0102\u2013A-Za-z\u0102\u0104\u0102\u00A4\u0102\u00B60-9 ,.'&/-\u00E2\u20AC\u201C]".

Definition reMeta := Eval vm_compute in
  Re.rxi "(sektion|section|uppgift|problem|fr[\u0102\u0104a]ga|question|max\s*poa?ng|word\s*limit|sida|examinator|jour|hj[\u0102\u00A4a]lpmedel|link[\u0102\u00B6o]pings|institutionen|wiseflow|datum|date)".
Definition reStartsDigit := Eval vm_compute in Re.rx "^\s*\d".
Definition reDate := Eval vm_compute in
  Re.rx "\b\d{4}-\d{2}-\d{2}\b|\b\d{1,2}[\.\/\-]\d{1,2}[\.\/\-]\d{2,4}\b".
Definition reTime := Eval vm_compute in Re.rx "\b\d{1,2}[:\.]\d{2}\b".
Definition reRange := Eval vm_compute in
  Re.rx "\b\d+\s*[-\u00E2\u20AC\u201C\u00E2\u20AC\u201D]\s*\d+\b".
Definition reMultiNums := Eval vm_compute in
  Re.rx "(?:\b\d+(?:[\.,]\d+)?\b[\s,;:]{1,3}){3,}\d+".
Definition headingWord := Eval vm_compute in
  Re.rxi "(uppgift|problem|fr[\u0102\u0104a]ga|question|section|sektion|q)\s*\d+".
Definition reLetter := Eval vm_compute in Re.rx lettersClass.
Definition reCap := Eval vm_compute in Re.rx capsClass.
Definition reDigit := Eval vm_compute in Re.rx "\d".
Definition reSpaces := Eval vm_compute in Re.rx "[\s\u00A0]+".
Definition labelled := Eval vm_compute in
  Re.rxi ("(KURSNAMN|COURSE\s*NAME|KURS\s*NAMN)[^A-Za-z0-9]{0,10}(" +:+ nameClass +:+ "{3,120})").
Definition tent := Eval vm_compute in
  Re.rxi ("(?:TENTAMEN|EXAMINATION)\s+i\s+(" +:+ nameClass +:+ "{3,120})").
Definition rePdfExt := Eval vm_compute in Re.rx "\.[Pp][Dd][Ff]$".

Record Candidate : Type := mkCandidate { cd_name : string; cd_score : Z }.

Definition countMatches (re : Re.RegExp) (s : string) : Z :=
  Z.of_nat (length (Re.exec_all re s)).

Definition isExcludedName (n : string) : bool :=
  Re.test reMeta n || Re.test reStartsDigit n || Re.test reDate n || Re.test reTime n
  || Re.test reRange n || Re.test reMultiNums n || Re.test headingWord n.

(** [addCandidate(name, delta, why)] *)
Definition addCandidate (name : string) (delta : Z) (candidates : list Candidate)
    : list Candidate :=
  let n := replace_all reSpaces (fun _ => " ") (Js.trim name) in
  if (String.length n <? 3)%nat || (120 <? String.length n)%nat then candidates
  else
    let letters := countMatches reLetter n in
    let digits := countMatches reDigit n in
    if (letters =? 0) || (letters <? digits) then candidates
    else if isExcludedName n then (candidates ++ [mkCandidate n (-3)])%list
    else (candidates ++ [mkCandidate n delta])%list.

(** The top block: at most 120 lines and about 1500 characters. *)
Fixpoint topBlock (fuel : nat) (lines : list string) (top : list string) (chars : nat)
    : list string :=
  match fuel, lines with
  | S fuel', ln :: rest =>
      if (1500 <? chars + String.length ln)%nat && negb (Nat.eqb (length top) 0) then top
      else topBlock fuel' rest (top ++ [ln])%list (chars + String.length ln + 1)%nat
  | _, _ => top
  end.

Definition looksTitleLike (s : string) : bool :=
  if (String.length s <? 6)%nat then false
  else
    match Re.smatch reLetter s with
    | None => false
    | Some m =>
        let firstAlpha := Re.m0 m in
        let firstUpper := String.eqb firstAlpha (toUpperCase firstAlpha) in
        let manyCaps := 2 <=? countMatches reCap s in
        firstUpper || manyCaps
    end.

(** Step 5: the line below the first line that holds the course code. *)
Fixpoint belowCode (fuel : nat) (cc : Re.RegExp) (top : list string) : option string :=
  match fuel, top with
  | S fuel', ln :: rest =>
      if Re.test cc ln then head rest else belowCode fuel' cc rest
  | _, _ => None
  end.

(** Step 6 over the first 60 lines of the top block. *)
Fixpoint titleCandidates (i : nat) (top : list string) (candidates : list Candidate)
    : list Candidate :=
  match top with
  | [] => candidates
  | s :: rest =>
      if (60 <=? i)%nat then candidates
      else
        let bonus := if (i <? 20)%nat then 1 else 0 in
        titleCandidates (S i) rest
          (if looksTitleLike s then addCandidate s (1 + bonus) candidates else candidates)
  end.

(** The comparator of the final sort. *)
Definition cmpCandidate (a b : Candidate) : Z :=
  if negb (cd_score b =? cd_score a) then cd_score b - cd_score a
  else countMatches reLetter (cd_name b) - countMatches reLetter (cd_name a).

(** [detectCourseName(text, fileName, courseCode)] *)
Definition detectCourseName (text : string) (fileName : option string)
    (courseCode : option string) : option string :=
  let norm := normalizeTextKeepLines text in
  let lines := List.filter (fun s => Js.truthy s) (map Js.trim (Js.split_lines norm)) in
  let top := topBlock 120 lines [] 0 in
  let topJoined := Js.join (String "010" EmptyString) top in
  let code := match courseCode with
              | Some c => if Js.truthy c then Some (escapeRegExp c) else None
              | None => None
              end in
  let cs : list Candidate := [] in
  (* 1) labelled field *)
  let cs := match Re.smatch labelled topJoined with
            | Some lm => addCandidate (Re.group_or_empty lm 2) 3 cs
            | None => cs
            end in
  (* 2) "Tentamen i <Name>" *)
  let cs := match Re.smatch tent topJoined with
            | Some tm => addCandidate (Re.group_or_empty tm 1) 3 cs
            | None => cs
            end in
  (* 3) course code, separator, name *)
  let cs := match code with
            | Some cc =>
                let re := Re.rx (cc +:+ "\s*[-\u00E2\u20AC\u201C\u00E2\u20AC\u201D:]\s*("
                                    +:+ nameClassTpl +:+ "{3,120})") in
                match Re.smatch re topJoined with
                | Some m => addCandidate (Re.group_or_empty m 1) 2 cs
                | None => cs
                end
            | None => cs
            end in
  (* 4) file name pattern *)
  let cs := match fileName, code with
            | Some fname, Some cc =>
                if Js.truthy fname then
                  let base := replace_first rePdfExt (fun _ => EmptyString) fname in
                  let re := Re.rx (cc +:+ "[s-\u00E2\u20AC\u201C\u00E2\u20AC\u201D:_]+(.{3,120})") in
                  match Re.smatch re base with
                  | Some m => addCandidate (Re.group_or_empty m 1) 2 cs
                  | None => cs
                  end
                else cs
            | _, _ => cs
            end in
  (* 5) the line below the course code line *)
  let cs := match code with
            | Some cc =>
                match belowCode 40 (Re.rx cc) top with
                | Some s => addCandidate s 2 cs
                | None => cs
                end
            | None => cs
            end in
  (* 6) title-like lines of the top block *)
  let cs := titleCandidates 0 top cs in
  match find (fun c => 0 <? cd_score c) (js_sort cmpCandidate cs) with
  | Some best => Some (Js.trim (cd_name best))
  | None => None
  end.

End Meta.

(* ===================================================================== *)
(** ** The acquisition orchestrator: [parsePdf] *)
(* ===================================================================== *)

Module Parse.

Import Pdf.

(** The stages that read pages. *)
Inductive Stage : Type := TextLayer | Layout | Ocr.

(** The four call sites of [extractQuestionsFromText2]. *)
Inductive Text2Site : Type := FlatRegex | OcrQuick | OcrDeep | Final.

(** What a parse does, in order: calls to the collaborators and runs of
    the detectors with the number of questions they gave. *)
Inductive Event : Type :=
| EvOpen
| EvGetPage (s : Stage) (i : Z)
| EvGetTextContent (s : Stage) (i : Z)
| EvLines (n : nat)
| EvText2 (site : Text2Site) (n : nat)
| EvDetectPages
| EvLoadTesseract
| EvCreateWorker
| EvCanvas (i : Z)
| EvRender (i : Z)
| EvRecognize (i : Z)
| EvTerminate.

(** The returned [Partial<Exam>]; an absent field is [None]. *)
Record Exam : Type := mkExam {
  fileName : string;
  examDate : option (Z * Z * Z);
  courseName : option string;
  courseCode : option string;
  year : option Z;
  totalPoints : option Z;
  questions : list Question;
  extractedText : string;
  tags : option (list string);
  has_debug : bool
}.

Section WithWorld.

(** The state of the collaborators (the PDF library, the OCR engine,
    the DOM). *)
Variable W : Type.

(** The collaborators.  Every call may change the world and may throw. *)
Record Host : Type := mkHost {
  file_name : string;
  (* file.arrayBuffer(), getDocument(...).promise; gives pdf.numPages *)
  openDocument : W -> W * Completion N;
  getPage : Z -> W -> W * Completion unit;
  (* None: the content or its items are missing *)
  getTextContent : Z -> W -> W * Completion (option (list PdfjsTextItem));
  isProd : bool;
  (* typeof document !== 'undefined' *)
  hasDocument : bool;
  (* None: no engine; Some b: an engine, b tells whether createWorker is a function *)
  loadTesseract : W -> W * option bool;
  (* createWorker, load, loadLanguage, initialize *)
  createWorker : W -> W * Completion unit;
  (* getViewport, createElement('canvas'), getContext('2d'); false: no context *)
  makeCanvas : Z -> bool -> W -> W * Completion bool;
  render : Z -> W -> W * Completion unit;
  (* String(res?.data?.text || '') *)
  recognize : Z -> bool -> W -> W * Completion string;
  terminate : W -> W * Completion unit
}.

Variable host : Host.

(** The copy of the question detector that the parser imports. *)
Variable detectQuestionsFromPages : list PageInput -> Completion (list TokenMeta).

(** The variables of [parsePdf] that are assigned inside its [try]
    blocks, and the log of events. *)
Record Locals : Type := mkLocals {
  world : W;
  trace : list Event;
  fullText : string;
  structuredLines : list TextLine;
  textForParsing : string;
  questionsDetected : list Question;
  ocrParts : list string;
  code : option string
}.

(** A computation: it reads and writes the locals and ends normally or
    by throwing. *)
Definition M (A : Type) : Type := Locals -> Locals * Completion A.

Definition ret {A} (a : A) : M A := fun s => (s, Normal a).

Definition bind {A B} (m : M A) (f : A -> M B) : M B :=
  fun s => match m s with
           | (s1, Normal a) => f a s1
           | (s1, Throw e) => (s1, Throw e)
           end.

(** [try { body } catch { }] *)
Definition try_ (body : M unit) : M unit :=
  fun s => match body s with
           | (s1, _) => (s1, Normal tt)
           end.

Definition emit (ev : Event) : M unit :=
  fun s => (mkLocals (world s) (trace s ++ [ev]) (fullText s) (structuredLines s)
                     (textForParsing s) (questionsDetected s) (ocrParts s) (code s),
            Normal tt).

(** A call to a collaborator. *)
Definition call {A} (ev : Event) (f : W -> W * Completion A) : M A :=
  fun s =>
    let '(w1, r) := f (world s) in
    (mkLocals w1 (trace s ++ [ev]) (fullText s) (structuredLines s)
              (textForParsing s) (questionsDetected s) (ocrParts s) (code s), r).

Definition get : M Locals := fun s => (s, Normal s).

Definition modify (f : Locals -> Locals) : M unit := fun s => (f s, Normal tt).

Notation "x <- m ;; k" := (bind m (fun x => k))
  (at level 100, m at next level, right associativity).
Notation "m ;;; k" := (bind m (fun _ => k))
  (at level 100, right associativity).

Definition setFullText (v : string) (s : Locals) : Locals :=
  mkLocals (world s) (trace s) v (structuredLines s) (textForParsing s)
           (questionsDetected s) (ocrParts s) (code s).
Definition addLines (v : list TextLine) (s : Locals) : Locals :=
  mkLocals (world s) (trace s) (fullText s) (structuredLines s ++ v)
           (textForParsing s) (questionsDetected s) (ocrParts s) (code s).
Definition setTextForParsing (v : string) (s : Locals) : Locals :=
  mkLocals (world s) (trace s) (fullText s) (structuredLines s) v
           (questionsDetected s) (ocrParts s) (code s).
Definition setQuestions (v : list Question) (s : Locals) : Locals :=
  mkLocals (world s) (trace s) (fullText s) (structuredLines s) (textForParsing s)
           v (ocrParts s) (code s).
Definition pushOcrPart (v : string) (s : Locals) : Locals :=
  mkLocals (world s) (trace s) (fullText s) (structuredLines s) (textForParsing s)
           (questionsDetected s) (ocrParts s ++ [v]) (code s).
Definition setCode (v : option string) (s : Locals) : Locals :=
  mkLocals (world s) (trace s) (fullText s) (structuredLines s) (textForParsing s)
           (questionsDetected s) (ocrParts s) v.

(** [pdf.numPages || 1]; the page count is a natural number. *)
Definition orOne (n : N) : Z := if (n =? 0)%N then 1 else Z.of_N n.

(** The page numbers [1 .. n]. *)
Definition pagesUpTo (n : Z) : list Z := map Z.of_nat (seq 1 (Z.to_nat n)).

(** The [buf] loop over the items of one page. *)
Definition pageBuf (items : list PdfjsTextItem) : string :=
  fold_left
    (fun buf it =>
       if Js.truthy (str it) then
         let buf1 := buf +:+ (if Js.truthy buf then " " else EmptyString) +:+ str it in
         if hasEOL it then buf1 +:+ String "010" EmptyString else buf1
       else buf)
    items EmptyString.

Definition rawPageText (items : list PdfjsTextItem) : string :=
  let buf := pageBuf items in
  if Js.truthy buf then buf else Js.join " " (map str items).

(** Stage 1, the loop that reads the text layer of every page. *)
Fixpoint textLayerLoop (pages : list Z) : M unit :=
  match pages with
  | [] => ret tt
  | i :: rest =>
      call (EvGetPage TextLayer i) (getPage host i) ;;;
      content <- call (EvGetTextContent TextLayer i) (getTextContent host i) ;;
      match content with
      | None => textLayerLoop rest
      | Some [] => textLayerLoop rest
      | Some items =>
          let pageText :=
            Js.collapse_blanks (Meta.repairCommonMisencoding (rawPageText items)) in
          modify (fun s =>
            setFullText (fullText s
                           +:+ (if Js.truthy (fullText s) then String "010" EmptyString
                                else EmptyString)
                           +:+ pageText) s) ;;;
          modify (addLines (buildLinesFromItems items i)) ;;;
          textLayerLoop rest
      end
  end.

(** [questionsDetected = extractQuestionsFromText2(textForParsing)] *)
Definition runText2 (site : Text2Site) : M unit :=
  s <- get ;;
  let qs := extractQuestionsFromText2 (textForParsing s) in
  emit (EvText2 site (length qs)) ;;;
  modify (setQuestions qs).

Definition noQuestions : M bool :=
  s <- get ;; ret (Nat.eqb (length (questionsDetected s)) 0).

(** The loop that re-reads the items of the first pages for the layout
    detector. *)
Fixpoint layoutPages (pages : list Z) (acc : list PageInput) : M (list PageInput) :=
  match pages with
  | [] => ret acc
  | i :: rest =>
      call (EvGetPage Layout i) (getPage host i) ;;;
      content <- call (EvGetTextContent Layout i) (getTextContent host i) ;;
      layoutPages rest
        (acc ++ [mkPage i (from_option id [] content) None None])
  end.

(** [Math.round(Math.max(0, Math.min(1, c)) * 100)] *)
Definition percentOf (c : Q) : Z :=
  let c1 := if Qle_bool c 0 then 0%Q else if Qle_bool 1 c then 1%Q else c in
  Qfloor (c1 * 100 + (1 # 2))%Q.

Definition questionOfToken (tk : TokenMeta) : Question :=
  mkQuestion ("q-" +:+ token tk) (token tk) 0 (Some (tk_page tk))
             (Some (percentOf (confidence tk))).

(** Stage 3, inside its own [try]. *)
Definition layoutFallback (numPages : N) : M unit :=
  try_ (
    detectorPages <- layoutPages (pagesUpTo (Z.min (orOne numPages) 10)) [] ;;
    emit EvDetectPages ;;;
    match detectQuestionsFromPages detectorPages with
    | Throw e => fun s => (s, Throw e)
    | Normal [] => ret tt
    | Normal tokens => modify (setQuestions (map questionOfToken tokens))
    end).

(** [textChunk]: the recognised text, or the empty string when the
    recognition throws. *)
Definition recognizePage (i : Z) (useWorker : bool) : M string :=
  fun s =>
    match call (EvRecognize i) (recognize host i useWorker) s with
    | (s1, Normal t) => (s1, Normal t)
    | (s1, Throw _) => (s1, Normal EmptyString)
    end.

(** Stages 4 and 5, the page-by-page OCR loop. *)
Fixpoint ocrLoop (deep useWorker : bool) (pages : list Z) : M unit :=
  match pages with
  | [] => ret tt
  | i :: rest =>
      call (EvGetPage Ocr i) (getPage host i) ;;;
      ctx <- call (EvCanvas i) (makeCanvas host i deep) ;;
      if negb ctx then ocrLoop deep useWorker rest
      else
        call (EvRender i) (render host i) ;;;
        textChunk <- recognizePage i useWorker ;;
        if Js.truthy textChunk then
          modify (pushOcrPart textChunk) ;;;
          modify (fun s =>
            setTextForParsing
              (Js.trim (fullText s +:+ String "010" EmptyString
                          +:+ Js.join (String "010" EmptyString) (ocrParts s))) s) ;;;
          if deep then ocrLoop deep useWorker rest
          else
            runText2 OcrQuick ;;;
            empty <- noQuestions ;;
            if empty then ocrLoop deep useWorker rest else ret tt
        else ocrLoop deep useWorker rest
  end.

Definition ocrStage (deepOcr : bool) (numPages : N) : M unit :=
  tess <- call EvLoadTesseract
            (fun w => let '(w1, t) := loadTesseract host w in (w1, Normal t)) ;;
  match tess with
  | Some hasCreateWorker =>
      if hasDocument host then
        try_ (
          let deep := deepOcr in
          let ocrPages := Z.min (orOne numPages) (if deep then 100 else 20) in
          (if hasCreateWorker then call EvCreateWorker (createWorker host) else ret tt) ;;;
          ocrLoop deep hasCreateWorker (pagesUpTo ocrPages) ;;;
          (if hasCreateWorker then try_ (call EvTerminate (terminate host)) else ret tt) ;;;
          if deep then runText2 OcrDeep else ret tt)
      else ret tt
  | None => ret tt
  end.

(** File-name metadata, computed before the [try]. *)
Definition reYear := Eval vm_compute in Re.rx "20(\d{2})".
Definition reIsoDate := Eval vm_compute in Re.rx "(\d{4})-(\d{2})-(\d{2})".

Definition yearOf (name : string) : option Z :=
  match Re.smatch reYear name with
  | Some m => Js.parseInt ("20" +:+ Re.group_or_empty m 1)
  | None => None
  end.

Definition examDateOf (name : string) : option (Z * Z * Z) :=
  match Re.smatch reIsoDate name with
  | Some m =>
      match Js.parseInt (Re.group_or_empty m 1), Js.parseInt (Re.group_or_empty m 2),
            Js.parseInt (Re.group_or_empty m 3) with
      | Some y, Some mo, Some d => Some (y, mo - 1, d)
      | _, _, _ => None
      end
  | None => None
  end.

(** The final clean-up of the detected course name. *)
Definition reHeadingInline := Eval vm_compute in
  Re.rxi "(sektion|section|uppgift|problem|fraga|question)\s*\d+".
Definition reLeadingDigit := Eval vm_compute in Re.rx "^\s*\d".
Definition reEdges := Eval vm_compute in Re.rx "^[\-\u2013\u2014:,.\s]+|[\-\u2013\u2014:,.\s]+$".
Definition reSpaces2 := Eval vm_compute in Re.rx "\s{2,}".

Definition cleanCourseName (courseName : option string) : option string :=
  match courseName with
  | Some cn =>
      if Js.truthy cn then
        let cleaned := Js.trim (normalizeDiacritics cn) in
        let isBad := Re.test reHeadingInline cleaned || Re.test reLeadingDigit cleaned in
        let compact :=
          Meta.replace_all reSpaces2 (fun _ => " ")
            (Meta.replace_all reEdges (fun _ => EmptyString) cleaned) in
        if isBad then None else Some compact
      else courseName
  | None => None
  end.

(** The de-duplication by question number, keeping first occurrences. *)
Fixpoint dedupe (seen : gset string) (qs : list Question) : list Question :=
  match qs with
  | [] => []
  | q :: rest =>
      let key := if Js.truthy (q_number q) then q_number q else q_id q in
      if decide (key ∈ seen) then dedupe seen rest
      else q :: dedupe ({[key]} ∪ seen) rest
  end.

(** Opening the document and stage 1a, the text layer of every page. *)
Definition readTextLayer : M N :=
  numPages <- call EvOpen (openDocument host) ;;
  textLayerLoop (pagesUpTo (orOne numPages)) ;;;
  ret numPages.

(** Stage 1b: header and footer suppression, then the line detector. *)
Definition detectFromLines (maxPages : Z) : M unit :=
  s <- get ;;
  let structuredLinesFiltered := filterHeaderFooterLines (structuredLines s) maxPages in
  modify (fun s => setTextForParsing (fullText s) s) ;;;
  let qs := extractQuestionsFromLines structuredLinesFiltered in
  emit (EvLines (length qs)) ;;;
  modify (setQuestions qs).

(** [if (!questionsDetected || questionsDetected.length === 0) { m }] *)
Definition whenEmpty (m : M unit) : M unit :=
  empty <- noQuestions ;;
  if empty then m else ret tt.

(** [if (!courseCode && textForParsing) { ... }] *)
Definition detectCode (s : Locals) : Locals :=
  if Js.truthy (from_option id EmptyString (code s)) then s
  else if Js.truthy (textForParsing s) then
    match Meta.detectCourseCodeFromText (textForParsing s) with
    | Some d => if Js.truthy d then setCode (Some d) s else s
    | None => s
    end
  else s.

(** The literal that the returned record carries as [courseName]:
    "Ok\u00E4nt kursnamn". *)
Definition unknownCourseName : string :=
  String "O" (String "k" (String "228" (String "n" (String "t" " kursnamn")))).

(** The local [courseName]: derived from the text or the file name,
    then cleaned. *)
Definition derivedCourseName (s : Locals) : option string :=
  cleanCourseName
    (if Js.truthy (textForParsing s) || Js.truthy (file_name host)
     then Meta.detectCourseName (textForParsing s) (Some (file_name host)) (code s)
     else None).

(** The end of the [try] block: course name, final questions, totals
    and the returned record. *)
Definition finish : M Exam :=
  s <- get ;;
  (* only the presence of the derived name is logged, in the debug
     record *)
  let courseName : option string := derivedCourseName s in
  whenEmpty (runText2 Final) ;;;
  s <- get ;;
  let questions := dedupe ∅ (questionsDetected s) in
  let total := fold_left (fun acc q => acc + q_points q) questions 0 in
  ret (mkExam (file_name host) (examDateOf (file_name host))
              (Some unknownCourseName)
              (code s) (yearOf (file_name host)) (Some total) questions
              (Js.slice 0 5000
                 (Js.collapse_blanks (Meta.repairCommonMisencoding (textForParsing s))))
              (Some []) (negb (isProd host))).

(** The body of the outer [try]. *)
Definition parseBody (deepOcr : bool) : M Exam :=
  numPages <- readTextLayer ;;
  detectFromLines (orOne numPages) ;;;
  (* stage 2: the flat text *)
  whenEmpty (runText2 FlatRegex) ;;;
  (* stage 3: the layout detector *)
  whenEmpty (layoutFallback numPages) ;;;
  (* stages 4 and 5: OCR *)
  whenEmpty (ocrStage deepOcr numPages) ;;;
  modify detectCode ;;;
  finish.

Definition initLocals (w : W) : Locals :=
  mkLocals w [] EmptyString [] EmptyString [] []
           (Meta.detectCourseCodeFromFilename (file_name host)).

(** The [catch] of the outer [try]. *)
Definition fallbackExam (s : Locals) (e : JsError) : Exam :=
  let msg := match e with ReferenceError m => "ReferenceError: " +:+ m | HostError m => m end in
  mkExam (file_name host) (examDateOf (file_name host)) None (code s)
         (yearOf (file_name host)) None []
         ("Failed to extract text: " +:+ msg) None false.

(** [parsePdf(file, opts)]: the final locals (with the trace) and the
    completion of the call. *)
Definition parsePdf (deepOcr : bool) (w : W) : Locals * Completion Exam :=
  match parseBody deepOcr (initLocals w) with
  | (s, Normal exam) => (s, Normal exam)
  | (s, Throw e) => (s, Normal (fallbackExam s e))
  end.

End WithWorld.

End Parse.

(* ===================================================================== *)
(** ** The question extractor of the minimal parser *)
(* ===================================================================== *)

Module Minimal.

Definition reHeading := Eval vm_compute in Re.rxi "^(?:uppgift\s+)?(\d{1,2})[\.)\:]".
Definition reLeading := Eval vm_compute in Re.rx "^(\d{1,2})\s".

(** [text.replace(/\s+/g, '')] *)
Fixpoint strip_ws (s : string) : string :=
  match s with
  | EmptyString => EmptyString
  | String c s' => if Js.is_space c then strip_ws s' else String c (strip_ws s')
  end.

(** [line.match(reHeading) || line.match(reLeading)] *)
Definition lineMatch (line : string) : option Re.MatchResult :=
  match Re.smatch reHeading line with
  | Some m => Some m
  | None => Re.smatch reLeading line
  end.

(** One iteration of [for (const line of lines)], up to the test of the
    limit. *)
Definition onLine (line : string) (found : list Z) : list Z :=
  match lineMatch line with
  | Some m =>
      match Js.parseInt (Re.group_or_empty m 1) with
      | Some num => if existsb (Z.eqb num) found then found else (found ++ [num])%list
      | None => found
      end
  | None => found
  end.

(** The loop, which stops once [found] holds 12 numbers. *)
Fixpoint scan (lines : list string) (found : list Z) : list Z :=
  match lines with
  | [] => found
  | line :: rest =>
      let found1 := onLine line found in
      if (12 <=? length found1)%nat then found1 else scan rest found1
  end.

Definition questionOfNumber (n : Z) : Pdf.Question :=
  Pdf.mkQuestion ("q-" +:+ Js.String_of n) (Js.String_of n) 0 None None.

(** [extractQuestionsFromText(text)]: the numbers that open a line, or
    five placeholders when a text of more than 30 characters holds
    none. *)
Definition extractQuestionsFromText (text : string) : list Pdf.Question :=
  let lines := map Js.trim (Js.split_lines text) in
  let found := scan lines [] in
  if Nat.eqb (length found) 0 && (30 <? String.length (strip_ws text))%nat
  then map questionOfNumber [1; 2; 3; 4; 5]
  else map questionOfNumber found.

End Minimal.

(* ===================================================================== *)
(** ** Notions used by the statements *)
(* ===================================================================== *)

(** Document order: page ascending, then y descending, then x
    ascending. *)
Definition docOrder (a b : TokenMeta) : Prop :=
  tk_page a < tk_page b
  \/ (tk_page a = tk_page b
      /\ (tk_y b < tk_y a \/ (tk_y a = tk_y b /\ tk_x a <= tk_x b))).


(** The sub tokens of a result whose parent is no main token of the
    result. *)
Definition hasMainToken (tokens : list TokenMeta) (name : string) : bool :=
  existsb (fun t => match kind t with
                    | main => String.eqb (token t) name
                    | sub => false
                    end) tokens.

Definition orphanSubs (tokens : list TokenMeta) : list TokenMeta :=
  List.filter (fun t => match kind t, parent t with
                   | sub, Some p => negb (hasMainToken tokens p)
                   | sub, None => true
                   | main, _ => false
                   end) tokens.

Definition mainTokens (tokens : list TokenMeta) : list TokenMeta :=
  List.filter (fun t => match kind t with main => true | sub => false end) tokens.

(** A glyph run at a position. *)
Definition run (s : string) (x y : Z) : PdfjsTextItem := mkItem s (Some (x, y)) false.

(** *** Example documents *)

Definition page1 (items : list PdfjsTextItem) : PageInput := mkPage 1 items None None.

(** A page with a title, a lone point total and a footer. *)
Definition pointTotalPage : list PdfjsTextItem :=
  [run "Some title" 0 700; run "20p" 0 400; run "footer text" 0 100].

(** A page with a heading, a section heading and a line "7P) x". *)
Definition sectionPage : list PdfjsTextItem :=
  [run "1. Intro" 0 700; run "Section 2" 0 600; run "7P) x" 0 500].

(** Two pages handed over in descending page order. *)
Definition pagesOutOfOrder : list PageInput :=
  [mkPage 2 [run "2." 0 700] None None; mkPage 1 [run "1." 0 700] None None].

(** One line "<n>a) <n>b) ... <n>z)". *)
Definition lettersLine (n : Z) : string :=
  Js.join " " (map (fun L => Pdf.tokenOf n L +:+ ")") (Pdf.firstLetters 26)).

(** Six main questions with 26 sub-questions each. *)
Definition manySubsLines : list Pdf.TextLine :=
  map (fun n => Pdf.mkTextLine (lettersLine n) 1) [1; 2; 3; 4; 5; 6].

Definition manySubsText : string :=
  Js.join (String "010" EmptyString) (map lettersLine [1; 2; 3; 4; 5; 6]).

Definition groupLine (page : Z) : Pdf.TextLine := Pdf.mkTextLine "Uppgift 4 (3+2+1)p" page.

(** What a token shows of itself. *)
Definition view (t : TokenMeta) : string * TokenKind * option string * Z * Z :=
  (token t, kind t, parent t, tk_page t, tk_y t).

Definition viewAll (c : Completion (list TokenMeta))
    : Completion (list (string * TokenKind * option string * Z * Z)) :=
  match c with
  | Normal l => Normal (map view l)
  | Throw e => Throw e
  end.

(** *** A document served by collaborators that never fail *)

Definition always {A} (a : A) (w : unit) : unit * Completion A := (w, Normal a).

(** A one-page PDF with the given glyph runs, and an OCR engine that
    reads [ocrText] from every page. *)
Definition simpleHost (name : string) (items : list PdfjsTextItem) (ocrText : string)
    : Parse.Host unit :=
  Parse.mkHost unit name (always 1%N) (fun _ => always tt) (fun _ => always (Some items))
    false true (fun w => (w, Some false)) (always tt) (fun _ _ => always true)
    (fun _ => always tt) (fun _ _ => always ocrText) (always tt).

(** The two copies of the question detector, as the parser calls them
    (without a configuration). *)
Definition detectA (pages : list PageInput) : Completion (list TokenMeta) :=
  Normal (Detector.detectQuestionsFromPages pages DEFAULT_CONFIG).

Definition detectB (pages : list PageInput) : Completion (list TokenMeta) :=
  DetectorB.detectQuestionsFromPages pages DEFAULT_CONFIG.

Definition parseSimple (name : string) (items : list PdfjsTextItem) (ocrText : string)
    : Parse.Locals unit * Completion Parse.Exam :=
  Parse.parsePdf unit (simpleHost name items ocrText) detectA false tt.

(** A title page: "Tentamen i Algebra", then a first question. *)
Definition titlePage : list PdfjsTextItem :=
  [mkItem "Tentamen i Algebra" (Some (0, 700)) true; mkItem "1. Derive" (Some (0, 600)) true].

(** A page that holds digits only. *)
Definition digitsPage : list PdfjsTextItem := [mkItem "12345" (Some (0, 700)) true].

(** *** Events of the OCR stage *)

Definition isOcrEvent (ev : Parse.Event) : bool :=
  match ev with
  | Parse.EvLoadTesseract | Parse.EvCreateWorker | Parse.EvGetPage Parse.Ocr _
  | Parse.EvCanvas _ | Parse.EvRender _ | Parse.EvRecognize _ | Parse.EvTerminate
  | Parse.EvText2 Parse.OcrQuick _ | Parse.EvText2 Parse.OcrDeep _ => true
  | _ => false
  end.


(** *** Header and footer slots *)

(** How many lines of a group read [text]. *)
Definition occurrences (text : string) (grp : list Pdf.TextLine) : Z :=
  Z.of_nat (length (List.filter (fun ln => String.eqb (Pdf.tl_text ln) text) grp)).

Definition sumZ (l : list Z) : Z := fold_right Z.add 0 l.

(** How many top-3 slots, over all pages, hold [text]. *)
Definition topSlotCount (lines : list Pdf.TextLine) (text : string) : Z :=
  sumZ (map (fun pa => occurrences text (Pdf.topOf (snd pa))) (Pdf.groupByPage lines)).

(** How many pages hold [text] in one of their top-3 slots. *)
Definition topSlotPages (lines : list Pdf.TextLine) (text : string) : Z :=
  Z.of_nat (length (List.filter (fun pa => 0 <? occurrences text (Pdf.topOf (snd pa)))
                                (Pdf.groupByPage lines))).

(** No line below the third line of its page reads [text]. *)
Definition onlyInTopSlots (lines : list Pdf.TextLine) (text : string) : bool :=
  forallb (fun pa => forallb (fun ln => negb (String.eqb (Pdf.tl_text ln) text))
                             (skipn 3 (snd pa)))
          (Pdf.groupByPage lines).

(** [count.get(text) || 0] *)
Definition countOf (count : gmap string Z) (text : string) : Z :=
  from_option id 0 (count !! text).

(** Three pages that open with the same numbered banner. *)
Definition bannerLines : list Pdf.TextLine :=
  [Pdf.mkTextLine "1." 1; Pdf.mkTextLine "First page" 1;
   Pdf.mkTextLine "1." 2; Pdf.mkTextLine "Second page" 2;
   Pdf.mkTextLine "1." 3; Pdf.mkTextLine "Third page" 3].

(** A PDF of two pages that both open with the banner "1."; the text
    layer marks the end of every line, and there is no OCR engine text. *)
Definition bannerPage (i : Z) : list PdfjsTextItem :=
  [mkItem "1." (Some (0, 700)) true;
   mkItem (if i =? 1 then "alpha" else "beta") (Some (0, 600)) true].

Definition bannerHost : Parse.Host unit :=
  Parse.mkHost unit "tenta.pdf" (always 2%N) (fun _ => always tt)
    (fun i => always (Some (bannerPage i)))
    false true (fun w => (w, Some false)) (always tt) (fun _ _ => always true)
    (fun _ => always tt) (fun _ _ => always EmptyString) (always tt).

(** *** Group distributions *)



(** *** The escalation state machine

    The phases of a parse, as its events reveal them. *)

Inductive Phase : Type :=
| PText          (* reading the text layer; the line detector has not run *)
| PLinesEmpty    (* the line detector gave no question *)
| PFlatEmpty     (* the flat-text detector gave no question either *)
| PLayout        (* the layout fallback has started *)
| POcr           (* the OCR stage has started *)
| PQuickFound    (* quick OCR has found questions *)
| PDone.         (* a stage before OCR found questions, or the final run is over *)

(** The events that a phase admits, and the phase that follows. *)
Definition step (q : Phase) (ev : Parse.Event) : option Phase :=
  match q, ev with
  | PText, Parse.EvOpen => Some PText
  | PText, Parse.EvGetPage Parse.TextLayer _ => Some PText
  | PText, Parse.EvGetTextContent Parse.TextLayer _ => Some PText
  | PText, Parse.EvLines O => Some PLinesEmpty
  | PText, Parse.EvLines (S _) => Some PDone
  | PLinesEmpty, Parse.EvText2 Parse.FlatRegex O => Some PFlatEmpty
  | PLinesEmpty, Parse.EvText2 Parse.FlatRegex (S _) => Some PDone
  | PFlatEmpty, Parse.EvGetPage Parse.Layout 1 => Some PLayout
  | PLayout, Parse.EvGetPage Parse.Layout _ => Some PLayout
  | PLayout, Parse.EvGetTextContent Parse.Layout _ => Some PLayout
  | PLayout, Parse.EvDetectPages => Some PLayout
  | PLayout, Parse.EvLoadTesseract => Some POcr
  | POcr, Parse.EvCreateWorker => Some POcr
  | POcr, Parse.EvGetPage Parse.Ocr _ => Some POcr
  | POcr, Parse.EvCanvas _ => Some POcr
  | POcr, Parse.EvRender _ => Some POcr
  | POcr, Parse.EvRecognize _ => Some POcr
  | POcr, Parse.EvTerminate => Some POcr
  | POcr, Parse.EvText2 Parse.OcrQuick O => Some POcr
  | POcr, Parse.EvText2 Parse.OcrQuick (S _) => Some PQuickFound
  | POcr, Parse.EvText2 Parse.OcrDeep _ => Some POcr
  | POcr, Parse.EvText2 Parse.Final _ => Some PDone
  | PQuickFound, Parse.EvTerminate => Some PQuickFound
  | _, _ => None
  end.

Fixpoint runPhases (q : Phase) (tr : list Parse.Event) : option Phase :=
  match tr with
  | [] => Some q
  | ev :: tr' =>
      match step q ev with
      | Some q' => runPhases q' tr'
      | None => None
      end
  end.

(** A parse does not end between a stage that found nothing and the
    attempt of the next stage. *)
Definition restingPhase (q : Phase) : bool :=
  match q with
  | PLinesEmpty | PFlatEmpty => false
  | _ => true
  end.


(** The phase that the events so far have led to. *)
Definition phaseOf {W : Type} (s : Parse.Locals W) : option Phase :=
  runPhases PText (Parse.trace W s).

(** The phase after a detector that is not an OCR detector has given
    [l]. *)
Definition phaseAfter (ifEmpty : Phase) (l : list Pdf.Question) : Phase :=
  match l with [] => ifEmpty | _ => PDone end.

(** The outcome of the OCR stage: still scanning, or quick OCR has found
    questions. *)
Definition ocrOutcome {W : Type} (deep : bool) (s' : Parse.Locals W) : Prop :=
  phaseOf s' = Some POcr
  \/ (phaseOf s' = Some PQuickFound
      /\ Parse.questionsDetected W s' <> [] /\ deep = false).


(** *** Order of spans and buckets *)

(** [spans.sort((a, b) => (b.y - a.y) || (a.x - b.x))]: the order it
    asks for. *)
Definition spanOrder (a b : Span) : Prop :=
  sp_y b < sp_y a \/ (sp_y a = sp_y b /\ sp_x a <= sp_x b).

(** A bucket whose runs lie at most [yTol] below its y, one of them on
    it. *)
Definition bucketOk (yTol : Z) (l : Bucket) : Prop :=
  (exists sp, In sp (b_parts l) /\ sp_y sp = b_y l)
  /\ Forall (fun sp => 0 <= b_y l - sp_y sp <= yTol) (b_parts l).

(** Bucket [b] lies more than [yTol] below bucket [a]. *)
Definition below (yTol : Z) (a b : Bucket) : Prop := b_y b + yTol < b_y a.

(** *** Well-formed tokens *)

(** A main token has no parent; the name of a sub token is its parent
    followed by a letter. *)
Definition tokenShape (name : string) (k : TokenKind) (par : option string) : Prop :=
  match k, par with
  | main, None => True
  | sub, Some p => exists L, L <> EmptyString /\ name = p +:+ L
  | _, _ => False
  end.

Definition tokenOk (pageNumbers : list Z) (t : TokenMeta) : Prop :=
  In (tk_page t) pageNumbers
  /\ (0 <= confidence t <= 1)%Q
  /\ tokenShape (token t) (kind t) (parent t).

(** What the detector keeps true of [allTokens] and [tokenIndex]. *)
Definition detectorInv (pageNumbers : list Z) (st : DState) : Prop :=
  Forall (tokenOk pageNumbers) (allTokens st)
  /\ NoDup (map token (allTokens st))
  /\ forall name, tokenIndex st !! name = None <-> ~ In name (map token (allTokens st)).

(** A token on an earlier page, higher on page [page] than [y], or at
    the position [(x, y)] itself. *)
Definition atOrBefore (page x y : Z) (t : TokenMeta) : Prop :=
  tk_page t < page
  \/ (tk_page t = page /\ (y < tk_y t \/ (tk_y t = y /\ tk_x t = x))).

Definition ordInv (page x y : Z) (st : DState) : Prop :=
  StronglySorted docOrder (allTokens st) /\ Forall (atOrBefore page x y) (allTokens st).

(** A token on an earlier page, or higher on page [page] than [y]. *)
Definition above (page y : Z) (t : TokenMeta) : Prop :=
  tk_page t < page \/ (tk_page t = page /\ y < tk_y t).

(** Two pages in ascending order, a heading and a sub-question each. *)
Definition ascendingPages : list PageInput :=
  [mkPage 1 [run "1. First" 0 700; run "a) part" 0 600] None None;
   mkPage 2 [run "2. Second" 0 700; run "a) part" 0 600] None None].

(** What the revision that keeps first-appearance order returns for
    them. *)
Definition ascendingTokens : list TokenMeta :=
  [mkToken "1" main None 1 0 700 (1 # 8)%Q None;
   mkToken "1a" sub (Some "1") 1 0 600 (0 # 1)%Q None;
   mkToken "2" main None 2 0 700 (3 # 8)%Q None;
   mkToken "2a" sub (Some "2") 2 0 600 (0 # 1)%Q None].

(** *** Points and totals *)

Definition pointsOk (st : Pdf.XState) : Prop :=
  forall tok v, Pdf.pointsByToken st !! tok = Some v -> 0 <= v.

Definition nonnegPoints (q : Pdf.Question) : Prop := 0 <= Pdf.q_points q.

(** [String(q.number || q.id)], the key of the de-duplication. *)
Definition questionKey (q : Pdf.Question) : string :=
  if Js.truthy (Pdf.q_number q) then Pdf.q_number q else Pdf.q_id q.

Definition sumPoints (qs : list Pdf.Question) : Z := sumZ (map Pdf.q_points qs).

(** *** Bottom slots *)

(** How many bottom-3 slots, over all pages, hold [text]. *)
Definition bottomSlotCount (lines : list Pdf.TextLine) (text : string) : Z :=
  sumZ (map (fun pa => occurrences text (Pdf.botOf (snd pa))) (Pdf.groupByPage lines)).

(** One page of seven lines. *)
Definition sevenLines : list Pdf.TextLine :=
  map (fun t => Pdf.mkTextLine t 1) ["a"; "b"; "c"; "d"; "e"; "f"; "g"].

(** *** Limits of the stages of a parse *)

(** The events that need the OCR engine: everything of the OCR stage but
    the attempt to load it. *)
Definition usesOcrEngine (ev : Parse.Event) : bool :=
  match ev with
  | Parse.EvLoadTesseract => false
  | _ => isOcrEvent ev
  end.

(** The page limits of the stages: the layout fallback reads the first
    10 pages, quick OCR the first 20, deep OCR the first 100; quick OCR
    detects after every page, deep OCR once at its end. *)
Definition withinPageLimits (deep : bool) (ev : Parse.Event) : bool :=
  match ev with
  | Parse.EvGetPage Parse.TextLayer i | Parse.EvGetTextContent Parse.TextLayer i => 1 <=? i
  | Parse.EvGetPage Parse.Layout i | Parse.EvGetTextContent Parse.Layout i =>
      (1 <=? i) && (i <=? 10)
  | Parse.EvGetPage Parse.Ocr i | Parse.EvCanvas i | Parse.EvRender i
  | Parse.EvRecognize i => (1 <=? i) && (i <=? (if deep then 100 else 20))
  | Parse.EvGetTextContent Parse.Ocr _ => false
  | Parse.EvText2 Parse.OcrQuick _ => negb deep
  | Parse.EvText2 Parse.OcrDeep _ => deep
  | _ => true
  end.

(** What the OCR stage may emit once an engine is there. *)
Definition ocrEventsOk (P : Parse.Event -> Prop) (deep : bool) : Prop :=
  P Parse.EvCreateWorker /\ P Parse.EvTerminate
  /\ (forall i, 1 <= i <= (if deep then 100 else 20) ->
        P (Parse.EvGetPage Parse.Ocr i) /\ P (Parse.EvCanvas i)
        /\ P (Parse.EvRender i) /\ P (Parse.EvRecognize i))
  /\ (forall n, P (Parse.EvText2 (if deep then Parse.OcrDeep else Parse.OcrQuick) n)).

(** What the stages before OCR and the final run may emit. *)
Definition plainEventsOk (P : Parse.Event -> Prop) : Prop :=
  P Parse.EvOpen /\ P Parse.EvDetectPages /\ P Parse.EvLoadTesseract
  /\ (forall n, P (Parse.EvLines n))
  /\ (forall n, P (Parse.EvText2 Parse.FlatRegex n))
  /\ (forall n, P (Parse.EvText2 Parse.Final n))
  /\ (forall i, 1 <= i -> P (Parse.EvGetPage Parse.TextLayer i)
                          /\ P (Parse.EvGetTextContent Parse.TextLayer i))
  /\ (forall i, 1 <= i <= 10 -> P (Parse.EvGetPage Parse.Layout i)
                                /\ P (Parse.EvGetTextContent Parse.Layout i)).

(** Every event so far satisfies [P], and no detected question has
    negative points. *)
Definition parseInv (W : Type) (P : Parse.Event -> Prop) (s : Parse.Locals W) : Prop :=
  Forall P (Parse.trace W s) /\ Forall nonnegPoints (Parse.questionsDetected W s).

(** The record that the end of the [try] block of [parsePdf] builds from
    the final locals. *)
Definition normalRecord (W : Type) (host : Parse.Host W) (s : Parse.Locals W) : Parse.Exam :=
  let questions := Parse.dedupe ∅ (Parse.questionsDetected W s) in
  Parse.mkExam (Parse.file_name W host) (Parse.examDateOf (Parse.file_name W host))
    (Some Parse.unknownCourseName) (Parse.code W s) (Parse.yearOf (Parse.file_name W host))
    (Some (fold_left (fun acc q => acc + Pdf.q_points q) questions 0)) questions
    (Js.slice 0 5000
       (Js.collapse_blanks (Meta.repairCommonMisencoding (Parse.textForParsing W s))))
    (Some []) (negb (Parse.isProd W host)).

(** A PDF that the PDF library refuses to open. *)
Definition brokenHost : Parse.Host unit :=
  Parse.mkHost unit "tenta.pdf" (fun w => (w, Throw (HostError "Invalid PDF structure")))
    (fun _ => always tt) (fun _ => always (Some []))
    false true (fun w => (w, Some false)) (always tt) (fun _ _ => always true)
    (fun _ => always tt) (fun _ _ => always EmptyString) (always tt).

(** A scanned PDF of one page, in an environment without OCR engine. *)
Definition noEngineHost : Parse.Host unit :=
  Parse.mkHost unit "tenta.pdf" (always 1%N) (fun _ => always tt) (fun _ => always (Some []))
    false true (fun w => (w, None)) (always tt) (fun _ _ => always true)
    (fun _ => always tt) (fun _ _ => always "1. Hello") (always tt).

(** *** Course metadata *)

(** The score table of [detectCourseCodeFromText], in insertion order. *)
Definition codeScores (text : string) : list (string * Z) :=
  let upper := Meta.toUpperCase text in
  Meta.scoreAll upper Meta.genericPatterns Meta.genericCode 1
    (Meta.scoreAll upper Meta.labelledPatterns Meta.labelledCode 5 []).

(** A candidate with a positive score passed every test of
    [addCandidate]. *)
Definition candidateOk (c : Meta.Candidate) : Prop :=
  0 < Meta.cd_score c ->
  Meta.isExcludedName (Meta.cd_name c) = false
  /\ (3 <= String.length (Meta.cd_name c) <= 120)%nat
  /\ 0 < Meta.countMatches Meta.reLetter (Meta.cd_name c)
  /\ Meta.countMatches Meta.reDigit (Meta.cd_name c)
     <= Meta.countMatches Meta.reLetter (Meta.cd_name c).

(** *** Further examples *)

(** Three runs of one page: a heading, a sub-question two units lower on
    the same line, and a second sub-question further down. *)
Definition headingRuns : list PdfjsTextItem :=
  [run "b)" 10 500; run "1." 0 700; run "a)" 10 698].

(** The state of [extractQuestionsFromLines] after its pass over
    [manySubsLines]. *)
Definition manySubsState : Pdf.XState :=
  fst (Pdf.linesLoop manySubsLines (Pdf.initXState, None)).


(* ===================================================================== *)
(** ** Sorting *)
(* ===================================================================== *)

Section SortFacts.
Context {A : Type}.
Variable cmp : A -> A -> Z.
Variable R : A -> A -> Prop.
Hypothesis cmp_R : forall a b, cmp a b <= 0 <-> R a b.
Hypothesis R_total : forall a b, R a b \/ R b a.
Hypothesis R_trans : forall a b c, R a b -> R b c -> R a c.

Lemma sort_insert_perm (x : A) (l : list A) :
  Permutation (sort_insert cmp x l) (x :: l).
Proof.
  induction l as [|y l IH]; simpl; [reflexivity|].
  destruct (cmp x y <=? 0); [reflexivity|].
  rewrite IH. apply perm_swap.
Qed.

Lemma js_sort_perm (l : list A) : Permutation (js_sort cmp l) l.
Proof.
  induction l as [|x l IH]; simpl; [reflexivity|].
  rewrite sort_insert_perm. now apply perm_skip.
Qed.

Lemma sort_insert_sorted (x : A) (l : list A) :
  StronglySorted R l -> StronglySorted R (sort_insert cmp x l).
Proof.
  induction 1 as [|y l Hs IH Hall]; simpl.
  - constructor; constructor.
  - destruct (cmp x y <=? 0) eqn:E.
    + apply Z.leb_le, cmp_R in E.
      constructor; [constructor; assumption|].
      constructor; [assumption|].
      eapply Forall_impl; [exact Hall|]. intros z Hz. eauto.
    + apply Z.leb_gt in E.
      assert (Hyx : R y x).
      { destruct (R_total x y) as [Hxy|Hyx]; [|assumption].
        apply cmp_R in Hxy. lia. }
      constructor; [assumption|].
      eapply Permutation_Forall.
      * symmetry. apply sort_insert_perm.
      * constructor; assumption.
Qed.

Lemma js_sort_sorted (l : list A) : StronglySorted R (js_sort cmp l).
Proof.
  induction l as [|x l IH]; simpl; [constructor|].
  now apply sort_insert_sorted.
Qed.
End SortFacts.

Lemma num_or_le (a b : Z) : num_or a b <= 0 <-> a < 0 \/ (a = 0 /\ b <= 0).
Proof.
  unfold num_or. destruct (a =? 0) eqn:E.
  - apply Z.eqb_eq in E. lia.
  - apply Z.eqb_neq in E. lia.
Qed.

Lemma cmpToken_docOrder (a b : TokenMeta) : cmpToken a b <= 0 <-> docOrder a b.
Proof.
  unfold cmpToken, docOrder. rewrite !num_or_le. lia.
Qed.

Lemma docOrder_total (a b : TokenMeta) : docOrder a b \/ docOrder b a.
Proof. unfold docOrder. lia. Qed.

Lemma docOrder_trans (a b c : TokenMeta) : docOrder a b -> docOrder b c -> docOrder a c.
Proof. unfold docOrder. lia. Qed.

(** The revision of the detector that re-sorts its tokens returns them in
    document order, for every input and configuration. *)
Lemma Detector_tokens_in_document_order (pages : list PageInput) (conf : DetectorConfig) :
  StronglySorted docOrder (Detector.detectQuestionsFromPages pages conf).
Proof.
  unfold Detector.detectQuestionsFromPages.
  apply js_sort_sorted.
  - apply cmpToken_docOrder.
  - apply docOrder_total.
  - apply docOrder_trans.
Qed.

(** The sort only reorders: the result holds the collected tokens. *)
Lemma Detector_tokens_permutation (pages : list PageInput) (conf : DetectorConfig) :
  Permutation (Detector.detectQuestionsFromPages pages conf)
              (allTokens (Detector.collect conf pages)).
Proof. apply js_sort_perm. Qed.

(* ===================================================================== *)
(** ** Line reconstruction *)
(* ===================================================================== *)











(* ===================================================================== *)
(** ** The detectors on example documents *)
(* ===================================================================== *)

(** C3.  The revision of the detector that keeps first-appearance order
    returns the tokens of page 2 before the token of page 1 when the
    pages are handed over in that order: its result is not in document
    order.  (The other revision sorts: see
    [Detector_tokens_in_document_order].) *)
Theorem first_appearance_order_is_not_document_order :
  exists tokens,
    DetectorB.detectQuestionsFromPages pagesOutOfOrder DEFAULT_CONFIG = Normal tokens
    /\ map view tokens = [("2", main, None, 2, 700); ("1", main, None, 1, 700)]
    /\ ~ StronglySorted docOrder tokens.
Proof.
  eexists. split; [vm_compute; reflexivity|]. split; [reflexivity|].
  intros H. inversion H as [|a l Hs Hall]; subst.
  inversion Hall as [|b l' Hab _]; subst.
  unfold docOrder in Hab. simpl in Hab. lia.
Qed.

(** C4.  The revision of the detector that assigns [excluded] above its
    declaration throws a ReferenceError on a page whose only line is
    "2P)". *)
Theorem detector_throws_on_inline_point_marker :
  DetectorB.detectQuestionsFromPages [page1 [run "2P)" 0 700]] DEFAULT_CONFIG
  = Throw (ReferenceError "Cannot access 'excluded' before initialization").
Proof. vm_compute. reflexivity. Qed.

(** C6.  A line that reads "20p", between a title and a footer, gives the
    main token "2" at its own position, in both revisions of the
    detector. *)
Theorem lone_point_total_gives_main_token :
  map ln_text (buildLinesFromItems pointTotalPage 1 DEFAULT_CONFIG)
    = ["Some title"; "20p"; "footer text"]
  /\ map view (Detector.detectQuestionsFromPages [page1 pointTotalPage] DEFAULT_CONFIG)
     = [("2", main, None, 1, 400)]
  /\ viewAll (DetectorB.detectQuestionsFromPages [page1 pointTotalPage] DEFAULT_CONFIG)
     = Normal [("2", main, None, 1, 400)].
Proof. vm_compute. repeat split. Qed.

(** The same document through the parser: the text-layer and flat-text
    stages find nothing, the layout detector gives question "2". *)
Lemma lone_point_total_through_parsePdf :
  let '(s, r) := parseSimple "tenta.pdf" pointTotalPage EmptyString in
  Parse.trace unit s
    = [Parse.EvOpen; Parse.EvGetPage Parse.TextLayer 1;
       Parse.EvGetTextContent Parse.TextLayer 1; Parse.EvLines 0;
       Parse.EvText2 Parse.FlatRegex 0; Parse.EvGetPage Parse.Layout 1;
       Parse.EvGetTextContent Parse.Layout 1; Parse.EvDetectPages]
  /\ exists exam, r = Normal exam
       /\ map Pdf.q_number (Parse.questions exam) = ["2"].
Proof. vm_compute. split; [reflexivity|]. eexists. split; reflexivity. Qed.

(** C7.  Six lines "<n>a) ... <n>z)" give 156 questions, in the line
    detector and in the flat-text detector: the cap is tested only after
    all the tokens of a main question are emitted. *)
Theorem cap_is_exceeded :
  length (Pdf.extractQuestionsFromLines manySubsLines) = 156%nat
  /\ length (Pdf.extractQuestionsFromText2 manySubsText) = 156%nat.
Proof. vm_compute. split; reflexivity. Qed.

(** C9.  After a section heading has reset the sequence, the line "7P) x"
    gives the sub token "7p" with parent "7", and the result holds no
    main token "7". *)
Theorem sub_token_without_its_main :
  let tokens := Detector.detectQuestionsFromPages [page1 sectionPage] DEFAULT_CONFIG in
  map view tokens = [("1", main, None, 1, 700); ("7p", sub, Some "7", 1, 500)]
  /\ map view (orphanSubs tokens) = [("7p", sub, Some "7", 1, 500)]
  /\ hasMainToken tokens "7" = false.
Proof. vm_compute. repeat split. Qed.

(** C1.  A document whose text layer reads "Tentamen i Algebra": the
    detector finds "Algebra", and the returned record carries the literal
    "Ok\u00E4nt kursnamn".  A document that holds digits only: the
    detector finds no candidate, and the returned record carries the same
    literal instead of leaving the field absent. *)
Theorem returned_course_name_ignores_detector :
  (let '(s, r) := parseSimple "tenta.pdf" titlePage EmptyString in
   Meta.detectCourseName (Parse.textForParsing unit s) (Some "tenta.pdf") (Parse.code unit s)
     = Some "Algebra"
   /\ Parse.derivedCourseName unit (simpleHost "tenta.pdf" titlePage EmptyString) s
     = Some "Algebra"
   /\ exists exam, r = Normal exam
        /\ Parse.courseName exam = Some Parse.unknownCourseName)
  /\
  (let '(s, r) := parseSimple "tenta.pdf" digitsPage EmptyString in
   Meta.detectCourseName (Parse.textForParsing unit s) (Some "tenta.pdf") (Parse.code unit s)
     = None
   /\ exists exam, r = Normal exam
        /\ Parse.courseName exam = Some Parse.unknownCourseName).
Proof.
  split.
  - vm_compute. split; [reflexivity|]. split; [reflexivity|].
    eexists. split; reflexivity.
  - vm_compute. split; [reflexivity|]. eexists. split; reflexivity.
Qed.

(* ===================================================================== *)
(** ** Header and footer suppression *)
(* ===================================================================== *)

Lemma countOf_bump (count : gmap string Z) (ln : Pdf.TextLine) (text : string) :
  countOf (Pdf.bump count ln) text
  = countOf count text + (if String.eqb (Pdf.tl_text ln) text then 1 else 0).
Proof.
  unfold countOf, Pdf.bump. rewrite lookup_insert.
  destruct (String.eqb_spec (Pdf.tl_text ln) text) as [->|Hne].
  - rewrite decide_True by reflexivity. reflexivity.
  - rewrite decide_False by assumption. lia.
Qed.

Lemma countOf_group (grp : list Pdf.TextLine) (count : gmap string Z) (text : string) :
  countOf (fold_left Pdf.bump grp count) text = countOf count text + occurrences text grp.
Proof.
  revert count. induction grp as [|ln grp IH]; intros count; simpl.
  - unfold occurrences. simpl. lia.
  - rewrite IH, countOf_bump. unfold occurrences. simpl.
    destruct (String.eqb (Pdf.tl_text ln) text); simpl length; lia.
Qed.

Lemma countOf_groups (groups : list (list Pdf.TextLine)) (count : gmap string Z)
    (text : string) :
  countOf (fold_left (fun cnt grp => fold_left Pdf.bump grp cnt) groups count) text
  = countOf count text + sumZ (map (occurrences text) groups).
Proof.
  revert count. induction groups as [|g groups IH]; intros count; simpl.
  - lia.
  - rewrite IH, countOf_group. lia.
Qed.

Lemma countTexts_total (groups : list (list Pdf.TextLine)) (text : string) :
  countOf (Pdf.countTexts groups) text = sumZ (map (occurrences text) groups).
Proof.
  unfold Pdf.countTexts. rewrite countOf_groups. unfold countOf.
  rewrite lookup_empty. reflexivity.
Qed.

Lemma common_of_count (count : gmap string Z) (thr : Z) (text : string) :
  0 < thr -> thr <= countOf count text -> Pdf.common count thr text = true.
Proof.
  unfold countOf, Pdf.common. intros Hpos Hle.
  destruct (count !! text) as [c|]; simpl in *; [apply Z.leb_le; lia|lia].
Qed.

Lemma threshold_pos (totalPages : Z) : 0 < Pdf.threshold totalPages.
Proof. unfold Pdf.threshold. lia. Qed.

Lemma keepFrom_In (tc bc : gmap string Z) (thr : Z) (len : nat) (arr : list Pdf.TextLine) :
  forall (i : nat) (ln : Pdf.TextLine),
    In ln (Pdf.keepFrom tc bc thr len i arr) ->
    In ln (skipn (3 - i) arr) \/ Pdf.common tc thr (Pdf.tl_text ln) = false.
Proof.
  induction arr as [|a arr IH]; intros i ln Hin; simpl in Hin; [contradiction|].
  assert (Htail : In ln (Pdf.keepFrom tc bc thr len (S i) arr) ->
                  In ln (skipn (3 - i) (a :: arr))
                  \/ Pdf.common tc thr (Pdf.tl_text ln) = false).
  { intros H. destruct (IH (S i) ln H) as [Hs|Hc]; [left|right; exact Hc].
    destruct (3 - i)%nat as [|k] eqn:E.
    - replace (3 - S i)%nat with 0%nat in Hs by lia. simpl in *. right. exact Hs.
    - replace (3 - S i)%nat with k in Hs by lia. simpl. exact Hs. }
  destruct ((i <? 3)%nat && Pdf.common tc thr (Pdf.tl_text a)) eqn:Etop; simpl in Hin.
  - apply Htail, Hin.
  - destruct ((len <=? i + 3)%nat && Pdf.common bc thr (Pdf.tl_text a)); simpl in Hin.
    + apply Htail, Hin.
    + destruct Hin as [<-|Hin]; [|apply Htail, Hin].
      apply andb_false_iff in Etop. destruct Etop as [Ei|Ec]; [left|right; exact Ec].
      apply Nat.ltb_ge in Ei. replace (3 - i)%nat with 0%nat by lia. simpl. now left.
Qed.

(** C5 (amended).  In the text-layer stage, a text that fills top-3
    slots at least [max(2, floor(0.6 * max(1, totalPages)))] times over
    the document, and that stands nowhere below the third line of a page,
    is on no line that [filterHeaderFooterLines] lets through: the line
    detector never reads such a line, whatever heading syntax its text
    has. *)
Theorem repeated_top_line_is_filtered
    (lines : list Pdf.TextLine) (totalPages : Z) (text : string) :
  Pdf.threshold totalPages <= topSlotCount lines text ->
  onlyInTopSlots lines text = true ->
  forall ln, In ln (Pdf.filterHeaderFooterLines lines totalPages) ->
             Pdf.tl_text ln <> text.
Proof.
  intros Hcount Honly ln Hin Htext.
  unfold Pdf.filterHeaderFooterLines in Hin.
  apply (Permutation_in _ (js_sort_perm Pdf.cmpPage _)) in Hin.
  apply in_flat_map in Hin. destruct Hin as [[p arr] [Hpa Hkeep]].
  simpl in Hkeep. apply keepFrom_In in Hkeep.
  destruct Hkeep as [Hbelow|Hcommon].
  - unfold onlyInTopSlots in Honly.
    rewrite forallb_forall in Honly. specialize (Honly _ Hpa). simpl in Honly.
    rewrite forallb_forall in Honly. specialize (Honly _ Hbelow).
    rewrite Htext, String.eqb_refl in Honly. discriminate.
  - rewrite common_of_count in Hcommon; [discriminate|apply threshold_pos|].
    rewrite countTexts_total, map_map, Htext. exact Hcount.
Qed.

(** The theorem at three pages that open with the banner "1.": the banner
    is filtered from every page. *)
Lemma repeated_top_line_is_filtered_witness :
  Pdf.threshold 3 <= topSlotCount bannerLines "1."
  /\ onlyInTopSlots bannerLines "1." = true
  /\ forall ln, In ln (Pdf.filterHeaderFooterLines bannerLines 3) ->
                Pdf.tl_text ln <> "1.".
Proof.
  split; [vm_compute; discriminate|]. split; [reflexivity|].
  apply (repeated_top_line_is_filtered bannerLines 3 "1.").
  - vm_compute. discriminate.
  - reflexivity.
Defined.

(** C5 as stated fails.  In a one-page document the line "1." stands in
    the top-3 lines of every page, it passes the filter, and the line
    detector makes it question "1".  In a document of two pages that both
    open with the line "1.", the filter removes that line and the line
    detector finds nothing; the flat-text detector then reads the
    unfiltered text, and the parse returns question "1". *)
Lemma top_line_of_every_page_gives_heading :
  (let lines := [Pdf.mkTextLine "1." 1] in
   topSlotPages lines "1." = 1
   /\ Pdf.filterHeaderFooterLines lines 1 = lines
   /\ Pdf.extractQuestionsFromLines (Pdf.filterHeaderFooterLines lines 1)
      = [Pdf.mkQuestion "q-1" "1" 0 (Some 1) None])
  /\
  (let '(s, r) := Parse.parsePdf unit bannerHost detectA false tt in
   let lines := Parse.structuredLines unit s in
   map Pdf.tl_text lines = ["1."; "alpha"; "1."; "beta"]
   /\ topSlotPages lines "1." = 2
   /\ map Pdf.tl_text (Pdf.filterHeaderFooterLines lines 2) = ["alpha"; "beta"]
   /\ Parse.trace unit s
      = [Parse.EvOpen; Parse.EvGetPage Parse.TextLayer 1;
         Parse.EvGetTextContent Parse.TextLayer 1;
         Parse.EvGetPage Parse.TextLayer 2;
         Parse.EvGetTextContent Parse.TextLayer 2;
         Parse.EvLines 0; Parse.EvText2 Parse.FlatRegex 1]
   /\ exists exam, r = Normal exam
        /\ Parse.questions exam = [Pdf.mkQuestion "q-1" "1" 0 None None]).
Proof.
  split.
  - vm_compute. repeat split.
  - vm_compute. repeat split. eexists. split; reflexivity.
Qed.

(* ===================================================================== *)
(** ** Group distributions *)
(* ===================================================================== *)

Section GroupDistribution.
Import Pdf.












End GroupDistribution.



(** The document that holds this line only, on any page: both detectors
    return the three sub-questions. *)
Lemma group_distribution_document (page : Z) :
  Pdf.extractQuestionsFromLines [groupLine page]
    = [Pdf.mkQuestion "q-4a" "4a" 3 (Some page) None;
       Pdf.mkQuestion "q-4b" "4b" 2 (Some page) None;
       Pdf.mkQuestion "q-4c" "4c" 1 (Some page) None]
  /\ Pdf.extractQuestionsFromText2 "Uppgift 4 (3+2+1)p"
    = [Pdf.mkQuestion "q-4a" "4a" 3 None None;
       Pdf.mkQuestion "q-4b" "4b" 2 None None;
       Pdf.mkQuestion "q-4c" "4c" 1 None None].
Proof. split; vm_compute; reflexivity. Qed.

(* ===================================================================== *)
(** ** The escalation order of [parsePdf] *)
(* ===================================================================== *)

Lemma runPhases_app (q : Phase) (a b : list Parse.Event) :
  runPhases q (a ++ b)
  = match runPhases q a with Some q' => runPhases q' b | None => None end.
Proof.
  revert q. induction a as [|ev a IH]; intros q; simpl; [reflexivity|].
  destruct (step q ev); [apply IH|reflexivity].
Qed.

Section Escalation.
Variable W : Type.
Variable host : Parse.Host W.
Variable detect : list PageInput -> Completion (list TokenMeta).

Local Abbreviation Locals := (Parse.Locals W).
Local Abbreviation trace := (Parse.trace W).
Local Abbreviation qs := (Parse.questionsDetected W).

Lemma phaseOf_snoc (s s' : Locals) (q : Phase) (ev : Parse.Event) :
  phaseOf s = Some q -> trace s' = (trace s ++ [ev])%list -> phaseOf s' = step q ev.
Proof.
  unfold phaseOf. intros Hq Ht. rewrite Ht, runPhases_app, Hq. simpl.
  destruct (step q ev); reflexivity.
Qed.

Lemma phaseOf_same (s s' : Locals) : trace s' = trace s -> phaseOf s' = phaseOf s.
Proof. unfold phaseOf. now intros ->. Qed.

(** A call to a collaborator: one more event, the questions stay. *)
Lemma call_spec {A} (ev : Parse.Event) (f : W -> W * Completion A) (s s' : Locals)
    (r : Completion A) :
  Parse.call W ev f s = (s', r) ->
  trace s' = (trace s ++ [ev])%list /\ qs s' = qs s.
Proof.
  unfold Parse.call. destruct (f (Parse.world W s)). intros [= <- <-]. simpl. auto.
Qed.

(** Unfold one [bind] in the equation [H] and name the outcome of its
    first computation. *)
Ltac bind_in H s1 r1 E :=
  unfold Parse.bind at 1 in H;
  match type of H with
  | (match ?m ?s with _ => _ end) = _ => destruct (m s) as [s1 r1] eqn:E
  | (let (_, _) := ?m ?s in _) = _ => destruct (m s) as [s1 r1] eqn:E
  end.

Lemma textLayerLoop_spec (pages : list Z) :
  forall s s' r, Parse.textLayerLoop W host pages s = (s', r) ->
    phaseOf s = Some PText ->
    phaseOf s' = Some PText /\ qs s' = qs s.
Proof.
  induction pages as [|i pages IH]; intros s s' r H Hs.
  - injection H as <- <-. auto.
  - cbn [Parse.textLayerLoop] in H.
    bind_in H s1 r1 E1. apply call_spec in E1 as [Ht1 Hq1].
    pose proof (phaseOf_snoc s s1 _ _ Hs Ht1) as Hs1. simpl in Hs1.
    destruct r1 as [[]|e]; [|injection H as <- <-; split; congruence].
    bind_in H s2 r2 E2. apply call_spec in E2 as [Ht2 Hq2].
    pose proof (phaseOf_snoc s1 s2 _ _ Hs1 Ht2) as Hs2. simpl in Hs2.
    destruct r2 as [content|e]; [|injection H as <- <-; split; congruence].
    destruct content as [[|it items]|].
    + apply IH in H as [? ?]; [split; congruence|assumption].
    + unfold Parse.bind, Parse.modify in H. cbn [fst snd] in H.
      apply IH in H as [? ?]; [split; [assumption|]|exact Hs2].
      simpl in *. congruence.
    + apply IH in H as [? ?]; [split; congruence|assumption].
Qed.

Lemma readTextLayer_spec (s s' : Locals) (r : Completion N) :
  Parse.readTextLayer W host s = (s', r) ->
  phaseOf s = Some PText ->
  phaseOf s' = Some PText /\ qs s' = qs s.
Proof.
  intros H Hs. unfold Parse.readTextLayer in H.
  bind_in H s1 r1 E1. apply call_spec in E1 as [Ht1 Hq1].
  pose proof (phaseOf_snoc s s1 _ _ Hs Ht1) as Hs1. simpl in Hs1.
  destruct r1 as [n|e]; [|injection H as <- <-; split; congruence].
  bind_in H s2 r2 E2. apply textLayerLoop_spec in E2 as [Hs2 Hq2]; [|exact Hs1].
  destruct r2 as [[]|e]; injection H as <- <-; split; congruence.
Qed.

Lemma detectFromLines_spec (maxPages : Z) (s s' : Locals) (r : Completion unit) :
  Parse.detectFromLines W maxPages s = (s', r) ->
  phaseOf s = Some PText ->
  r = Normal tt /\ phaseOf s' = Some (phaseAfter PLinesEmpty (qs s')).
Proof.
  intros H Hs. unfold Parse.detectFromLines, Parse.bind, Parse.get, Parse.modify,
    Parse.emit in H. cbn [fst snd] in H. injection H as <- <-.
  split; [reflexivity|].
  match goal with |- phaseOf ?s1 = _ =>
    rewrite (phaseOf_snoc s s1 PText (Parse.EvLines (length (qs s1))) Hs);
    [|reflexivity] end.
  cbn [qs Parse.setQuestions].
  destruct (Pdf.extractQuestionsFromLines _); reflexivity.
Qed.

Lemma runText2_spec (site : Parse.Text2Site) (s s' : Locals) (r : Completion unit) :
  Parse.runText2 W site s = (s', r) ->
  r = Normal tt
  /\ trace s' = (trace s ++ [Parse.EvText2 site (length (qs s'))])%list.
Proof.
  unfold Parse.runText2, Parse.bind, Parse.get, Parse.modify, Parse.emit.
  cbn [fst snd]. intros [= <- <-]. split; reflexivity.
Qed.

Lemma whenEmpty_eq (m : Parse.M W unit) (s : Locals) :
  Parse.whenEmpty W m s = match qs s with [] => m s | _ => (s, Normal tt) end.
Proof.
  unfold Parse.whenEmpty, Parse.noQuestions, Parse.bind, Parse.get, Parse.ret.
  destruct (qs s); reflexivity.
Qed.

Lemma layoutPages_spec (pages : list Z) :
  forall acc s s' r, Parse.layoutPages W host pages acc s = (s', r) ->
    phaseOf s = Some PLayout ->
    phaseOf s' = Some PLayout /\ qs s' = qs s.
Proof.
  induction pages as [|i pages IH]; intros acc s s' r H Hs.
  - injection H as <- <-. auto.
  - cbn [Parse.layoutPages] in H.
    bind_in H s1 r1 E1. apply call_spec in E1 as [Ht1 Hq1].
    pose proof (phaseOf_snoc s s1 _ _ Hs Ht1) as Hs1. simpl in Hs1.
    destruct r1 as [[]|e]; [|injection H as <- <-; split; congruence].
    bind_in H s2 r2 E2. apply call_spec in E2 as [Ht2 Hq2].
    pose proof (phaseOf_snoc s1 s2 _ _ Hs1 Ht2) as Hs2. simpl in Hs2.
    destruct r2 as [content|e]; [|injection H as <- <-; split; congruence].
    apply IH in H as [? ?]; [split; congruence|assumption].
Qed.

Lemma layoutPages_first (pages : list Z) :
  forall acc s s' r, Parse.layoutPages W host (1 :: pages) acc s = (s', r) ->
    phaseOf s = Some PFlatEmpty ->
    phaseOf s' = Some PLayout /\ qs s' = qs s.
Proof.
  intros acc s s' r H Hs. cbn [Parse.layoutPages] in H.
  bind_in H s1 r1 E1. apply call_spec in E1 as [Ht1 Hq1].
  pose proof (phaseOf_snoc s s1 _ _ Hs Ht1) as Hs1. simpl in Hs1.
  destruct r1 as [[]|e]; [|injection H as <- <-; split; congruence].
  bind_in H s2 r2 E2. apply call_spec in E2 as [Ht2 Hq2].
  pose proof (phaseOf_snoc s1 s2 _ _ Hs1 Ht2) as Hs2. simpl in Hs2.
  destruct r2 as [content|e]; [|injection H as <- <-; split; congruence].
  apply layoutPages_spec in H as [? ?]; [split; congruence|assumption].
Qed.

Lemma pagesUpTo_first (m : Z) :
  1 <= m -> exists rest, Parse.pagesUpTo m = 1 :: rest.
Proof.
  intros Hm. unfold Parse.pagesUpTo.
  destruct (Z.to_nat m) as [|k] eqn:E; [lia|]. simpl. eauto.
Qed.

Lemma orOne_pos (n : N) : 1 <= Parse.orOne n.
Proof. unfold Parse.orOne. destruct (N.eqb_spec n 0); lia. Qed.

Lemma layoutFallback_spec (n : N) (s s' : Locals) (r : Completion unit) :
  Parse.layoutFallback W host detect n s = (s', r) ->
  phaseOf s = Some PFlatEmpty ->
  r = Normal tt /\ phaseOf s' = Some PLayout.
Proof.
  intros H Hs. unfold Parse.layoutFallback, Parse.try_ in H.
  match type of H with (let (_, _) := ?m ?s in _) = _ =>
    destruct (m s) as [s1 r1] eqn:E end.
  injection H as <- <-. split; [reflexivity|].
  destruct (pagesUpTo_first (Z.min (Parse.orOne n) 10)) as [rest Hrest].
  { pose proof (orOne_pos n). lia. }
  rewrite Hrest in E.
  bind_in E s2 r2 E2. apply layoutPages_first in E2 as [Hs2 Hq2]; [|exact Hs].
  destruct r2 as [detectorPages|e]; [|injection E as <- <-; exact Hs2].
  unfold Parse.bind, Parse.emit in E. cbn [fst snd] in E.
  assert (Hs3 : forall s3, trace s3 = (trace s2 ++ [Parse.EvDetectPages])%list ->
                           phaseOf s3 = Some PLayout).
  { intros s3 Ht3. now rewrite (phaseOf_snoc s2 s3 _ _ Hs2 Ht3). }
  destruct (detect detectorPages) as [[|tk toks]|e];
    injection E as <- <-; apply Hs3; reflexivity.
Qed.

Lemma recognizePage_spec (i : Z) (useWorker : bool) (s s' : Locals) (r : Completion string) :
  Parse.recognizePage W host i useWorker s = (s', r) ->
  (exists t, r = Normal t)
  /\ trace s' = (trace s ++ [Parse.EvRecognize i])%list /\ qs s' = qs s.
Proof.
  unfold Parse.recognizePage. intros H.
  destruct (Parse.call W _ _ s) as [s1 r1] eqn:E. apply call_spec in E as [Ht Hq].
  destruct r1; injection H as <- <-; eauto.
Qed.

Lemma ocrLoop_spec (deep useWorker : bool) (pages : list Z) :
  forall s s' r, Parse.ocrLoop W host deep useWorker pages s = (s', r) ->
    phaseOf s = Some POcr -> ocrOutcome deep s'.
Proof.
  induction pages as [|i pages IH]; intros s s' r H Hs.
  - injection H as <- <-. now left.
  - cbn [Parse.ocrLoop] in H.
    bind_in H s1 r1 E1. apply call_spec in E1 as [Ht1 Hq1].
    pose proof (phaseOf_snoc s s1 _ _ Hs Ht1) as Hs1. simpl in Hs1.
    destruct r1 as [[]|e]; [|injection H as <- <-; now left].
    bind_in H s2 r2 E2. apply call_spec in E2 as [Ht2 Hq2].
    pose proof (phaseOf_snoc s1 s2 _ _ Hs1 Ht2) as Hs2. simpl in Hs2.
    destruct r2 as [ctx|e]; [|injection H as <- <-; now left].
    destruct ctx; cbn [negb] in H; [|now apply IH in H].
    bind_in H s3 r3 E3. apply call_spec in E3 as [Ht3 Hq3].
    pose proof (phaseOf_snoc s2 s3 _ _ Hs2 Ht3) as Hs3. simpl in Hs3.
    destruct r3 as [[]|e]; [|injection H as <- <-; now left].
    bind_in H s4 r4 E4. apply recognizePage_spec in E4 as ([t ->] & Ht4 & Hq4).
    pose proof (phaseOf_snoc s3 s4 _ _ Hs3 Ht4) as Hs4. simpl in Hs4.
    destruct (Js.truthy t); [|now apply IH in H].
    unfold Parse.bind at 1 2, Parse.modify in H. cbn [fst snd] in H.
    match type of H with context [Parse.setTextForParsing W ?v ?s0] =>
      set (s5 := Parse.setTextForParsing W v s0) in H;
      assert (Hs5 : phaseOf s5 = Some POcr) by exact Hs4
    end.
    destruct deep; [now apply IH in H|].
    bind_in H s6 r6 E6. apply runText2_spec in E6 as [-> Ht6].
    pose proof (phaseOf_snoc s5 s6 _ _ Hs5 Ht6) as Hs6.
    unfold Parse.noQuestions, Parse.bind, Parse.get, Parse.ret in H.
    destruct (qs s6) as [|q0 rest] eqn:Eq; cbn [length Nat.eqb] in H.
    + apply IH in H; [exact H|exact Hs6].
    + injection H as <- <-. right. simpl in Hs6. rewrite Eq. auto.
Qed.

Lemma ocrStage_spec (deep : bool) (n : N) (s s' : Locals) (r : Completion unit) :
  Parse.ocrStage W host deep n s = (s', r) ->
  phaseOf s = Some PLayout ->
  r = Normal tt /\ ocrOutcome deep s'.
Proof.
  intros H Hs. unfold Parse.ocrStage in H.
  bind_in H s1 r1 E1. apply call_spec in E1 as E1'. destruct E1' as [Ht1 Hq1].
  pose proof (phaseOf_snoc s s1 _ _ Hs Ht1) as Hs1. simpl in Hs1.
  assert (Hr1 : exists tess, r1 = Normal tess).
  { unfold Parse.call in E1. destruct (Parse.loadTesseract W host (Parse.world W s)).
    injection E1 as _ <-. eauto. }
  destruct Hr1 as [tess ->].
  destruct tess as [hasCreateWorker|]; [|injection H as <- <-; split; [reflexivity|now left]].
  destruct (Parse.hasDocument W host); [|injection H as <- <-; split; [reflexivity|now left]].
  unfold Parse.try_ at 1 in H.
  match type of H with (let (_, _) := ?m ?s in _) = _ =>
    destruct (m s) as [s2 r2] eqn:E end.
  injection H as <- <-. split; [reflexivity|].
  (* the worker, if there is one *)
  bind_in E s3 r3 E3.
  assert (Hs3 : phaseOf s3 = Some POcr).
  { destruct hasCreateWorker.
    - apply call_spec in E3 as [Ht3 _].
      now rewrite (phaseOf_snoc s1 s3 _ _ Hs1 Ht3).
    - injection E3 as <- <-. exact Hs1. }
  destruct r3 as [[]|e]; [|injection E as <- <-; now left].
  (* the page loop *)
  bind_in E s4 r4 E4. apply ocrLoop_spec in E4; [|exact Hs3].
  destruct r4 as [[]|e]; [|injection E as <- <-; exact E4].
  (* terminate *)
  bind_in E s5 r5 E5.
  assert (Hs5 : ocrOutcome deep s5 /\ r5 = Normal tt).
  { destruct hasCreateWorker.
    - unfold Parse.try_ in E5.
      destruct (Parse.call W _ _ s4) as [s5' r5'] eqn:E5'.
      injection E5 as <- <-. apply call_spec in E5' as [Ht5 Hq5].
      split; [|reflexivity].
      destruct E4 as [Hp|(Hp & Hq & Hd)]; [left|right].
      + now rewrite (phaseOf_snoc s4 s5' _ _ Hp Ht5).
      + rewrite (phaseOf_snoc s4 s5' _ _ Hp Ht5), Hq5. auto.
    - injection E5 as <- <-. auto. }
  destruct Hs5 as [Hs5 ->].
  destruct deep.
  - apply runText2_spec in E as [-> Ht].
    destruct Hs5 as [Hp|(_ & _ & Hd)]; [left|discriminate].
    now rewrite (phaseOf_snoc s5 s2 _ _ Hp Ht).
  - injection E as <- <-. exact Hs5.
Qed.

Lemma detectCode_same (s : Locals) :
  trace (Parse.detectCode W s) = trace s /\ qs (Parse.detectCode W s) = qs s.
Proof.
  unfold Parse.detectCode.
  destruct (Js.truthy _); [auto|].
  destruct (Js.truthy _); [|auto].
  destruct (Meta.detectCourseCodeFromText _) as [d|]; [|auto].
  destruct (Js.truthy d); auto.
Qed.

Lemma finish_spec (s s' : Locals) (r : Completion Parse.Exam) :
  Parse.finish W host s = (s', r) ->
  (exists exam, r = Normal exam
                /\ Parse.courseName exam = Some Parse.unknownCourseName)
  /\ trace s'
     = match qs s with
       | [] => (trace s ++ [Parse.EvText2 Parse.Final (length (qs s'))])%list
       | _ => trace s
       end.
Proof.
  intros H. unfold Parse.finish in H.
  unfold Parse.bind at 1, Parse.get at 1 in H. cbn [fst snd] in H.
  bind_in H s1 r1 E1. rewrite whenEmpty_eq in E1.
  assert (Hr1 : r1 = Normal tt
                /\ trace s1 = match qs s with
                             | [] => (trace s ++ [Parse.EvText2 Parse.Final (length (qs s1))])%list
                             | _ => trace s
                             end).
  { destruct (qs s).
    - now apply runText2_spec in E1.
    - injection E1 as <- <-. auto. }
  destruct Hr1 as [-> Ht1].
  unfold Parse.bind, Parse.get, Parse.ret in H. cbn [fst snd] in H.
  injection H as <- <-. split; [eexists; split; reflexivity|exact Ht1].
Qed.

Lemma parseBody_spec (deep : bool) (s s' : Locals) (r : Completion Parse.Exam) :
  Parse.parseBody W host detect deep s = (s', r) ->
  phaseOf s = Some PText ->
  (exists q, phaseOf s' = Some q /\ restingPhase q = true)
  /\ (forall exam, r = Normal exam ->
                   Parse.courseName exam = Some Parse.unknownCourseName).
Proof.
  intros H Hs. unfold Parse.parseBody in H.
  (* the text layer *)
  bind_in H s1 r1 E1. apply readTextLayer_spec in E1 as [Hs1 _]; [|exact Hs].
  destruct r1 as [numPages|e];
    [|injection H as <- <-; split; [eauto|discriminate]].
  (* the line detector *)
  bind_in H s2 r2 E2. apply detectFromLines_spec in E2 as [-> Hs2]; [|exact Hs1].
  (* the flat-text detector *)
  bind_in H s3 r3 E3. rewrite whenEmpty_eq in E3.
  assert (Hs3 : r3 = Normal tt /\ phaseOf s3 = Some (phaseAfter PFlatEmpty (qs s3))).
  { destruct (qs s2) as [|q0 l] eqn:Eq.
    - apply runText2_spec in E3 as [-> Ht3]. split; [reflexivity|].
      rewrite (phaseOf_snoc s2 s3 _ _ Hs2 Ht3). simpl.
      destruct (qs s3); reflexivity.
    - injection E3 as <- <-. rewrite Eq. auto. }
  destruct Hs3 as [-> Hs3].
  (* the layout detector *)
  bind_in H s4 r4 E4. rewrite whenEmpty_eq in E4.
  assert (Hs4 : r4 = Normal tt
                /\ (phaseOf s4 = Some PLayout
                    \/ (phaseOf s4 = Some PDone /\ qs s4 <> []))).
  { destruct (qs s3) as [|q0 l] eqn:Eq.
    - apply layoutFallback_spec in E4 as [-> Hp]; [auto|exact Hs3].
    - injection E4 as <- <-. rewrite Eq. split; [reflexivity|right].
      split; [exact Hs3|discriminate]. }
  destruct Hs4 as [-> Hs4].
  (* OCR *)
  bind_in H s5 r5 E5. rewrite whenEmpty_eq in E5.
  assert (Hs5 : r5 = Normal tt
                /\ (phaseOf s5 = Some POcr
                    \/ (qs s5 <> []
                        /\ exists q, phaseOf s5 = Some q /\ restingPhase q = true))).
  { destruct (qs s4) as [|q0 l] eqn:Eq.
    - destruct Hs4 as [Hp|[_ Hne]]; [|congruence].
      apply ocrStage_spec in E5 as [-> Ho]; [|exact Hp].
      split; [reflexivity|]. destruct Ho as [Ho|(Ho & Hq & _)]; [now left|right].
      split; [exact Hq|]. exists PQuickFound. auto.
    - injection E5 as <- <-. split; [reflexivity|right].
      split; [rewrite Eq; discriminate|].
      destruct Hs4 as [Hp|[Hp _]]; eauto. }
  destruct Hs5 as [-> Hs5].
  (* the course code *)
  unfold Parse.bind at 1, Parse.modify at 1 in H. cbn [fst snd] in H.
  destruct (detectCode_same s5) as [Ht6 Hq6].
  (* the end *)
  apply finish_spec in H as [(exam & -> & Hname) Ht].
  split; [|intros exam' [= <-]; exact Hname].
  rewrite Hq6 in Ht. destruct (qs s5) as [|q0 l] eqn:Eq.
  - destruct Hs5 as [Hp|[Hne _]]; [|congruence].
    exists PDone. split; [|reflexivity].
    unfold phaseOf in *. rewrite Ht, runPhases_app, Ht6, Hp. reflexivity.
  - destruct Hs5 as [Hp|[_ (q & Hp & Hq)]].
    + exists POcr. split; [|reflexivity]. unfold phaseOf in *. now rewrite Ht, Ht6.
    + exists q. split; [|exact Hq]. unfold phaseOf in *. now rewrite Ht, Ht6.
Qed.

(** The events of a parse lead the state machine to a resting phase. *)
Lemma parsePdf_phases (deep : bool) (w : W) :
  exists q, runPhases PText (trace (fst (Parse.parsePdf W host detect deep w))) = Some q
            /\ restingPhase q = true.
Proof.
  unfold Parse.parsePdf.
  destruct (Parse.parseBody W host detect deep (Parse.initLocals W host w))
    as [s r] eqn:E.
  apply parseBody_spec in E as [Hq _]; [|reflexivity].
  destruct r; exact Hq.
Qed.

(** [parsePdf] returns normally, and a record that comes from the [try]
    block carries the literal course name. *)
Lemma parsePdf_returns (deep : bool) (w : W) :
  exists exam, snd (Parse.parsePdf W host detect deep w) = Normal exam
    /\ (Parse.courseName exam = Some Parse.unknownCourseName
        \/ (Parse.courseName exam = None /\ Parse.questions exam = [])).
Proof.
  unfold Parse.parsePdf.
  destruct (Parse.parseBody W host detect deep (Parse.initLocals W host w))
    as [s r] eqn:E.
  apply parseBody_spec in E as [_ Hn]; [|reflexivity].
  destruct r as [exam|e]; eexists; (split; [reflexivity|]).
  - left. now apply Hn.
  - right. split; reflexivity.
Qed.
End Escalation.

(** *** What an accepted trace looks like *)

Lemma runPhases_split (q qf : Phase) (tr : list Parse.Event) (k : nat) (ev : Parse.Event) :
  runPhases q tr = Some qf -> tr !! k = Some ev ->
  exists q1 q2, runPhases q (take k tr) = Some q1 /\ step q1 ev = Some q2
                /\ runPhases q2 (drop (S k) tr) = Some qf.
Proof.
  intros Hrun Hk. rewrite <- (take_drop_middle tr k ev Hk) in Hrun.
  rewrite runPhases_app in Hrun.
  destruct (runPhases q (take k tr)) as [q1|]; [|discriminate].
  simpl in Hrun. destruct (step q1 ev) as [q2|] eqn:E; [|discriminate].
  exists q1, q2. repeat split; assumption || reflexivity.
Qed.













Section EscalationOrder.
Variable W : Type.
Variable host : Parse.Host W.
Variable detect : list PageInput -> Completion (list TokenMeta).

End EscalationOrder.


(* ===================================================================== *)
(** ** Percentiles *)
(* ===================================================================== *)









(** *** Letter ranges *)

(** X3.  For two non-empty ends [letterRange] does not depend on their
    order; it returns at most 26 strings, each of them one lower-case
    letter from a to z. *)
Theorem letterRange_is_symmetric_and_lower_case (a b : string) :
  a <> EmptyString -> b <> EmptyString ->
  letterRange a b = letterRange b a
  /\ (length (letterRange a b) <= 26)%nat
  /\ Forall (fun L => exists c, L = String c EmptyString /\ Js.is_lower_az c = true)
            (letterRange a b).
Proof.
  intros _ _. unfold letterRange.
  set (s := first_code (Js.toLowerCase a)). set (e := first_code (Js.toLowerCase b)).
  split; [|split].
  - rewrite (N.min_comm e s), (N.max_comm e s). reflexivity.
  - rewrite length_map, length_seq. lia.
  - apply List.Forall_forall. intros L HL. apply in_map_iff in HL.
    destruct HL as [k [<- Hk]]. apply in_seq in Hk.
    eexists. split; [reflexivity|].
    unfold Js.is_lower_az, Js.in_range, Js.code, Js.chr.
    assert (Hlt : (N.max 97 (N.min s e) + N.of_nat k < 256)%N) by lia.
    rewrite N_ascii_embedding by exact Hlt.
    apply andb_true_iff. split; apply N.leb_le; lia.
Qed.

(** The theorem at the ends "C" and "a". *)
Lemma letterRange_is_symmetric_and_lower_case_witness :
  "C" <> EmptyString /\ "a" <> EmptyString
  /\ letterRange "C" "a" = ["a"; "b"; "c"]
  /\ letterRange "C" "a" = letterRange "a" "C"
  /\ (length (letterRange "C" "a") <= 26)%nat
  /\ Forall (fun L => exists c, L = String c EmptyString /\ Js.is_lower_az c = true)
            (letterRange "C" "a").
Proof.
  assert (H1 : "C" <> EmptyString) by discriminate.
  assert (H2 : "a" <> EmptyString) by discriminate.
  split; [exact H1|]. split; [exact H2|]. split; [vm_compute; reflexivity|].
  exact (letterRange_is_symmetric_and_lower_case "C" "a" H1 H2).
Defined.

(* ===================================================================== *)
(** ** Line reconstruction: order and tolerance *)
(* ===================================================================== *)

Lemma cmpSpan_spanOrder (a b : Span) : cmpSpan a b <= 0 <-> spanOrder a b.
Proof. unfold cmpSpan, spanOrder. rewrite num_or_le. lia. Qed.

Lemma spans_sorted (spans : list Span) : StronglySorted spanOrder (js_sort cmpSpan spans).
Proof.
  apply js_sort_sorted.
  - apply cmpSpan_spanOrder.
  - intros a b. unfold spanOrder. lia.
  - intros a b c. unfold spanOrder. lia.
Qed.

Lemma place_Forall_y (P : Z -> Prop) (yTol : Z) (sp : Span) (raw : list Bucket) :
  Forall (fun l => P (b_y l)) raw -> P (sp_y sp) ->
  Forall (fun l => P (b_y l)) (place yTol sp raw).
Proof.
  intros Hraw Hsp. induction Hraw as [|l raw Hl Hraw IH]; simpl.
  - constructor; [exact Hsp|constructor].
  - destruct (Z.abs (b_y l - sp_y sp) <=? yTol); constructor; auto.
Qed.

Lemma place_sorted (yTol : Z) (sp : Span) (raw : list Bucket) :
  StronglySorted (below yTol) raw ->
  Forall (fun l => sp_y sp <= b_y l) raw ->
  StronglySorted (below yTol) (place yTol sp raw).
Proof.
  intros Hs. induction Hs as [|l raw Hs IH Hall]; intros Hge; simpl.
  - constructor; constructor.
  - inversion Hge as [|? ? Hl Hge']; subst.
    destruct (Z.abs (b_y l - sp_y sp) <=? yTol) eqn:E.
    + constructor; [exact Hs|exact Hall].
    + apply Z.leb_gt in E. constructor; [apply IH; exact Hge'|].
      apply (place_Forall_y (fun y => y + yTol < b_y l)); [exact Hall|lia].
Qed.

Lemma place_ok (yTol : Z) (sp : Span) (raw : list Bucket) :
  0 <= yTol ->
  Forall (bucketOk yTol) raw ->
  Forall (fun l => sp_y sp <= b_y l) raw ->
  Forall (bucketOk yTol) (place yTol sp raw).
Proof.
  intros Htol Hok. induction Hok as [|l raw Hl Hok IH]; intros Hge; simpl.
  - constructor; [|constructor]. split; simpl.
    + exists sp. split; [now left|reflexivity].
    + constructor; [lia|constructor].
  - inversion Hge as [|? ? Hy Hge']; subst.
    destruct (Z.abs (b_y l - sp_y sp) <=? yTol) eqn:E.
    + apply Z.leb_le in E. constructor; [|exact Hok].
      destruct Hl as [[sp0 [Hin Hy0]] Hall]. split; simpl.
      * exists sp0. split; [apply in_or_app; now left|exact Hy0].
      * apply Forall_app. split; [exact Hall|]. constructor; [lia|constructor].
    + constructor; [exact Hl|apply IH; exact Hge'].
Qed.

Lemma groupSpans_inv (yTol : Z) (spans : list Span) :
  0 <= yTol -> StronglySorted spanOrder spans ->
  forall raw,
    StronglySorted (below yTol) raw -> Forall (bucketOk yTol) raw ->
    Forall (fun l => Forall (fun sp => sp_y sp <= b_y l) spans) raw ->
    let out := fold_left (fun raw sp => place yTol sp raw) spans raw in
    StronglySorted (below yTol) out /\ Forall (bucketOk yTol) out.
Proof.
  intros Htol Hs. induction Hs as [|sp spans Hs IH Hall]; intros raw Hb Hok Hge; simpl.
  - split; assumption.
  - assert (Hsp : Forall (fun l => sp_y sp <= b_y l) raw).
    { eapply List.Forall_impl; [|exact Hge]. intros l Hl. now inversion Hl. }
    apply IH.
    + now apply place_sorted.
    + now apply place_ok.
    + apply (place_Forall_y (fun y => Forall (fun sp0 => sp_y sp0 <= y) spans)).
      * eapply List.Forall_impl; [|exact Hge]. intros l Hl. now inversion Hl.
      * eapply List.Forall_impl; [|exact Hall]. intros r Hr. unfold spanOrder in Hr. lia.
Qed.

Lemma rawLines_inv (yTol : Z) (items : list PdfjsTextItem) :
  0 <= yTol ->
  StronglySorted (below yTol) (rawLines yTol items)
  /\ Forall (bucketOk yTol) (rawLines yTol items).
Proof.
  intros Htol. unfold rawLines, groupSpans.
  apply groupSpans_inv; [exact Htol|apply spans_sorted|constructor|constructor|constructor].
Qed.

Lemma flat_map_sorted {A B} (RA : A -> A -> Prop) (RB : B -> B -> Prop)
    (f : A -> list B) (l : list A) :
  (forall a, (length (f a) <= 1)%nat) ->
  (forall a a' b b', RA a a' -> In b (f a) -> In b' (f a') -> RB b b') ->
  StronglySorted RA l -> StronglySorted RB (flat_map f l).
Proof.
  intros Hone Hrel Hs. induction Hs as [|a l Hs IH Hall]; simpl; [constructor|].
  specialize (Hone a). destruct (f a) as [|b [|b' fa]] eqn:E; simpl in *; [exact IH| |lia].
  constructor; [exact IH|].
  apply List.Forall_forall. intros b' Hb'. apply in_flat_map in Hb'.
  destruct Hb' as [a' [Ha' Hb']].
  rewrite List.Forall_forall in Hall.
  apply (Hrel a a'); [apply Hall, Ha'|rewrite E; now left|exact Hb'].
Qed.

(** The lines of a page descend. *)
Lemma lines_descend (items : list PdfjsTextItem) (page : Z) (conf : DetectorConfig) :
  0 <= yTolerancePx conf ->
  StronglySorted (fun a b => ln_y b < ln_y a) (buildLinesFromItems items page conf).
Proof.
  intros Htol. unfold buildLinesFromItems.
  apply (flat_map_sorted (below (yTolerancePx conf))).
  - intros l. unfold lineOfBucket. destruct (Js.truthy _); simpl; lia.
  - intros l l' b b' Hll Hb Hb'. unfold lineOfBucket in Hb, Hb'.
    destruct (Js.truthy (bucketText _ l)); [|contradiction].
    destruct (Js.truthy (bucketText _ l')); [|contradiction].
    destruct Hb as [<-|[]], Hb' as [<-|[]]. unfold below in Hll. simpl. lia.
  - apply rawLines_inv, Htol.
Qed.

(** X4.  With a tolerance that is not negative, [buildLinesFromItems]
    returns the lines of a page from top to bottom, and two lines are
    always more than the tolerance apart. *)
Theorem lines_run_top_to_bottom (items : list PdfjsTextItem) (page : Z)
    (cfg : DetectorConfig) :
  0 <= yTolerancePx cfg ->
  StronglySorted (fun a b => ln_y b + yTolerancePx cfg < ln_y a)
                 (buildLinesFromItems items page cfg).
Proof.
  intros Htol. unfold buildLinesFromItems.
  apply (flat_map_sorted (below (yTolerancePx cfg))).
  - intros l. unfold lineOfBucket. destruct (Js.truthy _); simpl; lia.
  - intros l l' b b' Hll Hb Hb'. unfold lineOfBucket in Hb, Hb'.
    destruct (Js.truthy (bucketText _ l)); [|contradiction].
    destruct (Js.truthy (bucketText _ l')); [|contradiction].
    destruct Hb as [<-|[]], Hb' as [<-|[]]. exact Hll.
  - apply rawLines_inv, Htol.
Qed.

(** The theorem at three runs, two of them two units apart. *)
Lemma lines_run_top_to_bottom_witness :
  0 <= yTolerancePx DEFAULT_CONFIG
  /\ StronglySorted (fun a b => ln_y b + yTolerancePx DEFAULT_CONFIG < ln_y a)
       (buildLinesFromItems [run "b)" 10 500; run "1." 0 700; run "a)" 10 698] 1 DEFAULT_CONFIG).
Proof.
  split; [vm_compute; discriminate|].
  apply (lines_run_top_to_bottom _ 1 DEFAULT_CONFIG). vm_compute. discriminate.
Defined.

Lemma firstX_least (parts : list Span) :
  Forall (fun sp => firstX (js_sort cmpX parts) <= sp_x sp) parts.
Proof.
  assert (Hs : StronglySorted (fun a b => sp_x a <= sp_x b) (js_sort cmpX parts)).
  { apply js_sort_sorted; unfold cmpX; intros; lia. }
  pose proof (js_sort_perm cmpX parts) as Hp.
  eapply Permutation_Forall; [exact Hp|].
  destruct (js_sort cmpX parts) as [|p l]; [constructor|].
  simpl. inversion Hs; subst. constructor; [lia|assumption].
Qed.

(** X5.  Every line that [buildLinesFromItems] returns comes from one
    bucket: its text is the text of the bucket, its x is the x of a run
    of the bucket and no run starts left of it, its y is the y of a run of
    the bucket and every run lies at most the tolerance below it. *)
Theorem line_position_bounds_its_runs (items : list PdfjsTextItem) (page : Z)
    (cfg : DetectorConfig) :
  0 <= yTolerancePx cfg ->
  forall ln, In ln (buildLinesFromItems items page cfg) ->
    exists l, In l (rawLines (yTolerancePx cfg) items)
      /\ ln_text ln = bucketText (gapXThresholdPx cfg) l
      /\ ln_page ln = page
      /\ (exists sp, In sp (b_parts l) /\ sp_x sp = ln_x ln)
      /\ (exists sp, In sp (b_parts l) /\ sp_y sp = ln_y ln)
      /\ Forall (fun sp => ln_x ln <= sp_x sp
                           /\ 0 <= ln_y ln - sp_y sp <= yTolerancePx cfg) (b_parts l).
Proof.
  intros Htol ln Hin. unfold buildLinesFromItems in Hin.
  apply in_flat_map in Hin. destruct Hin as [l [Hl Hln]].
  destruct (rawLines_inv (yTolerancePx cfg) items Htol) as [_ Hok].
  rewrite List.Forall_forall in Hok. destruct (Hok l Hl) as [[sp0 [Hsp0 Hy0]] Hall].
  unfold lineOfBucket in Hln. destruct (Js.truthy _); [|contradiction].
  destruct Hln as [<-|[]]. simpl.
  exists l. repeat split; try assumption.
  - unfold bucketParts.
    pose proof (js_sort_perm cmpX (b_parts l)) as Hp.
    destruct (js_sort cmpX (b_parts l)) as [|p rest] eqn:E.
    + apply Permutation_nil in Hp. rewrite Hp in Hsp0. contradiction.
    + exists p. split; [|reflexivity]. apply (Permutation_in _ Hp). now left.
  - exists sp0. split; assumption.
  - pose proof (firstX_least (b_parts l)) as Hx. unfold bucketParts.
    rewrite List.Forall_forall in Hx, Hall. apply List.Forall_forall.
    intros sp Hsp. split; [apply Hx, Hsp|apply Hall, Hsp].
Qed.

(** The theorem at the line "1. a)" of three runs. *)
Lemma line_position_bounds_its_runs_witness :
  0 <= yTolerancePx DEFAULT_CONFIG
  /\ In (mkLine 1 "1. a)" 0 700) (buildLinesFromItems headingRuns 1 DEFAULT_CONFIG)
  /\ exists l, In l (rawLines (yTolerancePx DEFAULT_CONFIG) headingRuns)
      /\ "1. a)" = bucketText (gapXThresholdPx DEFAULT_CONFIG) l
      /\ 1 = 1
      /\ (exists sp, In sp (b_parts l) /\ sp_x sp = 0)
      /\ (exists sp, In sp (b_parts l) /\ sp_y sp = 700)
      /\ Forall (fun sp => 0 <= sp_x sp /\ 0 <= 700 - sp_y sp <= yTolerancePx DEFAULT_CONFIG)
                (b_parts l).
Proof.
  assert (H1 : 0 <= yTolerancePx DEFAULT_CONFIG) by (vm_compute; discriminate).
  assert (H2 : In (mkLine 1 "1. a)" 0 700)
                  (buildLinesFromItems headingRuns 1 DEFAULT_CONFIG))
    by (vm_compute; left; reflexivity).
  split; [exact H1|]. split; [exact H2|].
  exact (line_position_bounds_its_runs headingRuns 1 DEFAULT_CONFIG H1
           (mkLine 1 "1. a)" 0 700) H2).
Defined.

(* ===================================================================== *)
(** ** Well-formed tokens *)
(* ===================================================================== *)

Lemma clamp01_range (n d : Z) : (0 <= clamp01 n d <= 1)%Q.
Proof.
  unfold clamp01. destruct (n <=? 0) eqn:E1; [split; discriminate|].
  destruct (d <=? n) eqn:E2; [split; discriminate|].
  apply Z.leb_gt in E1, E2. unfold Qle. simpl.
  rewrite Z2Pos.id by lia. lia.
Qed.

Lemma map_token_alter (f : TokenMeta -> TokenMeta) (i : nat) (l : list TokenMeta) :
  (forall t, token (f t) = token t) -> map token (alter f i l) = map token l.
Proof.
  intros Hf. revert i. induction l as [|t l IH]; intros [|i]; try reflexivity.
  - change (alter f 0%nat (t :: l)) with (f t :: l). simpl. now rewrite Hf.
  - change (alter f (S i) (t :: l)) with (t :: alter f i l). simpl. f_equal. apply IH.
Qed.

Lemma recordToken_inv (pn : list Z) (dbg : bool) (tk : TokenMeta) (st : DState) :
  tokenOk pn tk -> detectorInv pn st -> detectorInv pn (recordToken dbg tk st).
Proof.
  intros Htk (Hall & Hnd & Hidx). unfold recordToken.
  destruct (tokenIndex st !! token tk) as [idx|] eqn:E.
  - destruct dbg; [|exact (conj Hall (conj Hnd Hidx))].
    unfold detectorInv. simpl.
    rewrite map_token_alter by reflexivity.
    split; [|exact (conj Hnd Hidx)].
    apply Forall_alter; [exact Hall|].
    intros t _ (Hp & Hc & Hs). exact (conj Hp (conj Hc Hs)).
  - unfold detectorInv. simpl. rewrite map_app. simpl. split; [|split].
    + apply Forall_app. split; [exact Hall|]. constructor; [exact Htk|constructor].
    + apply NoDup_app. split; [exact Hnd|]. split.
      * intros x Hx Hx'. apply list_elem_of_In in Hx, Hx'.
        destruct Hx' as [<-|[]]. apply Hidx in E. contradiction.
      * apply NoDup_singleton.
    + intros name. rewrite in_app_iff. simpl.
      destruct (String.eqb_spec (token tk) name) as [->|Hne].
      * rewrite lookup_insert_eq. split; [discriminate|]. intros H. exfalso. apply H. auto.
      * rewrite lookup_insert_ne by exact Hne. rewrite Hidx. tauto.
Qed.

Lemma recordTokenIfNew_inv (pn : list Z) (tk : TokenMeta) (st : DState) :
  tokenOk pn tk -> detectorInv pn st -> detectorInv pn (recordTokenIfNew tk st).
Proof.
  intros Htk Hinv. unfold recordTokenIfNew.
  destruct (tokenIndex st !! token tk); [exact Hinv|now apply recordToken_inv].
Qed.

Lemma letterRange_nonempty (a b : string) :
  Forall (fun L => L <> EmptyString) (letterRange a b).
Proof.
  unfold letterRange. apply List.Forall_forall. intros L HL.
  apply in_map_iff in HL. destruct HL as [k [<- _]]. discriminate.
Qed.

Lemma fold_recordTokenIfNew_inv (pn : list Z) (mk : string -> TokenMeta)
    (letters : list string) (st : DState) :
  Forall (fun L => tokenOk pn (mk L)) letters -> detectorInv pn st ->
  detectorInv pn (fold_left (fun s L => recordTokenIfNew (mk L) s) letters st).
Proof.
  intros Hl. revert st. induction Hl as [|L letters HL Hl IH]; intros st Hinv; simpl.
  - exact Hinv.
  - apply IH. now apply recordTokenIfNew_inv.
Qed.

Lemma truthy_nonempty (s : string) : Js.truthy s = true -> s <> EmptyString.
Proof. destruct s; [discriminate|discriminate]. Qed.

Lemma processLine_inv (pn : list Z) (conf : DetectorConfig) (page xThreshold maxY : Z)
    (ln : Line) (nextText : string) (st : DState) :
  In page pn -> detectorInv pn st ->
  detectorInv pn (Detector.processLine conf page xThreshold maxY ln nextText st).
Proof.
  intros Hpage Hinv. unfold Detector.processLine.
  set (c := Detector.scanLine conf xThreshold maxY ln nextText).
  set (st0 := if Detector.isSectionLine xThreshold ln
              then Detector.resetSection st page else st).
  assert (H0 : detectorInv pn st0).
  { subst st0. destruct (Detector.isSectionLine xThreshold ln); exact Hinv. }
  clearbody st0. clear Hinv st.
  set (score := match Detector.c_mainNum c with
                | Some n0 => Detector.c_score c + Detector.seqScore st0 page n0
                | None => Detector.c_score c
                end).
  clearbody score.
  set (cf := Detector.confFromScore (scoreThreshold conf) score).
  assert (Hcf : (0 <= cf <= 1)%Q) by apply clamp01_range.
  clearbody cf.
  assert (Htk : forall name k par, tokenShape name k par ->
            tokenOk pn (mkToken name k par page (ln_x ln) (ln_y ln) cf None)).
  { intros name k par Hs. exact (conj Hpage (conj Hcf Hs)). }
  assert (Hsub : forall (acc : bool) (s1 : DState), detectorInv pn s1 ->
    detectorInv pn
      match Detector.c_subLetter c with
      | Some letter =>
          if Js.truthy letter
             && (acc || negb (Detector.c_isSubOnly c) && anyMainAccepted s1
                 || (0 <? lastMain s1))
          then
            if Js.truthy
                 (if acc then from_option Js.String_of EmptyString (Detector.c_mainNum c)
                  else if negb (lastMain s1 =? 0) then Js.String_of (lastMain s1)
                       else from_option Js.String_of EmptyString (Detector.c_mainNum c))
            then recordToken (debug conf)
                   (mkToken
                      ((if acc then from_option Js.String_of EmptyString (Detector.c_mainNum c)
                        else if negb (lastMain s1 =? 0) then Js.String_of (lastMain s1)
                             else from_option Js.String_of EmptyString (Detector.c_mainNum c))
                       +:+ letter) sub
                      (Some (if acc then from_option Js.String_of EmptyString (Detector.c_mainNum c)
                             else if negb (lastMain s1 =? 0) then Js.String_of (lastMain s1)
                                  else from_option Js.String_of EmptyString
                                         (Detector.c_mainNum c)))
                      page (ln_x ln) (ln_y ln) cf None) s1
            else s1
          else s1
      | None => s1
      end).
  { intros acc s1 H1. destruct (Detector.c_subLetter c) as [letter|]; [|exact H1].
    destruct (Js.truthy letter) eqn:El; simpl; [|exact H1].
    destruct (acc || _ || _); [|exact H1].
    destruct (Js.truthy (if acc then _ else _)); [|exact H1].
    apply recordToken_inv; [|exact H1].
    apply Htk. simpl. exists letter. split; [now apply truthy_nonempty|reflexivity]. }
  destruct (Detector.c_mainNum c) as [n|] eqn:En.
  - destruct (negb (Detector.c_excluded c) && (scoreThreshold conf <=? score)).
    + cbv iota beta.
      destruct (Re.smatch Detector.reSubRange _) as [mr|].
      * apply (fold_recordTokenIfNew_inv pn
                 (fun L => mkToken (Js.String_of n +:+ L) sub (Some (Js.String_of n))
                                   page (ln_x ln) (ln_y ln) cf None)).
        -- eapply List.Forall_impl; [|apply letterRange_nonempty].
           intros L HL. apply Htk. simpl. exists L. split; [exact HL|reflexivity].
        -- apply (Hsub true). apply recordToken_inv; [|exact H0]. apply Htk. exact I.
      * apply (Hsub true). apply recordToken_inv; [|exact H0]. apply Htk. exact I.
    + cbv iota beta. apply (Hsub false). exact H0.
  - cbv iota beta. apply (Hsub false). exact H0.
Qed.

Lemma processLines_inv (pn : list Z) (conf : DetectorConfig) (page xThreshold maxY : Z)
    (lines : list Line) :
  In page pn -> forall st, detectorInv pn st ->
  detectorInv pn (Detector.processLines conf page xThreshold maxY lines st).
Proof.
  intros Hpage. induction lines as [|ln rest IH]; intros st Hinv; simpl.
  - exact Hinv.
  - apply IH. now apply processLine_inv.
Qed.

Lemma processPage_inv (pn : list Z) (conf : DetectorConfig)
    (linesByPage : gmap Z (list Line)) (xThresholdGlobal : Z) (st : DState)
    (pageInput : PageInput) :
  In (pg_page pageInput) pn -> detectorInv pn st ->
  detectorInv pn (Detector.processPage conf linesByPage xThresholdGlobal st pageInput).
Proof.
  intros Hpage Hinv. unfold Detector.processPage.
  destruct (pg_items pageInput); [exact Hinv|].
  destruct (from_option id [] (linesByPage !! pg_page pageInput)) eqn:E; [exact Hinv|].
  now apply processLines_inv.
Qed.

Lemma initDState_inv (pn : list Z) : detectorInv pn initDState.
Proof.
  unfold detectorInv, initDState. simpl. split; [constructor|]. split; [constructor|].
  intros name. rewrite lookup_empty. tauto.
Qed.

Lemma Detector_collect_inv (pages : list PageInput) (conf : DetectorConfig) :
  detectorInv (map pg_page pages) (Detector.collect conf pages).
Proof.
  unfold Detector.collect. destruct (Detector.buildAll conf pages) as [linesByPage allXs].
  set (thr := percentile allXs (leftMarginPercentile conf)). clearbody thr.
  set (pn := map pg_page pages).
  assert (Hsub : forall pi, In pi pages -> In (pg_page pi) pn).
  { intros pi Hpi. now apply in_map. }
  clearbody pn. revert Hsub. generalize (initDState_inv pn). generalize initDState.
  induction pages as [|pi pages IH]; intros st Hinv Hsub; simpl.
  - exact Hinv.
  - apply IH.
    + apply processPage_inv; [apply Hsub; now left|exact Hinv].
    + intros pi' Hpi'. apply Hsub. now right.
Qed.

(** X6.  The sorting revision of the detector never returns two tokens of
    the same name: a later sighting of a name updates the token that is
    there. *)
Theorem Detector_token_names_are_distinct (pages : list PageInput) (conf : DetectorConfig) :
  List.NoDup (map token (Detector.detectQuestionsFromPages pages conf)).
Proof.
  destruct (Detector_collect_inv pages conf) as (_ & Hnd & _).
  unfold Detector.detectQuestionsFromPages. apply NoDup_ListNoDup in Hnd.
  eapply Permutation_NoDup; [|exact Hnd].
  apply Permutation_map, Permutation_sym, js_sort_perm.
Qed.

Lemma Detector_tokens_ok (pages : list PageInput) (conf : DetectorConfig) :
  Forall (tokenOk (map pg_page pages)) (Detector.detectQuestionsFromPages pages conf).
Proof.
  destruct (Detector_collect_inv pages conf) as (Hall & _ & _).
  unfold Detector.detectQuestionsFromPages.
  eapply Permutation_Forall; [|exact Hall].
  apply Permutation_sym, js_sort_perm.
Qed.

(** X7.  Every token of the sorting revision has a confidence between 0
    and 1. *)
Theorem Detector_confidence_is_a_fraction (pages : list PageInput) (conf : DetectorConfig) :
  Forall (fun t => (0 <= confidence t <= 1)%Q)
         (Detector.detectQuestionsFromPages pages conf).
Proof.
  eapply List.Forall_impl; [|apply Detector_tokens_ok].
  intros t (_ & Hc & _). exact Hc.
Qed.

(** X8.  Every token of the sorting revision carries the page number of
    one of the pages handed over. *)
Theorem Detector_tokens_lie_on_input_pages (pages : list PageInput) (conf : DetectorConfig) :
  Forall (fun t => In (tk_page t) (map pg_page pages))
         (Detector.detectQuestionsFromPages pages conf).
Proof.
  eapply List.Forall_impl; [|apply Detector_tokens_ok].
  intros t (Hp & _ & _). exact Hp.
Qed.

(** X9.  In the result of the sorting revision a main token has no
    parent, and a sub token has one and is named by its parent followed
    by a non-empty letter. *)
Theorem Detector_sub_tokens_extend_their_parent (pages : list PageInput)
    (conf : DetectorConfig) :
  Forall (fun t => match kind t with
                   | main => parent t = None
                   | sub => exists p L, parent t = Some p /\ L <> EmptyString
                                        /\ token t = p +:+ L
                   end)
         (Detector.detectQuestionsFromPages pages conf).
Proof.
  eapply List.Forall_impl; [|apply Detector_tokens_ok].
  intros t (_ & _ & Hs). unfold tokenShape in Hs.
  destruct (kind t), (parent t) as [p|]; try contradiction.
  - reflexivity.
  - destruct Hs as [L [HL Ht]]. eauto.
Qed.

(** *** The revision that keeps first-appearance order *)

Lemma B_processLine_inv (pn : list Z) (conf : DetectorConfig) (page xThreshold minY maxY : Z)
    (ln : Line) (nextText : string) (st st' : DState) :
  In page pn -> detectorInv pn st ->
  DetectorB.processLine conf page xThreshold minY maxY ln nextText st = Normal st' ->
  detectorInv pn st'.
Proof.
  intros Hpage H0. unfold DetectorB.processLine.
  destruct (DetectorB.scanLine conf xThreshold minY maxY ln nextText) as [c|e];
    [|discriminate].
  cbn [bindC].
  set (score := match DetectorB.c_mainNum c with
                | Some n0 => DetectorB.c_score c + DetectorB.seqScore st page n0
                | None => DetectorB.c_score c
                end).
  clearbody score.
  assert (Htk : forall name k par n d, tokenShape name k par ->
            tokenOk pn (mkToken name k par page (ln_x ln) (ln_y ln) (clamp01 n d) None)).
  { intros name k par n d Hs. exact (conj Hpage (conj (clamp01_range n d) Hs)). }
  assert (Hsub : forall (acc : bool) (s1 : DState), detectorInv pn s1 ->
    detectorInv pn
      match DetectorB.c_subLetter c with
      | Some letter =>
          if Js.truthy letter
             && (acc || negb (DetectorB.c_isSubOnly c) && anyMainAccepted s1
                 || (0 <? lastMain s1))
          then
            if Js.truthy
                 (if acc then from_option Js.String_of EmptyString (DetectorB.c_mainNum c)
                  else if negb (lastMain s1 =? 0) then Js.String_of (lastMain s1)
                       else from_option Js.String_of EmptyString (DetectorB.c_mainNum c))
            then recordToken (debug conf)
                   (mkToken
                      ((if acc then from_option Js.String_of EmptyString (DetectorB.c_mainNum c)
                        else if negb (lastMain s1 =? 0) then Js.String_of (lastMain s1)
                             else from_option Js.String_of EmptyString (DetectorB.c_mainNum c))
                       +:+ letter) sub
                      (Some (if acc then from_option Js.String_of EmptyString (DetectorB.c_mainNum c)
                             else if negb (lastMain s1 =? 0) then Js.String_of (lastMain s1)
                                  else from_option Js.String_of EmptyString
                                         (DetectorB.c_mainNum c)))
                      page (ln_x ln) (ln_y ln)
                      (clamp01 (score - (scoreThreshold conf - 2)) 8) None) s1
            else s1
          else s1
      | None => s1
      end).
  { intros acc s1 H1. destruct (DetectorB.c_subLetter c) as [letter|]; [|exact H1].
    destruct (Js.truthy letter) eqn:El; simpl; [|exact H1].
    destruct (acc || _ || _); [|exact H1].
    destruct (Js.truthy (if acc then _ else _)); [|exact H1].
    apply recordToken_inv; [|exact H1].
    apply Htk. simpl. exists letter. split; [now apply truthy_nonempty|reflexivity]. }
  destruct (DetectorB.c_mainNum c) as [n|] eqn:En.
  - destruct (negb (DetectorB.c_excluded c) && (scoreThreshold conf <=? score)).
    + cbv iota beta.
      destruct (Re.smatch DetectorB.reSubRange _) as [mr|]; intros [= <-].
      * apply (fold_recordTokenIfNew_inv pn
                 (fun L => mkToken (Js.String_of n +:+ L) sub (Some (Js.String_of n))
                                   page (ln_x ln) (ln_y ln) (3 # 5)%Q None)).
        -- eapply List.Forall_impl; [|apply letterRange_nonempty].
           intros L HL. split; [exact Hpage|]. split; [split; discriminate|].
           simpl. exists L. split; [exact HL|reflexivity].
        -- apply (Hsub true). apply recordToken_inv; [|exact H0]. apply Htk. exact I.
      * apply (Hsub true). apply recordToken_inv; [|exact H0]. apply Htk. exact I.
    + cbv iota beta. intros [= <-]. apply (Hsub false). exact H0.
  - cbv iota beta. intros [= <-]. apply (Hsub false). exact H0.
Qed.

Lemma B_processLines_inv (pn : list Z) (conf : DetectorConfig) (page xThreshold minY maxY : Z)
    (lines : list Line) :
  In page pn -> forall st st', detectorInv pn st ->
  DetectorB.processLines conf page xThreshold minY maxY lines st = Normal st' ->
  detectorInv pn st'.
Proof.
  intros Hpage. induction lines as [|ln rest IH]; intros st st' Hinv H; simpl in H.
  - injection H as <-. exact Hinv.
  - destruct (DetectorB.processLine _ _ _ _ _ ln _ st) as [s1|e] eqn:E; [|discriminate].
    simpl in H. apply (IH s1 st'); [|exact H].
    eapply B_processLine_inv; [exact Hpage|exact Hinv|exact E].
Qed.

Lemma B_processPages_inv (pn : list Z) (conf : DetectorConfig) (pages : list PageInput) :
  (forall pi, In pi pages -> In (pg_page pi) pn) ->
  forall st st', detectorInv pn st ->
  DetectorB.processPages conf pages st = Normal st' -> detectorInv pn st'.
Proof.
  induction pages as [|pi pages IH]; intros Hsub st st' Hinv H; simpl in H.
  - injection H as <-. exact Hinv.
  - destruct (DetectorB.processPage conf st pi) as [s1|e] eqn:E; [|discriminate].
    simpl in H. apply (IH (fun p Hp => Hsub p (or_intror Hp)) s1 st'); [|exact H].
    unfold DetectorB.processPage in E.
    destruct (pg_items pi); [injection E as <-; exact Hinv|].
    eapply B_processLines_inv; [|exact Hinv|exact E]. apply Hsub. now left.
Qed.

Lemma DetectorB_inv (pages : list PageInput) (conf : DetectorConfig)
    (tokens : list TokenMeta) :
  DetectorB.detectQuestionsFromPages pages conf = Normal tokens ->
  Forall (tokenOk (map pg_page pages)) tokens /\ NoDup (map token tokens).
Proof.
  unfold DetectorB.detectQuestionsFromPages. intros H.
  destruct (DetectorB.processPages conf pages initDState) as [st|e] eqn:E; [|discriminate].
  simpl in H. injection H as <-.
  apply B_processPages_inv with (pn := map pg_page pages) in E.
  - destruct E as (Hall & Hnd & _). split; assumption.
  - intros pi Hpi. now apply in_map.
  - apply initDState_inv.
Qed.

(** *** First-appearance order on ascending pages *)

Lemma StronglySorted_snoc {A} (R : A -> A -> Prop) (l : list A) (x : A) :
  StronglySorted R l -> Forall (fun a => R a x) l -> StronglySorted R (l ++ [x]).
Proof.
  intros Hs. induction Hs as [|a l Hs IH Hall]; intros Hx; simpl.
  - constructor; constructor.
  - inversion Hx as [|? ? Ha Hx']; subst. constructor; [now apply IH|].
    apply Forall_app. split; [exact Hall|]. constructor; [exact Ha|constructor].
Qed.

Lemma StronglySorted_alter {A} (R : A -> A -> Prop) (f : A -> A) (i : nat) (l : list A) :
  (forall a b, R a b -> R (f a) b) -> (forall a b, R a b -> R a (f b)) ->
  StronglySorted R l -> StronglySorted R (alter f i l).
Proof.
  intros Hl Hr Hs. revert i. induction Hs as [|a l Hs IH Hall]; intros [|i].
  - constructor.
  - constructor.
  - change (alter f 0%nat (a :: l)) with (f a :: l). constructor; [exact Hs|].
    eapply List.Forall_impl; [|exact Hall]. intros b. apply Hl.
  - change (alter f (S i) (a :: l)) with (a :: alter f i l). constructor; [apply IH|].
    apply Forall_alter; [exact Hall|]. intros b _. apply Hr.
Qed.

Lemma recordToken_ord (page x y : Z) (dbg : bool) (tk : TokenMeta) (st : DState) :
  tk_page tk = page -> tk_x tk = x -> tk_y tk = y ->
  ordInv page x y st -> ordInv page x y (recordToken dbg tk st).
Proof.
  intros Hp Hx Hy (Hs & Hall). unfold recordToken.
  destruct (tokenIndex st !! token tk) as [idx|].
  - destruct dbg; [|exact (conj Hs Hall)]. split; simpl.
    + apply StronglySorted_alter; [| |exact Hs]; intros a b H; exact H.
    + apply Forall_alter; [exact Hall|]. intros t _ H. exact H.
  - split; simpl.
    + apply StronglySorted_snoc; [exact Hs|].
      eapply List.Forall_impl; [|exact Hall].
      intros a Ha. unfold atOrBefore in Ha. unfold docOrder. lia.
    + apply Forall_app. split; [exact Hall|]. constructor; [|constructor].
      unfold atOrBefore. lia.
Qed.

Lemma fold_recordTokenIfNew_ord (page x y : Z) (mk : string -> TokenMeta)
    (letters : list string) (st : DState) :
  (forall L, tk_page (mk L) = page /\ tk_x (mk L) = x /\ tk_y (mk L) = y) ->
  ordInv page x y st ->
  ordInv page x y (fold_left (fun s L => recordTokenIfNew (mk L) s) letters st).
Proof.
  intros Hmk. revert st. induction letters as [|L letters IH]; intros st Hinv; simpl.
  - exact Hinv.
  - apply IH. unfold recordTokenIfNew.
    destruct (tokenIndex st !! token (mk L)); [exact Hinv|].
    destruct (Hmk L) as (Hp & Hx & Hy). now apply recordToken_ord.
Qed.

Lemma B_processLine_ord (conf : DetectorConfig) (page xThreshold minY maxY : Z)
    (ln : Line) (nextText : string) (st st' : DState) :
  ordInv page (ln_x ln) (ln_y ln) st ->
  DetectorB.processLine conf page xThreshold minY maxY ln nextText st = Normal st' ->
  ordInv page (ln_x ln) (ln_y ln) st'.
Proof.
  intros H0. unfold DetectorB.processLine.
  destruct (DetectorB.scanLine conf xThreshold minY maxY ln nextText) as [c|e];
    [|discriminate].
  cbn [bindC].
  set (score := match DetectorB.c_mainNum c with
                | Some n0 => DetectorB.c_score c + DetectorB.seqScore st page n0
                | None => DetectorB.c_score c
                end).
  clearbody score.
  assert (Hrec : forall dbg name k par cf s1, ordInv page (ln_x ln) (ln_y ln) s1 ->
            ordInv page (ln_x ln) (ln_y ln)
              (recordToken dbg (mkToken name k par page (ln_x ln) (ln_y ln) cf None) s1)).
  { intros. now apply recordToken_ord. }
  assert (Hsub : forall (acc : bool) (s1 : DState), ordInv page (ln_x ln) (ln_y ln) s1 ->
    ordInv page (ln_x ln) (ln_y ln)
      match DetectorB.c_subLetter c with
      | Some letter =>
          if Js.truthy letter
             && (acc || negb (DetectorB.c_isSubOnly c) && anyMainAccepted s1
                 || (0 <? lastMain s1))
          then
            if Js.truthy
                 (if acc then from_option Js.String_of EmptyString (DetectorB.c_mainNum c)
                  else if negb (lastMain s1 =? 0) then Js.String_of (lastMain s1)
                       else from_option Js.String_of EmptyString (DetectorB.c_mainNum c))
            then recordToken (debug conf)
                   (mkToken
                      ((if acc then from_option Js.String_of EmptyString (DetectorB.c_mainNum c)
                        else if negb (lastMain s1 =? 0) then Js.String_of (lastMain s1)
                             else from_option Js.String_of EmptyString (DetectorB.c_mainNum c))
                       +:+ letter) sub
                      (Some (if acc then from_option Js.String_of EmptyString (DetectorB.c_mainNum c)
                             else if negb (lastMain s1 =? 0) then Js.String_of (lastMain s1)
                                  else from_option Js.String_of EmptyString
                                         (DetectorB.c_mainNum c)))
                      page (ln_x ln) (ln_y ln)
                      (clamp01 (score - (scoreThreshold conf - 2)) 8) None) s1
            else s1
          else s1
      | None => s1
      end).
  { intros acc s1 H1. destruct (DetectorB.c_subLetter c) as [letter|]; [|exact H1].
    destruct (Js.truthy letter && _); [|exact H1].
    destruct (Js.truthy (if acc then _ else _)); [|exact H1].
    apply Hrec. exact H1. }
  destruct (DetectorB.c_mainNum c) as [n|] eqn:En.
  - destruct (negb (DetectorB.c_excluded c) && (scoreThreshold conf <=? score)).
    + cbv iota beta.
      destruct (Re.smatch DetectorB.reSubRange _) as [mr|]; intros [= <-].
      * apply (fold_recordTokenIfNew_ord page (ln_x ln) (ln_y ln)
                 (fun L => mkToken (Js.String_of n +:+ L) sub (Some (Js.String_of n))
                                   page (ln_x ln) (ln_y ln) (3 # 5)%Q None)).
        -- intros L. repeat split.
        -- apply (Hsub true). apply (Hrec _ _ _ _ _ st). exact H0.
      * apply (Hsub true). apply (Hrec _ _ _ _ _ st). exact H0.
    + cbv iota beta. intros [= <-]. apply (Hsub false). exact H0.
  - cbv iota beta. intros [= <-]. apply (Hsub false). exact H0.
Qed.

Lemma B_processLines_ord (conf : DetectorConfig) (page xThreshold minY maxY : Z)
    (lines : list Line) :
  StronglySorted (fun a b => ln_y b < ln_y a) lines ->
  forall st st',
    StronglySorted docOrder (allTokens st) ->
    Forall (fun t => Forall (fun ln => above page (ln_y ln) t) lines) (allTokens st) ->
    Forall (fun t => tk_page t <= page) (allTokens st) ->
    DetectorB.processLines conf page xThreshold minY maxY lines st = Normal st' ->
    StronglySorted docOrder (allTokens st') /\ Forall (fun t => tk_page t <= page) (allTokens st').
Proof.
  intros Hl. induction Hl as [|ln rest Hl IH Hrest]; intros st st' Hs Hab Hle H; simpl in H.
  - injection H as <-. split; assumption.
  - destruct (DetectorB.processLine _ _ _ _ _ ln _ st) as [s1|e] eqn:E; [|discriminate].
    simpl in H.
    assert (H1 : ordInv page (ln_x ln) (ln_y ln) s1).
    { eapply B_processLine_ord; [|exact E]. split; [exact Hs|].
      eapply List.Forall_impl; [|exact Hab]. intros t Ht.
      inversion Ht as [|? ? Hln _]; subst. unfold above in Hln. unfold atOrBefore. cbv beta in *. lia. }
    destruct H1 as [Hs1 Hall1].
    apply (IH s1 st'); [exact Hs1| | |exact H].
    + eapply List.Forall_impl; [|exact Hall1]. intros t Ht.
      eapply List.Forall_impl; [|exact Hrest]. intros l' Hl'.
      unfold atOrBefore in Ht. unfold above. cbv beta in *. lia.
    + eapply List.Forall_impl; [|exact Hall1]. intros t Ht. unfold atOrBefore in Ht. cbv beta in *. lia.
Qed.

Lemma B_processPages_ord (conf : DetectorConfig) (pages : list PageInput) :
  0 <= yTolerancePx conf ->
  StronglySorted Z.lt (map pg_page pages) ->
  forall st st',
    StronglySorted docOrder (allTokens st) ->
    Forall (fun t => Forall (fun p => tk_page t < p) (map pg_page pages)) (allTokens st) ->
    DetectorB.processPages conf pages st = Normal st' ->
    StronglySorted docOrder (allTokens st').
Proof.
  intros Htol. induction pages as [|pi pages IH]; intros Hp st st' Hs Hlt H; simpl in H.
  - injection H as <-. exact Hs.
  - destruct (DetectorB.processPage conf st pi) as [s1|e] eqn:E; [|discriminate].
    simpl in H. simpl in Hp. inversion Hp as [|? ? Hp' Hfirst]; subst.
    assert (H1 : StronglySorted docOrder (allTokens s1)
                 /\ Forall (fun t => tk_page t <= pg_page pi) (allTokens s1)).
    { unfold DetectorB.processPage in E.
      destruct (pg_items pi) as [|it items] eqn:Ei.
      - injection E as <-. split; [exact Hs|].
        eapply List.Forall_impl; [|exact Hlt]. intros t Ht.
        inversion Ht; subst. cbv beta in *. lia.
      - eapply B_processLines_ord; [apply lines_descend, Htol|exact Hs| | |exact E].
        + eapply List.Forall_impl; [|exact Hlt]. intros t Ht.
          inversion Ht as [|? ? Hpg _]; subst.
          apply List.Forall_forall. intros ln _. left. exact Hpg.
        + eapply List.Forall_impl; [|exact Hlt]. intros t Ht.
          inversion Ht; subst. cbv beta in *. lia. }
    destruct H1 as [Hs1 Hle1].
    apply (IH Hp' s1 st'); [exact Hs1| |exact H].
    eapply List.Forall_impl; [|exact Hle1]. intros t Ht.
    eapply List.Forall_impl; [|exact Hfirst]. intros p Hpp. cbv beta in *. lia.
Qed.

(** X10.  When the revision that keeps first-appearance order returns, its
    tokens have distinct names, confidences between 0 and 1, pages among
    the pages handed over, and sub tokens named by their parent followed
    by a non-empty letter. *)
Theorem first_appearance_tokens_are_well_formed (pages : list PageInput)
    (conf : DetectorConfig) (tokens : list TokenMeta) :
  DetectorB.detectQuestionsFromPages pages conf = Normal tokens ->
  List.NoDup (map token tokens)
  /\ Forall (fun t => In (tk_page t) (map pg_page pages)
                      /\ (0 <= confidence t <= 1)%Q
                      /\ match kind t with
                         | main => parent t = None
                         | sub => exists p L, parent t = Some p /\ L <> EmptyString
                                              /\ token t = p +:+ L
                         end) tokens.
Proof.
  intros H. apply DetectorB_inv in H. destruct H as [Hall Hnd].
  split; [apply NoDup_ListNoDup, Hnd|].
  eapply List.Forall_impl; [|exact Hall].
  intros t (Hp & Hc & Hs). split; [exact Hp|]. split; [exact Hc|].
  unfold tokenShape in Hs. destruct (kind t), (parent t) as [p|]; try contradiction.
  - reflexivity.
  - destruct Hs as [L [HL Ht]]. eauto.
Qed.

(** The theorem at two pages with a heading and a sub-question each. *)
Lemma first_appearance_tokens_are_well_formed_witness :
  DetectorB.detectQuestionsFromPages ascendingPages DEFAULT_CONFIG = Normal ascendingTokens
  /\ List.NoDup (map token ascendingTokens)
  /\ Forall (fun t => In (tk_page t) (map pg_page ascendingPages)
                      /\ (0 <= confidence t <= 1)%Q
                      /\ match kind t with
                         | main => parent t = None
                         | sub => exists p L, parent t = Some p /\ L <> EmptyString
                                              /\ token t = p +:+ L
                         end) ascendingTokens.
Proof.
  assert (E : DetectorB.detectQuestionsFromPages ascendingPages DEFAULT_CONFIG
              = Normal ascendingTokens) by (vm_compute; reflexivity).
  split; [exact E|].
  exact (first_appearance_tokens_are_well_formed ascendingPages DEFAULT_CONFIG
           ascendingTokens E).
Defined.

(** X11.  When the pages are handed over in ascending page order and the
    tolerance is not negative, the revision that keeps first-appearance
    order returns its tokens in document order: by page, then from top to
    bottom. *)
Theorem first_appearance_order_on_ascending_pages (pages : list PageInput)
    (conf : DetectorConfig) (tokens : list TokenMeta) :
  0 <= yTolerancePx conf ->
  StronglySorted Z.lt (map pg_page pages) ->
  DetectorB.detectQuestionsFromPages pages conf = Normal tokens ->
  StronglySorted docOrder tokens.
Proof.
  intros Htol Hp H. unfold DetectorB.detectQuestionsFromPages in H.
  destruct (DetectorB.processPages conf pages initDState) as [st|e] eqn:E; [|discriminate].
  simpl in H. injection H as <-.
  apply (B_processPages_ord conf pages Htol Hp initDState st); [constructor|constructor|exact E].
Qed.

(** The theorem at two pages with a heading and a sub-question each. *)
Lemma first_appearance_order_on_ascending_pages_witness :
  0 <= yTolerancePx DEFAULT_CONFIG
  /\ StronglySorted Z.lt (map pg_page ascendingPages)
  /\ DetectorB.detectQuestionsFromPages ascendingPages DEFAULT_CONFIG = Normal ascendingTokens
  /\ StronglySorted docOrder ascendingTokens.
Proof.
  assert (Htol : 0 <= yTolerancePx DEFAULT_CONFIG) by (vm_compute; discriminate).
  assert (Hp : StronglySorted Z.lt (map pg_page ascendingPages)).
  { simpl. repeat constructor. }
  assert (E : DetectorB.detectQuestionsFromPages ascendingPages DEFAULT_CONFIG
              = Normal ascendingTokens) by (vm_compute; reflexivity).
  split; [exact Htol|]. split; [exact Hp|]. split; [exact E|].
  exact (first_appearance_order_on_ascending_pages ascendingPages DEFAULT_CONFIG
           ascendingTokens Htol Hp E).
Defined.

(* ===================================================================== *)
(** ** The cap of the final loop *)
(* ===================================================================== *)

Lemma emitTokens_length (so : gmap Z (list string)) (k : nat) (mo : list Z) :
  (1 <= k)%nat ->
  (forall n subs, so !! n = Some subs -> (length subs <= k)%nat) ->
  forall tokens, (length tokens < 150)%nat ->
    (length (Pdf.emitTokens so mo tokens) < 150 + k)%nat.
Proof.
  intros Hk Hso. induction mo as [|n rest IH]; intros tokens Hlt; cbn [Pdf.emitTokens].
  - lia.
  - set (subs := from_option id [] (so !! n)).
    assert (Hsubs : (length subs <= k)%nat).
    { subst subs. destruct (so !! n) as [l|] eqn:E; simpl; [now apply (Hso n)|lia]. }
    set (tokens1 := match subs with
                    | [] => (tokens ++ [Js.String_of n])%list
                    | _ => (tokens ++ map (Pdf.tokenOf n) subs)%list
                    end).
    assert (Hlen : (length tokens1 < 150 + k)%nat).
    { subst tokens1. destruct subs as [|L subs']; rewrite length_app; simpl in *.
      - lia.
      - rewrite length_map. lia. }
    destruct (150 <=? length tokens1)%nat eqn:E.
    + exact Hlen.
    + apply Nat.leb_gt in E. apply IH. exact E.
Qed.

(** X12.  The final loop of the extractors stops at the first main
    question that brings the result to 150 tokens or more: when no main
    question has more than [k] sub-questions, the result holds fewer than
    150 + [k] tokens. *)
Theorem cap_overshoot_is_less_than_one_main (st : Pdf.XState) (k : nat) :
  (1 <= k)%nat ->
  (forall n subs, Pdf.subOrder st !! n = Some subs -> (length subs <= k)%nat) ->
  (length (Pdf.finalTokens st) < 150 + k)%nat.
Proof.
  intros Hk Hso. unfold Pdf.finalTokens. apply emitTokens_length; [exact Hk|exact Hso|].
  simpl. lia.
Qed.

(** The theorem at six main questions with 26 sub-questions each: 156
    tokens, fewer than 150 + 26. *)
Lemma cap_overshoot_is_less_than_one_main_witness :
  (1 <= 26)%nat
  /\ (forall n subs, Pdf.subOrder manySubsState !! n = Some subs -> (length subs <= 26)%nat)
  /\ length (Pdf.finalTokens manySubsState) = 156%nat
  /\ (length (Pdf.finalTokens manySubsState) < 150 + 26)%nat.
Proof.
  assert (H1 : (1 <= 26)%nat) by lia.
  assert (H2 : forall n subs, Pdf.subOrder manySubsState !! n = Some subs ->
                              (length subs <= 26)%nat).
  { apply map_Forall_to_list.
    set (l := map_to_list (Pdf.subOrder manySubsState)). vm_compute in l. subst l.
    repeat constructor. }
  split; [exact H1|]. split; [exact H2|]. split; [vm_compute; reflexivity|].
  exact (cap_overshoot_is_less_than_one_main manySubsState 26 H1 H2).
Defined.

(* ===================================================================== *)
(** ** Points are never negative *)
(* ===================================================================== *)

Lemma parse_digits_nonneg (s : string) :
  forall acc seen v, 0 <= acc -> Js.parse_digits acc seen s = Some v -> 0 <= v.
Proof.
  induction s as [|c s IH]; intros acc seen v Hacc H; simpl in H.
  - destruct seen; [injection H as <-; exact Hacc|discriminate].
  - destruct (Js.is_digit c).
    + apply IH in H; [exact H|]. lia.
    + destruct seen; [injection H as <-; exact Hacc|discriminate].
Qed.

Lemma parseInt_nonneg (s : string) (v : Z) : Js.parseInt s = Some v -> 0 <= v.
Proof. unfold Js.parseInt. apply parse_digits_nonneg. lia. Qed.

Lemma first_points_nonneg (patterns : list Re.RegExp) (s : string) (v : Z) :
  Pdf.first_points patterns s = Some v -> 0 <= v.
Proof.
  induction patterns as [|re rest IH]; simpl; [discriminate|].
  destruct (Re.smatch re s) as [m|]; [|exact IH].
  destruct (Js.parseInt _) as [w|] eqn:E; [|exact IH].
  intros [= <-]. now apply parseInt_nonneg in E.
Qed.

Lemma parsePts_nonneg (seg : string) (v : Z) : Pdf.parsePts seg = Some v -> 0 <= v.
Proof. unfold Pdf.parsePts. apply first_points_nonneg. Qed.

Lemma parsePtsList_nonneg (seg : string) (l : list Z) :
  Pdf.parsePtsList seg = Some l -> Forall (fun v => 0 <= v) l.
Proof.
  unfold Pdf.parsePtsList. destruct (Re.smatch _ _) as [m|]; [|discriminate].
  destruct (2 <=? _)%nat; [|discriminate]. intros [= <-].
  apply List.Forall_forall. intros v Hv. apply list_elem_of_In in Hv.
  apply list_elem_of_omap in Hv. destruct Hv as [s [_ Hs]].
  now apply parseInt_nonneg in Hs.
Qed.

Lemma pointsOk_same (st st' : Pdf.XState) :
  Pdf.pointsByToken st' = Pdf.pointsByToken st -> pointsOk st -> pointsOk st'.
Proof. unfold pointsOk. intros ->. auto. Qed.

Lemma ensureMain_points (n : Z) (st : Pdf.XState) :
  Pdf.pointsByToken (Pdf.ensureMain n st) = Pdf.pointsByToken st.
Proof. unfold Pdf.ensureMain. destruct (decide _); reflexivity. Qed.

Lemma pushSub_points (n : Z) (L : string) (st : Pdf.XState) :
  Pdf.pointsByToken (Pdf.pushSub n L st) = Pdf.pointsByToken st.
Proof. unfold Pdf.pushSub. destruct (Pdf.includes _ _); reflexivity. Qed.

Lemma setPage_points (tok : string) (p : Z) (st : Pdf.XState) :
  Pdf.pointsByToken (Pdf.setPage tok p st) = Pdf.pointsByToken st.
Proof. unfold Pdf.setPage. destruct (_ !! _); reflexivity. Qed.

Lemma setPoints_ok (tok : string) (v : Z) (st : Pdf.XState) :
  0 <= v -> pointsOk st -> pointsOk (Pdf.setPoints tok v st).
Proof.
  intros Hv Hst. unfold Pdf.setPoints. destruct (_ !! tok) eqn:E; [exact Hst|].
  intros t w. simpl. rewrite lookup_insert.
  destruct (decide (tok = t)); [intros [= <-]; exact Hv|apply Hst].
Qed.

Lemma setPointsOpt_ok (tok : string) (pts : option Z) (st : Pdf.XState) :
  (forall v, pts = Some v -> 0 <= v) -> pointsOk st -> pointsOk (Pdf.setPointsOpt tok pts st).
Proof.
  intros Hv Hst. destruct pts as [v|]; simpl; [|exact Hst].
  apply setPoints_ok; auto.
Qed.

Lemma withPage_ok (withPage : option Z) (tok : string) (st : Pdf.XState) :
  pointsOk st ->
  pointsOk (match withPage with Some p => Pdf.setPage tok p st | None => st end).
Proof.
  intros Hst. destruct withPage; [|exact Hst].
  eapply pointsOk_same; [apply setPage_points|exact Hst].
Qed.

Lemma assignList_ok (withPage : option Z) (n : Z) (subs : list string) :
  forall pts st, Forall (fun v => 0 <= v) pts -> pointsOk st ->
    pointsOk (Pdf.assignList withPage n subs pts st).
Proof.
  induction subs as [|L subs IH]; intros pts st Hpts Hst; simpl; [exact Hst|].
  destruct pts as [|v pts]; [exact Hst|].
  inversion Hpts; subst. apply IH; [assumption|].
  apply setPoints_ok; [assumption|]. now apply withPage_ok.
Qed.

Lemma pointsAround_nonneg (t : string) (m : Re.MatchResult) (v : Z) :
  Pdf.pointsAround t m = Some v -> 0 <= v.
Proof.
  unfold Pdf.pointsAround. destruct (Pdf.parsePts (Js.slice _ _ t)) eqn:E.
  - intros [= <-]. now apply parsePts_nonneg in E.
  - apply parsePts_nonneg.
Qed.

Lemma onCombined_ok (withPage : option Z) (t : string) (st : Pdf.XState) (m : Re.MatchResult) :
  pointsOk st -> pointsOk (Pdf.onCombined withPage t st m).
Proof.
  intros Hst. unfold Pdf.onCombined. destruct (Js.parseInt _) as [n|]; [|exact Hst].
  set (st1 := match withPage with Some p => _ | None => _ end).
  assert (H1 : pointsOk st1).
  { subst st1. apply withPage_ok. eapply pointsOk_same; [apply pushSub_points|].
    eapply pointsOk_same; [apply ensureMain_points|exact Hst]. }
  destruct (Pdf.hasPoints st1 _); [exact H1|].
  apply setPointsOpt_ok; [apply pointsAround_nonneg|exact H1].
Qed.

Lemma fold_onCombined_ok (withPage : option Z) (t : string) (ms : list Re.MatchResult) :
  forall st, pointsOk st -> pointsOk (fold_left (Pdf.onCombined withPage t) ms st).
Proof.
  induction ms as [|m ms IH]; intros st Hst; simpl; [exact Hst|].
  apply IH. now apply onCombined_ok.
Qed.

Lemma onEach_ok (withPage : option Z) (n ptsEach : Z) (letters : list string) :
  0 <= ptsEach -> forall st, pointsOk st -> pointsOk (Pdf.onEach withPage n ptsEach letters st).
Proof.
  intros Hv. unfold Pdf.onEach. induction letters as [|L letters IH]; intros st Hst; simpl.
  - exact Hst.
  - apply IH. apply setPoints_ok; [exact Hv|]. apply withPage_ok.
    eapply pointsOk_same; [apply pushSub_points|].
    eapply pointsOk_same; [apply ensureMain_points|exact Hst].
Qed.

Lemma onList_ok (withPage : option Z) (n : Z) (nearby : string) (st : Pdf.XState) :
  pointsOk st -> pointsOk (Pdf.onList withPage n nearby st).
Proof.
  intros Hst. unfold Pdf.onList.
  destruct (Pdf.parsePtsList nearby) as [[|v l]|] eqn:E; try exact Hst.
  apply parsePtsList_nonneg in E.
  apply assignList_ok; [exact E|].
  destruct (Pdf.subsOf (Pdf.ensureMain n st) n).
  - eapply pointsOk_same; [reflexivity|].
    eapply pointsOk_same; [apply ensureMain_points|exact Hst].
  - eapply pointsOk_same; [apply ensureMain_points|exact Hst].
Qed.

Lemma eachAndList_ok (withPage : option Z) (n : Z) (nearby : string) (st : Pdf.XState) :
  pointsOk st ->
  pointsOk
    (Pdf.onList withPage n nearby
       match Re.smatch Pdf.eachRe nearby, Pdf.parsePts nearby with
       | Some eachM, Some ptsEach =>
           Pdf.onEach withPage n ptsEach
             (letterRange (Re.group_or_empty eachM 1) (Re.group_or_empty eachM 2)) st
       | _, _ => st
       end).
Proof.
  intros Hst. apply onList_ok.
  destruct (Re.smatch Pdf.eachRe nearby); [|exact Hst].
  destruct (Pdf.parsePts nearby) eqn:E; [|exact Hst].
  apply onEach_ok; [now apply parsePts_nonneg in E|exact Hst].
Qed.

Lemma pts_choice_nonneg (rem : string) (next : option string) (v : Z) :
  match Pdf.parsePts rem, next with
  | Some v, _ => Some v
  | None, Some nt => Pdf.parsePts nt
  | None, None => None
  end = Some v -> 0 <= v.
Proof.
  destruct (Pdf.parsePts rem) eqn:E; [intros [= <-]; now apply parsePts_nonneg in E|].
  destruct next; [apply parsePts_nonneg|discriminate].
Qed.

Lemma lineStep_ok (ln : Pdf.TextLine) (next : option Pdf.TextLine)
    (acc : Pdf.XState * option Z) :
  pointsOk (fst acc) -> pointsOk (fst (Pdf.lineStep ln next acc)).
Proof.
  destruct acc as [st cm]. simpl. intros Hst. unfold Pdf.lineStep.
  set (st1 := fold_left _ _ st).
  assert (H1 : pointsOk st1) by (subst st1; now apply fold_onCombined_ok).
  clearbody st1.
  destruct (Re.smatch Pdf.mainLineRe _) as [mm|].
  - destruct (Js.parseInt _) as [n|].
    + cbn [fst]. apply eachAndList_ok.
      apply setPointsOpt_ok; [apply pts_choice_nonneg|].
      eapply pointsOk_same; [apply setPage_points|].
      eapply pointsOk_same; [apply ensureMain_points|exact H1].
    + destruct (Re.smatch Pdf.letterLineRe _) as [lm|]; [|exact H1].
      destruct cm as [c|]; [|exact H1]. cbn [fst].
      apply setPointsOpt_ok; [apply pts_choice_nonneg|].
      eapply pointsOk_same; [apply setPage_points|].
      eapply pointsOk_same; [apply pushSub_points|].
      eapply pointsOk_same; [apply ensureMain_points|exact H1].
  - destruct (Re.smatch Pdf.letterLineRe _) as [lm|]; [|exact H1].
    destruct cm as [c|]; [|exact H1]. cbn [fst].
    apply setPointsOpt_ok; [apply pts_choice_nonneg|].
    eapply pointsOk_same; [apply setPage_points|].
    eapply pointsOk_same; [apply pushSub_points|].
    eapply pointsOk_same; [apply ensureMain_points|exact H1].
Qed.

Lemma linesLoop_ok (lines : list Pdf.TextLine) :
  forall acc, pointsOk (fst acc) -> pointsOk (fst (Pdf.linesLoop lines acc)).
Proof.
  induction lines as [|ln rest IH]; intros acc Hacc; simpl; [exact Hacc|].
  apply IH. now apply lineStep_ok.
Qed.

Lemma initXState_ok : pointsOk Pdf.initXState.
Proof. intros tok v. simpl. rewrite lookup_empty. discriminate. Qed.

Lemma questions_nonneg (st : Pdf.XState) (withPage : bool) (tokens : list string) :
  pointsOk st -> Forall (fun q => 0 <= Pdf.q_points q) (map (Pdf.questionOf st withPage) tokens).
Proof.
  intros Hst. apply List.Forall_forall. intros q Hq. apply in_map_iff in Hq.
  destruct Hq as [tok [<- _]]. simpl.
  destruct (Pdf.pointsByToken st !! tok) as [v|] eqn:E; simpl; [now apply (Hst tok)|lia].
Qed.

Lemma Text2_combinedLoop_ok (normalized : string) (ms : list Re.MatchResult) :
  forall st, pointsOk st -> pointsOk (Pdf.Text2.combinedLoop normalized ms st).
Proof.
  induction ms as [|m ms IH]; intros st Hst; cbn [Pdf.Text2.combinedLoop]; [exact Hst|].
  destruct (Js.parseInt _); [|now apply IH].
  destruct (Nat.leb 80 _); [now apply onCombined_ok|].
  apply IH. now apply onCombined_ok.
Qed.

Lemma Text2_lineStep_ok (line : string) (next : option string) (acc : Pdf.XState * option Z) :
  pointsOk (fst acc) -> pointsOk (fst (Pdf.Text2.lineStep line next acc)).
Proof.
  destruct acc as [st cm]. simpl. intros Hst. unfold Pdf.Text2.lineStep.
  destruct (Re.smatch Pdf.mainLineRe _) as [mm|].
  - destruct (Js.parseInt _) as [n|].
    + cbn [fst]. apply eachAndList_ok.
      assert (H1 : pointsOk (Pdf.ensureMain n st))
        by (eapply pointsOk_same; [apply ensureMain_points|exact Hst]).
      destruct (match Pdf.parsePts _, next with
                | Some v, _ => Some v | None, Some nt => Pdf.parsePts nt | None, None => None
                end) as [v|] eqn:E; [|exact H1].
      destruct (Pdf.subsOf _ n); [|exact H1].
      apply setPoints_ok; [now apply pts_choice_nonneg in E|exact H1].
    + destruct (Re.smatch Pdf.letterLineRe _) as [lm|]; [|exact Hst].
      destruct cm as [c|]; [|exact Hst]. cbn [fst].
      apply setPointsOpt_ok; [apply pts_choice_nonneg|].
      eapply pointsOk_same; [apply pushSub_points|].
      eapply pointsOk_same; [apply ensureMain_points|exact Hst].
  - destruct (Re.smatch Pdf.letterLineRe _) as [lm|]; [|exact Hst].
    destruct cm as [c|]; [|exact Hst]. cbn [fst].
    apply setPointsOpt_ok; [apply pts_choice_nonneg|].
    eapply pointsOk_same; [apply pushSub_points|].
    eapply pointsOk_same; [apply ensureMain_points|exact Hst].
Qed.

Lemma Text2_linesLoop_ok (lines : list string) :
  forall acc, pointsOk (fst acc) -> pointsOk (fst (Pdf.Text2.linesLoop lines acc)).
Proof.
  induction lines as [|ln rest IH]; intros acc Hacc; simpl; [exact Hacc|].
  apply IH. now apply Text2_lineStep_ok.
Qed.

Lemma Text2_onLetter_ok (normalized : string) (mainHits : list (Z * nat))
    (st : Pdf.XState) (lh : Re.MatchResult) :
  pointsOk st -> pointsOk (Pdf.Text2.onLetter normalized mainHits st lh).
Proof.
  intros Hst. unfold Pdf.Text2.onLetter. destruct (Pdf.Text2.attachedMain _ _); [|exact Hst].
  apply setPointsOpt_ok; [apply pointsAround_nonneg|].
  eapply pointsOk_same; [apply pushSub_points|].
  eapply pointsOk_same; [apply ensureMain_points|exact Hst].
Qed.

Lemma Text2_collect_ok (text : string) : pointsOk (Pdf.Text2.collect text).
Proof.
  unfold Pdf.Text2.collect.
  set (normalized := Js.trim _). clearbody normalized.
  generalize (Re.exec_all Pdf.Text2.letterAnyRe normalized) as ls.
  generalize (Pdf.Text2.mainHitsOf normalized) as hits.
  intros hits ls.
  assert (H1 : pointsOk (fst (Pdf.Text2.linesLoop (map Js.trim (Js.split_lines text))
             (Pdf.Text2.combinedLoop normalized
                (Re.exec_all Pdf.Text2.combinedRe normalized) Pdf.initXState, None)))).
  { apply Text2_linesLoop_ok. simpl. apply Text2_combinedLoop_ok, initXState_ok. }
  revert H1. generalize (fst (Pdf.Text2.linesLoop (map Js.trim (Js.split_lines text))
             (Pdf.Text2.combinedLoop normalized
                (Re.exec_all Pdf.Text2.combinedRe normalized) Pdf.initXState, None))).
  induction ls as [|lh ls IH]; intros st Hst; simpl; [exact Hst|].
  apply IH. now apply Text2_onLetter_ok.
Qed.

Lemma linesQuestions_nonneg (lines : list Pdf.TextLine) :
  Forall (fun q => 0 <= Pdf.q_points q) (Pdf.extractQuestionsFromLines lines).
Proof.
  unfold Pdf.extractQuestionsFromLines. apply questions_nonneg.
  apply (linesLoop_ok lines (Pdf.initXState, None)). apply initXState_ok.
Qed.

Lemma text2Questions_nonneg (text : string) :
  Forall (fun q => 0 <= Pdf.q_points q) (Pdf.extractQuestionsFromText2 text).
Proof.
  unfold Pdf.extractQuestionsFromText2. apply questions_nonneg. apply Text2_collect_ok.
Qed.

(** X13.  No question that [extractQuestionsFromLines] or
    [extractQuestionsFromText2] returns has negative points, whatever the
    input. *)
Theorem extracted_points_are_never_negative (lines : list Pdf.TextLine) (text : string) :
  Forall (fun q => 0 <= Pdf.q_points q) (Pdf.extractQuestionsFromLines lines)
  /\ Forall (fun q => 0 <= Pdf.q_points q) (Pdf.extractQuestionsFromText2 text).
Proof.
  split; [apply linesQuestions_nonneg|apply text2Questions_nonneg].
Qed.

(* ===================================================================== *)
(** ** What the header and footer filter keeps *)
(* ===================================================================== *)

Lemma addToPage_perm (ln : Pdf.TextLine) (byPage : list (Z * list Pdf.TextLine)) :
  Permutation (flat_map snd (Pdf.addToPage ln byPage)) (ln :: flat_map snd byPage).
Proof.
  induction byPage as [|[p arr] rest IH]; simpl; [reflexivity|].
  destruct (p =? Pdf.tl_page ln); simpl.
  - rewrite <- app_assoc. simpl. symmetry. apply Permutation_middle.
  - rewrite IH. symmetry. apply Permutation_middle.
Qed.

Lemma groupByPage_perm (lines : list Pdf.TextLine) :
  Permutation (flat_map snd (Pdf.groupByPage lines)) lines.
Proof.
  unfold Pdf.groupByPage.
  assert (H : forall bp, Permutation (flat_map snd (fold_left (fun bp ln => Pdf.addToPage ln bp) lines bp))
                                     (flat_map snd bp ++ lines)).
  { induction lines as [|ln lines IH]; intros bp; simpl.
    - now rewrite app_nil_r.
    - rewrite IH, addToPage_perm. simpl. apply Permutation_middle. }
  apply (H []).
Qed.

Lemma keepFrom_sub (tc bc : gmap string Z) (thr : Z) (len : nat) (arr : list Pdf.TextLine) :
  forall i, (forall ln, In ln (Pdf.keepFrom tc bc thr len i arr) -> In ln arr)
            /\ (length (Pdf.keepFrom tc bc thr len i arr) <= length arr)%nat.
Proof.
  induction arr as [|a arr IH]; intros i; simpl; [split; [tauto|lia]|].
  destruct (IH (S i)) as [Hin Hlen].
  destruct (_ || _); simpl.
  - split; [intros ln H; right; now apply Hin|lia].
  - split; [intros ln [<-|H]; [now left|right; now apply Hin]|lia].
Qed.

Lemma flat_map_length_sum {A B} (f g : A -> list B) (l : list A) :
  (forall a, length (f a) <= length (g a))%nat ->
  (length (flat_map f l) <= length (flat_map g l))%nat.
Proof.
  intros H. induction l as [|a l IH]; simpl; [lia|].
  rewrite !length_app. specialize (H a). lia.
Qed.

(** X14.  [filterHeaderFooterLines] invents nothing: every line it
    returns is a line of its input, it returns at most as many lines as
    it was given, and its result is sorted by page. *)
Theorem filter_keeps_only_input_lines_sorted_by_page
    (lines : list Pdf.TextLine) (totalPages : Z) :
  let out := Pdf.filterHeaderFooterLines lines totalPages in
  (forall ln, In ln out -> In ln lines)
  /\ (length out <= length lines)%nat
  /\ StronglySorted (fun a b => Pdf.tl_page a <= Pdf.tl_page b) out.
Proof.
  unfold Pdf.filterHeaderFooterLines.
  set (byPage := Pdf.groupByPage lines).
  set (tc := Pdf.countTexts _). set (bc := Pdf.countTexts _).
  set (thr := Pdf.threshold totalPages).
  set (kept := flat_map _ byPage).
  pose proof (js_sort_perm Pdf.cmpPage kept) as Hp.
  cbv zeta. split; [|split].
  - intros ln Hin. apply (Permutation_in _ Hp) in Hin.
    apply (Permutation_in _ (groupByPage_perm lines)).
    subst kept. apply in_flat_map in Hin. destruct Hin as [[p arr] [Hpa Hk]].
    apply in_flat_map. exists (p, arr). split; [exact Hpa|].
    simpl in *. now apply (proj1 (keepFrom_sub tc bc thr (length arr) arr 0)).
  - rewrite (Permutation_length Hp), <- (Permutation_length (groupByPage_perm lines)).
    subst kept. apply flat_map_length_sum. intros [p arr]. simpl.
    apply (proj2 (keepFrom_sub tc bc thr (length arr) arr 0)).
  - apply js_sort_sorted; unfold Pdf.cmpPage; intros; lia.
Qed.

Lemma keepFrom_keeps (tc bc : gmap string Z) (thr : Z) (len : nat) (arr : list Pdf.TextLine) :
  forall (i k : nat) (ln : Pdf.TextLine),
    arr !! k = Some ln ->
    ((i + k <? 3)%nat && Pdf.common tc thr (Pdf.tl_text ln) = false) ->
    ((len <=? i + k + 3)%nat && Pdf.common bc thr (Pdf.tl_text ln) = false) ->
    In ln (Pdf.keepFrom tc bc thr len i arr).
Proof.
  induction arr as [|a arr IH]; intros i k ln Hk Ht Hb; [discriminate|].
  destruct k as [|k]; cbn [Pdf.keepFrom].
  - injection Hk as ->. rewrite Nat.add_0_r in Ht, Hb. rewrite Ht, Hb. simpl. now left.
  - assert (Hin : In ln (Pdf.keepFrom tc bc thr len (S i) arr)).
    { apply (IH (S i) k); [exact Hk| |].
      - replace (S i + k)%nat with (i + S k)%nat by lia. exact Ht.
      - replace (S i + k)%nat with (i + S k)%nat by lia. exact Hb. }
    destruct (_ || _); [exact Hin|now right].
Qed.

(** X15.  A line that stands neither among the first three nor among the
    last three lines of its page passes [filterHeaderFooterLines],
    however often its text repeats. *)
Theorem filter_never_removes_a_line_outside_the_bands
    (lines : list Pdf.TextLine) (totalPages : Z)
    (p : Z) (arr : list Pdf.TextLine) (k : nat) (ln : Pdf.TextLine) :
  In (p, arr) (Pdf.groupByPage lines) ->
  arr !! k = Some ln -> (3 <= k)%nat -> (k + 3 < length arr)%nat ->
  In ln (Pdf.filterHeaderFooterLines lines totalPages).
Proof.
  intros Hpa Hk Hlo Hhi. unfold Pdf.filterHeaderFooterLines.
  eapply Permutation_in; [symmetry; apply js_sort_perm|].
  apply in_flat_map. exists (p, arr). split; [exact Hpa|]. simpl.
  apply (keepFrom_keeps _ _ _ _ arr 0 k ln Hk); simpl.
  - destruct (Nat.ltb_spec k 3); [lia|reflexivity].
  - destruct (Nat.leb_spec (length arr) (k + 3)); [lia|reflexivity].
Qed.

Lemma common_false_of_count (count : gmap string Z) (thr : Z) (text : string) :
  countOf count text < thr -> Pdf.common count thr text = false.
Proof.
  unfold countOf, Pdf.common. destruct (count !! text) as [c|]; simpl; [|reflexivity].
  intros H. apply Z.leb_gt. exact H.
Qed.

(** X16.  A line whose text holds fewer than two top slots and fewer than
    two bottom slots over the whole document passes
    [filterHeaderFooterLines], whatever the number of pages is. *)
Theorem filter_keeps_lines_that_do_not_repeat
    (lines : list Pdf.TextLine) (totalPages : Z) (ln : Pdf.TextLine) :
  In ln lines ->
  topSlotCount lines (Pdf.tl_text ln) < 2 ->
  bottomSlotCount lines (Pdf.tl_text ln) < 2 ->
  In ln (Pdf.filterHeaderFooterLines lines totalPages).
Proof.
  intros Hin Htop Hbot.
  apply (Permutation_in _ (Permutation_sym (groupByPage_perm lines))) in Hin.
  apply in_flat_map in Hin. destruct Hin as [[p arr] [Hpa Harr]]. simpl in Harr.
  apply list_elem_of_In, list_elem_of_lookup in Harr. destruct Harr as [k Hk].
  unfold Pdf.filterHeaderFooterLines.
  eapply Permutation_in; [symmetry; apply js_sort_perm|].
  apply in_flat_map. exists (p, arr). split; [exact Hpa|]. simpl.
  assert (Hthr : 2 <= Pdf.threshold totalPages) by (unfold Pdf.threshold; lia).
  apply (keepFrom_keeps _ _ _ _ arr 0 k ln Hk).
  - rewrite common_false_of_count; [apply andb_false_r|].
    rewrite countTexts_total, map_map. unfold topSlotCount in Htop. lia.
  - rewrite common_false_of_count; [apply andb_false_r|].
    rewrite countTexts_total, map_map. unfold bottomSlotCount in Hbot. lia.
Qed.

(** The theorem at the fourth of seven lines of a page. *)
Lemma filter_never_removes_a_line_outside_the_bands_witness :
  In (1, sevenLines) (Pdf.groupByPage sevenLines)
  /\ sevenLines !! 3%nat = Some (Pdf.mkTextLine "d" 1)
  /\ (3 <= 3)%nat /\ (3 + 3 < length sevenLines)%nat
  /\ In (Pdf.mkTextLine "d" 1) (Pdf.filterHeaderFooterLines sevenLines 1).
Proof.
  assert (H1 : In (1, sevenLines) (Pdf.groupByPage sevenLines)) by (vm_compute; left; reflexivity).
  assert (H2 : sevenLines !! 3%nat = Some (Pdf.mkTextLine "d" 1)) by reflexivity.
  assert (H3 : (3 <= 3)%nat) by lia.
  assert (H4 : (3 + 3 < length sevenLines)%nat) by (vm_compute; lia).
  repeat (split; [assumption|]).
  exact (filter_never_removes_a_line_outside_the_bands sevenLines 1 1 sevenLines 3
           (Pdf.mkTextLine "d" 1) H1 H2 H3 H4).
Defined.

(** The theorem at the second line of the first of three pages that open
    with the same banner. *)
Lemma filter_keeps_lines_that_do_not_repeat_witness :
  In (Pdf.mkTextLine "First page" 1) bannerLines
  /\ topSlotCount bannerLines "First page" < 2
  /\ bottomSlotCount bannerLines "First page" < 2
  /\ In (Pdf.mkTextLine "First page" 1) (Pdf.filterHeaderFooterLines bannerLines 3).
Proof.
  assert (H1 : In (Pdf.mkTextLine "First page" 1) bannerLines) by (right; left; reflexivity).
  assert (H2 : topSlotCount bannerLines "First page" < 2) by (vm_compute; reflexivity).
  assert (H3 : bottomSlotCount bannerLines "First page" < 2) by (vm_compute; reflexivity).
  repeat (split; [assumption|]).
  exact (filter_keeps_lines_that_do_not_repeat bannerLines 3 (Pdf.mkTextLine "First page" 1)
           H1 H2 H3).
Defined.

(* ===================================================================== *)
(** ** What every parse keeps *)
(* ===================================================================== *)

Lemma pagesUpTo_bounds (m : Z) : Forall (fun i => 1 <= i <= m) (Parse.pagesUpTo m).
Proof.
  unfold Parse.pagesUpTo. apply List.Forall_forall. intros i Hi.
  apply in_map_iff in Hi. destruct Hi as [k [<- Hk]]. apply in_seq in Hk. lia.
Qed.

Section ParseInvariant.
Variable W : Type.
Variable host : Parse.Host W.
Variable detect : list PageInput -> Completion (list TokenMeta).
Variable P : Parse.Event -> Prop.

Local Abbreviation Locals := (Parse.Locals W).
Local Abbreviation trace := (Parse.trace W).
Local Abbreviation qs := (Parse.questionsDetected W).

Ltac bind_eq H s1 r1 E :=
  unfold Parse.bind at 1 in H;
  match type of H with
  | (match ?m ?s with _ => _ end) = _ => destruct (m s) as [s1 r1] eqn:E
  | (let (_, _) := ?m ?s in _) = _ => destruct (m s) as [s1 r1] eqn:E
  end.

Lemma parseInv_same (s s' : Locals) :
  trace s' = trace s -> qs s' = qs s -> parseInv W P s -> parseInv W P s'.
Proof. unfold parseInv. intros -> ->. auto. Qed.

Lemma call_inv {A} (ev : Parse.Event) (f : W -> W * Completion A) (s s' : Locals)
    (r : Completion A) :
  Parse.call W ev f s = (s', r) -> P ev -> parseInv W P s -> parseInv W P s'.
Proof.
  intros H Hev [Ht Hq]. apply call_spec in H as [Ht' Hq']. unfold parseInv.
  rewrite Ht', Hq'. split; [|exact Hq].
  apply Forall_app. split; [exact Ht|]. constructor; [exact Hev|constructor].
Qed.

Lemma runText2_inv (site : Parse.Text2Site) (s s' : Locals) (r : Completion unit) :
  Parse.runText2 W site s = (s', r) ->
  (forall n, P (Parse.EvText2 site n)) -> parseInv W P s -> r = Normal tt /\ parseInv W P s'.
Proof.
  unfold Parse.runText2, Parse.bind, Parse.get, Parse.modify, Parse.emit.
  cbn [fst snd]. intros [= <- <-] Hev [Ht Hq]. split; [reflexivity|]. split; simpl.
  - apply Forall_app. split; [exact Ht|]. constructor; [apply Hev|constructor].
  - apply text2Questions_nonneg.
Qed.

Lemma textLayerLoop_inv (pages : list Z) :
  Forall (fun i => P (Parse.EvGetPage Parse.TextLayer i)
                   /\ P (Parse.EvGetTextContent Parse.TextLayer i)) pages ->
  forall s s' r, Parse.textLayerLoop W host pages s = (s', r) -> parseInv W P s -> parseInv W P s'.
Proof.
  intros Hp. induction Hp as [|i pages [Hi1 Hi2] Hp IH]; intros s s' r H Hs.
  - injection H as <- <-. exact Hs.
  - cbn [Parse.textLayerLoop] in H.
    bind_eq H s1 r1 E1. apply call_inv in E1; [|exact Hi1|exact Hs].
    destruct r1 as [[]|e]; [|injection H as <- <-; exact E1].
    bind_eq H s2 r2 E2. apply call_inv in E2; [|exact Hi2|exact E1].
    destruct r2 as [content|e]; [|injection H as <- <-; exact E2].
    destruct content as [[|it items]|]; now apply IH in H.
Qed.

Lemma layoutPages_inv (pages : list Z) :
  Forall (fun i => P (Parse.EvGetPage Parse.Layout i)
                   /\ P (Parse.EvGetTextContent Parse.Layout i)) pages ->
  forall acc s s' r, Parse.layoutPages W host pages acc s = (s', r) ->
    parseInv W P s -> parseInv W P s'.
Proof.
  intros Hp. induction Hp as [|i pages [Hi1 Hi2] Hp IH]; intros acc s s' r H Hs.
  - injection H as <- <-. exact Hs.
  - cbn [Parse.layoutPages] in H.
    bind_eq H s1 r1 E1. apply call_inv in E1; [|exact Hi1|exact Hs].
    destruct r1 as [[]|e]; [|injection H as <- <-; exact E1].
    bind_eq H s2 r2 E2. apply call_inv in E2; [|exact Hi2|exact E1].
    destruct r2 as [content|e]; [|injection H as <- <-; exact E2].
    now apply IH in H.
Qed.

Lemma layoutFallback_inv (n : N) (s s' : Locals) (r : Completion unit) :
  Parse.layoutFallback W host detect n s = (s', r) ->
  (forall i, 1 <= i <= 10 -> P (Parse.EvGetPage Parse.Layout i)
                             /\ P (Parse.EvGetTextContent Parse.Layout i)) ->
  P Parse.EvDetectPages ->
  parseInv W P s -> r = Normal tt /\ parseInv W P s'.
Proof.
  intros H Hpages Hdet Hs. unfold Parse.layoutFallback, Parse.try_ in H.
  match type of H with (let (_, _) := ?m ?s in _) = _ =>
    destruct (m s) as [s1 r1] eqn:E end.
  injection H as <- <-. split; [reflexivity|].
  bind_eq E s2 r2 E2. apply layoutPages_inv in E2; [| |exact Hs].
  2:{ eapply List.Forall_impl; [|apply pagesUpTo_bounds]. intros i Hi. apply Hpages.
      cbv beta in Hi. lia. }
  destruct r2 as [detectorPages|e]; [|injection E as <- <-; exact E2].
  unfold Parse.bind at 1, Parse.emit at 1 in E. cbn [fst snd] in E.
  match type of E with _ ?s0 = _ =>
    assert (H0 : parseInv W P s0)
  end.
  { destruct E2 as [Ht Hq]. split; [|exact Hq]. simpl.
    apply Forall_app. split; [exact Ht|]. constructor; [exact Hdet|constructor]. }
  destruct (detect detectorPages) as [[|tk tokens]|e].
  - injection E as <- <-. exact H0.
  - unfold Parse.modify in E. injection E as <- <-.
    destruct H0 as [Ht Hq]. split; [exact Ht|]. simpl.
    constructor; [unfold nonnegPoints; simpl; lia|].
    apply List.Forall_forall. intros q Hq'. apply in_map_iff in Hq'.
    destruct Hq' as [t [<- _]]. unfold nonnegPoints. simpl. lia.
  - injection E as <- <-. exact H0.
Qed.

Lemma ocrLoop_inv (deep useWorker : bool) (pages : list Z) :
  Forall (fun i => P (Parse.EvGetPage Parse.Ocr i) /\ P (Parse.EvCanvas i)
                   /\ P (Parse.EvRender i) /\ P (Parse.EvRecognize i)) pages ->
  (deep = false -> forall n, P (Parse.EvText2 Parse.OcrQuick n)) ->
  forall s s' r, Parse.ocrLoop W host deep useWorker pages s = (s', r) ->
    parseInv W P s -> parseInv W P s'.
Proof.
  intros Hp Hquick. induction Hp as [|i pages (Hi1 & Hi2 & Hi3 & Hi4) Hp IH];
    intros s s' r H Hs.
  - injection H as <- <-. exact Hs.
  - cbn [Parse.ocrLoop] in H.
    bind_eq H s1 r1 E1. apply call_inv in E1; [|exact Hi1|exact Hs].
    destruct r1 as [[]|e]; [|injection H as <- <-; exact E1].
    bind_eq H s2 r2 E2. apply call_inv in E2; [|exact Hi2|exact E1].
    destruct r2 as [ctx|e]; [|injection H as <- <-; exact E2].
    destruct ctx; cbn [negb] in H; [|now apply IH in H].
    bind_eq H s3 r3 E3. apply call_inv in E3; [|exact Hi3|exact E2].
    destruct r3 as [[]|e]; [|injection H as <- <-; exact E3].
    bind_eq H s4 r4 E4.
    assert (H4 : parseInv W P s4 /\ exists t, r4 = Normal t).
    { apply recognizePage_spec in E4 as ([t ->] & Ht4 & Hq4). split; [|eauto].
      destruct E3 as [Ht Hq]. split; [rewrite Ht4|rewrite Hq4; exact Hq].
      apply Forall_app. split; [exact Ht|]. constructor; [exact Hi4|constructor]. }
    destruct H4 as [H4 [t ->]].
    destruct (Js.truthy t); [|now apply IH in H].
    unfold Parse.bind at 1 2, Parse.modify in H. cbn [fst snd] in H.
    match type of H with context [Parse.setTextForParsing W ?v ?s0] =>
      set (s5 := Parse.setTextForParsing W v s0) in H;
      assert (Hs5 : parseInv W P s5) by exact H4
    end.
    destruct deep; [now apply IH in H|].
    bind_eq H s6 r6 E6. apply runText2_inv in E6 as [-> H6]; [|now apply Hquick|exact Hs5].
    unfold Parse.noQuestions, Parse.bind, Parse.get, Parse.ret in H.
    destruct (qs s6) as [|q0 rest] eqn:Eq; cbn [length Nat.eqb] in H.
    + now apply IH in H.
    + injection H as <- <-. exact H6.
Qed.

Lemma ocrStage_inv (deep : bool) (n : N) (s s' : Locals) (r : Completion unit) :
  Parse.ocrStage W host deep n s = (s', r) ->
  P Parse.EvLoadTesseract ->
  (Parse.hasDocument W host = true ->
   (exists w, snd (Parse.loadTesseract W host w) <> None) -> ocrEventsOk P deep) ->
  parseInv W P s -> r = Normal tt /\ parseInv W P s'.
Proof.
  intros H Hload Hocr Hs. unfold Parse.ocrStage in H.
  bind_eq H s1 r1 E1.
  assert (Hr1 : r1 = Normal (snd (Parse.loadTesseract W host (Parse.world W s)))).
  { unfold Parse.call in E1. destruct (Parse.loadTesseract W host (Parse.world W s)).
    injection E1 as _ <-. reflexivity. }
  apply call_inv in E1; [|exact Hload|exact Hs]. rewrite Hr1 in H.
  destruct (snd (Parse.loadTesseract W host (Parse.world W s))) as [hasCreateWorker|] eqn:El;
    [|injection H as <- <-; auto].
  destruct (Parse.hasDocument W host) eqn:Ed; [|injection H as <- <-; auto].
  destruct Hocr as (Hcw & Hterm & Hpages & Htext).
  { reflexivity. }
  { exists (Parse.world W s). rewrite El. discriminate. }
  unfold Parse.try_ at 1 in H.
  match type of H with (let (_, _) := ?m ?s in _) = _ =>
    destruct (m s) as [s2 r2] eqn:E end.
  injection H as <- <-. split; [reflexivity|].
  bind_eq E s3 r3 E3.
  assert (H3 : parseInv W P s3).
  { destruct hasCreateWorker.
    - now apply call_inv in E3.
    - injection E3 as <- <-. exact E1. }
  destruct r3 as [[]|e]; [|injection E as <- <-; exact H3].
  bind_eq E s4 r4 E4. apply ocrLoop_inv in E4; [| | |exact H3].
  2:{ eapply List.Forall_impl; [|apply pagesUpTo_bounds]. intros i Hi. apply Hpages.
      cbv beta in Hi. lia. }
  2:{ intros ->. exact Htext. }
  destruct r4 as [[]|e]; [|injection E as <- <-; exact E4].
  bind_eq E s5 r5 E5.
  assert (H5 : parseInv W P s5 /\ r5 = Normal tt).
  { destruct hasCreateWorker.
    - unfold Parse.try_ in E5.
      destruct (Parse.call W _ _ s4) as [s5' r5'] eqn:E5'.
      injection E5 as <- <-. split; [|reflexivity]. now apply call_inv in E5'.
    - injection E5 as <- <-. auto. }
  destruct H5 as [H5 ->].
  destruct deep.
  - apply runText2_inv in E as [_ H]; [exact H|exact Htext|exact H5].
  - injection E as <- <-. exact H5.
Qed.

Lemma whenEmpty_inv (m : Parse.M W unit) (s s' : Locals) (r : Completion unit) :
  Parse.whenEmpty W m s = (s', r) ->
  (forall s' r, m s = (s', r) -> r = Normal tt /\ parseInv W P s') ->
  parseInv W P s -> r = Normal tt /\ parseInv W P s'.
Proof.
  rewrite whenEmpty_eq. intros H Hm Hs. destruct (qs s).
  - now apply Hm.
  - injection H as <- <-. auto.
Qed.

Lemma finish_inv (s s' : Locals) (r : Completion Parse.Exam) :
  Parse.finish W host s = (s', r) ->
  (forall n, P (Parse.EvText2 Parse.Final n)) ->
  parseInv W P s -> r = Normal (normalRecord W host s') /\ parseInv W P s'.
Proof.
  intros H Hfinal Hs. unfold Parse.finish in H.
  unfold Parse.bind at 1, Parse.get at 1 in H. cbn [fst snd] in H.
  bind_eq H s1 r1 E1.
  apply whenEmpty_inv in E1 as [-> H1]; [| |exact Hs].
  2:{ intros s0 r0 H0. now apply runText2_inv in H0. }
  unfold Parse.bind, Parse.get, Parse.ret in H. cbn [fst snd] in H.
  injection H as <- <-. split; [reflexivity|exact H1].
Qed.

Lemma parseBody_inv (deep : bool) (s s' : Locals) (r : Completion Parse.Exam) :
  Parse.parseBody W host detect deep s = (s', r) ->
  plainEventsOk P ->
  (Parse.hasDocument W host = true ->
   (exists w, snd (Parse.loadTesseract W host w) <> None) -> ocrEventsOk P deep) ->
  parseInv W P s ->
  parseInv W P s' /\ ((exists e, r = Throw e) \/ r = Normal (normalRecord W host s')).
Proof.
  intros H (Hopen & Hdet & Hload & Hlines & Hflat & Hfinal & Htl & Hlay) Hocr Hs.
  unfold Parse.parseBody in H.
  bind_eq H s1 r1 E1.
  assert (H1 : parseInv W P s1).
  { unfold Parse.readTextLayer in E1.
    bind_eq E1 s0 r0 E0. apply call_inv in E0; [|exact Hopen|exact Hs].
    destruct r0 as [n|e]; [|injection E1 as <- <-; exact E0].
    bind_eq E1 s0' r0' E0'. apply textLayerLoop_inv in E0'; [| |exact E0].
    2:{ eapply List.Forall_impl; [|apply pagesUpTo_bounds]. intros i Hi. apply Htl.
        cbv beta in Hi. lia. }
    destruct r0'; injection E1 as <- <-; exact E0'. }
  destruct r1 as [numPages|e]; [|injection H as <- <-; split; [exact H1|left; eauto]].
  bind_eq H s2 r2 E2.
  assert (H2 : r2 = Normal tt /\ parseInv W P s2).
  { unfold Parse.detectFromLines, Parse.bind, Parse.get, Parse.modify, Parse.emit in E2.
    cbn [fst snd] in E2. injection E2 as <- <-. split; [reflexivity|].
    destruct H1 as [Ht Hq]. split; simpl.
    - apply Forall_app. split; [exact Ht|]. constructor; [apply Hlines|constructor].
    - apply linesQuestions_nonneg. }
  destruct H2 as [-> H2].
  bind_eq H s3 r3 E3.
  apply whenEmpty_inv in E3 as [-> H3]; [| |exact H2].
  2:{ intros s0 r0 H0. now apply runText2_inv in H0. }
  bind_eq H s4 r4 E4.
  apply whenEmpty_inv in E4 as [-> H4]; [| |exact H3].
  2:{ intros s0 r0 H0. now apply layoutFallback_inv in H0. }
  bind_eq H s5 r5 E5.
  apply whenEmpty_inv in E5 as [-> H5]; [| |exact H4].
  2:{ intros s0 r0 H0. now apply ocrStage_inv in H0. }
  unfold Parse.bind at 1, Parse.modify at 1 in H. cbn [fst snd] in H.
  destruct (detectCode_same W s5) as [Ht6 Hq6].
  apply finish_inv in H as [-> H7]; [auto|exact Hfinal|].
  now apply (parseInv_same s5).
Qed.

Lemma parsePdf_inv (deep : bool) (w : W) :
  plainEventsOk P ->
  (Parse.hasDocument W host = true ->
   (exists w, snd (Parse.loadTesseract W host w) <> None) -> ocrEventsOk P deep) ->
  let '(s', r) := Parse.parsePdf W host detect deep w in
  parseInv W P s'
  /\ ((exists e, r = Normal (Parse.fallbackExam W host s' e)) \/ r = Normal (normalRecord W host s')).
Proof.
  intros Hplain Hocr. unfold Parse.parsePdf.
  destruct (Parse.parseBody W host detect deep (Parse.initLocals W host w)) as [s r] eqn:E.
  apply parseBody_inv in E as [Hs Hr]; [|exact Hplain|exact Hocr|].
  - destruct Hr as [[e ->]| ->]; split; eauto.
  - split; constructor.
Qed.

End ParseInvariant.

Lemma dedupe_keys (qs : list Pdf.Question) :
  forall seen, NoDup (map questionKey (Parse.dedupe seen qs))
               /\ Forall (fun q => questionKey q ∉ seen) (Parse.dedupe seen qs).
Proof.
  induction qs as [|q qs IH]; intros seen; simpl; [split; constructor|].
  fold (questionKey q).
  destruct (decide (questionKey q ∈ seen)) as [Hin|Hnin]; [apply IH|].
  destruct (IH ({[questionKey q]} ∪ seen)) as [Hnd Hall]. simpl. split.
  - constructor; [|exact Hnd]. intros Hk. apply list_elem_of_In, in_map_iff in Hk.
    destruct Hk as [q' [Hkey Hq']]. rewrite List.Forall_forall in Hall.
    apply Hall in Hq'. rewrite Hkey in Hq'. apply Hq'.
    apply elem_of_union_l, elem_of_singleton. reflexivity.
  - constructor; [exact Hnin|]. eapply List.Forall_impl; [|exact Hall].
    intros q' Hq' Hs. apply Hq'. now apply elem_of_union_r.
Qed.

Lemma dedupe_sublist (qs : list Pdf.Question) :
  forall seen, sublist (Parse.dedupe seen qs) qs.
Proof.
  induction qs as [|q qs IH]; intros seen; simpl; [constructor|].
  destruct (decide _); [apply sublist_cons, IH|apply sublist_skip, IH].
Qed.

Lemma fold_points (qs : list Pdf.Question) :
  forall acc, fold_left (fun acc q => acc + Pdf.q_points q) qs acc = acc + sumPoints qs.
Proof.
  unfold sumPoints. induction qs as [|q qs IH]; intros acc; simpl; [lia|].
  rewrite IH. lia.
Qed.

Lemma sumPoints_nonneg (qs : list Pdf.Question) :
  Forall nonnegPoints qs -> 0 <= sumPoints qs.
Proof.
  unfold sumPoints. induction 1 as [|q qs Hq _ IH]; simpl; [lia|].
  unfold nonnegPoints in Hq. lia.
Qed.

Lemma substring_length_le (n m : nat) (s : string) :
  (String.length (substring n m s) <= m)%nat.
Proof.
  revert n m. induction s as [|c s IH]; intros [|n] [|m]; simpl; try lia.
  - specialize (IH 0%nat m). lia.
  - apply (IH n 0%nat).
  - apply (IH n (S m)).
Qed.

Section ParseResults.
Variable W : Type.
Variable host : Parse.Host W.
Variable detect : list PageInput -> Completion (list TokenMeta).

Lemma parsePdf_record (deep : bool) (w : W) :
  let '(s', r) := Parse.parsePdf W host detect deep w in
  Forall nonnegPoints (Parse.questionsDetected W s')
  /\ ((exists e, r = Normal (Parse.fallbackExam W host s' e))
      \/ r = Normal (normalRecord W host s')).
Proof.
  pose proof (parsePdf_inv W host detect (fun _ => True) deep w) as H.
  destruct (Parse.parsePdf W host detect deep w) as [s' r].
  destruct H as [[_ Hq] Hr].
  - unfold plainEventsOk. repeat split.
  - intros _ _. unfold ocrEventsOk. repeat split.
  - split; assumption.
Qed.

(** X17.  [parsePdf] always returns a record; its questions are a
    sub-list of the detected questions, in their order, and no two of
    them have the same key [number || id]. *)
Theorem returned_questions_are_deduplicated (deepOcr : bool) (w : W) :
  let '(s', r) := Parse.parsePdf W host detect deepOcr w in
  exists exam, r = Normal exam
    /\ List.NoDup (map questionKey (Parse.questions exam))
    /\ sublist (Parse.questions exam) (Parse.questionsDetected W s').
Proof.
  pose proof (parsePdf_record deepOcr w) as H.
  destruct (Parse.parsePdf W host detect deepOcr w) as [s' r].
  destruct H as [Hq [[e ->]| ->]]; eexists; (split; [reflexivity|]); simpl.
  - split; [constructor|apply sublist_nil_l].
  - split; [apply NoDup_ListNoDup, dedupe_keys|apply dedupe_sublist].
Qed.

(** X18.  In the record that [parsePdf] returns no question has negative
    points.  Either the record is the fallback, without questions and
    without total, or its total is the sum of the points of its
    questions, which is not negative, and its extracted text has at most
    5000 characters. *)
Theorem returned_total_is_the_sum_of_nonnegative_points (deepOcr : bool) (w : W) :
  exists exam, snd (Parse.parsePdf W host detect deepOcr w) = Normal exam
    /\ Forall (fun q => 0 <= Pdf.q_points q) (Parse.questions exam)
    /\ ((Parse.totalPoints exam = None /\ Parse.questions exam = [])
        \/ (Parse.totalPoints exam = Some (sumPoints (Parse.questions exam))
            /\ 0 <= sumPoints (Parse.questions exam)
            /\ (String.length (Parse.extractedText exam) <= 5000)%nat)).
Proof.
  pose proof (parsePdf_record deepOcr w) as H.
  destruct (Parse.parsePdf W host detect deepOcr w) as [s' r].
  destruct H as [Hq [[e ->]| ->]]; eexists; (split; [reflexivity|]); simpl.
  - split; [constructor|]. left. split; reflexivity.
  - assert (Hd : Forall nonnegPoints (Parse.dedupe ∅ (Parse.questionsDetected W s'))).
    { apply List.Forall_forall. intros q Hin. rewrite List.Forall_forall in Hq. apply Hq.
      apply list_elem_of_In. eapply elem_of_sublist; [|apply dedupe_sublist].
      apply list_elem_of_In. exact Hin. }
    split; [exact Hd|]. right. split; [|split].
    + rewrite fold_points. reflexivity.
    + now apply sumPoints_nonneg.
    + apply substring_length_le.
Qed.

(** X19.  Whatever the document, the layout fallback reads pages 1 to 10
    only, quick OCR scans pages 1 to 20 only and deep OCR pages 1 to 100
    only; a quick run never detects on the whole OCR text and a deep run
    never detects page by page; the OCR stage never asks for the text
    content of a page. *)
Theorem stages_respect_their_page_limits (deepOcr : bool) (w : W) :
  Forall (fun ev => withinPageLimits deepOcr ev = true)
         (Parse.trace W (fst (Parse.parsePdf W host detect deepOcr w))).
Proof.
  pose proof (parsePdf_inv W host detect (fun ev => withinPageLimits deepOcr ev = true)
                deepOcr w) as H.
  destruct (Parse.parsePdf W host detect deepOcr w) as [s' r].
  destruct H as [[Ht _] _]; [| |exact Ht].
  - unfold plainEventsOk. repeat split; try reflexivity; simpl;
      repeat (apply andb_true_intro; split); apply Z.leb_le; lia.
  - intros _ _. unfold ocrEventsOk. repeat split; try reflexivity; simpl;
      try (destruct deepOcr; reflexivity);
      repeat (apply andb_true_intro; split); apply Z.leb_le; lia.
Qed.

(** X20.  Without a DOM, or when no OCR engine can be loaded, a parse
    creates no worker, renders and recognises no page, and terminates no
    worker. *)
Theorem without_an_engine_no_page_is_scanned (deepOcr : bool) (w : W) :
  Parse.hasDocument W host = false
  \/ (forall w', snd (Parse.loadTesseract W host w') = None) ->
  Forall (fun ev => usesOcrEngine ev = false)
         (Parse.trace W (fst (Parse.parsePdf W host detect deepOcr w))).
Proof.
  intros Hno.
  pose proof (parsePdf_inv W host detect (fun ev => usesOcrEngine ev = false) deepOcr w) as H.
  destruct (Parse.parsePdf W host detect deepOcr w) as [s' r].
  destruct H as [[Ht _] _]; [| |exact Ht].
  - unfold plainEventsOk. repeat split; reflexivity.
  - intros Hd [w' Hw']. destruct Hno as [Hno|Hno]; [congruence|].
    specialize (Hno w'). contradiction.
Qed.

End ParseResults.

Section ParseEdges.
Variable W : Type.
Variable host : Parse.Host W.
Variable detect : list PageInput -> Completion (list TokenMeta).

(** X21.  As soon as the line stage or the flat-text stage on the text
    layer finds a question, that detection is the last step of the
    parse: no page is read again, and no layout fallback, no OCR and no
    further question detection follow. *)
Theorem a_successful_text_stage_ends_the_parse (deepOcr : bool) (w : W)
    (k n : nat) :
  let tr := Parse.trace W (fst (Parse.parsePdf W host detect deepOcr w)) in
  tr !! k = Some (Parse.EvLines (S n))
  \/ tr !! k = Some (Parse.EvText2 Parse.FlatRegex (S n)) ->
  length tr = S k.
Proof.
  intros tr Hk.
  destruct (parsePdf_phases W host detect deepOcr w) as [q [Hrun _]]. fold tr in Hrun.
  assert (Hlt : (k < length tr)%nat).
  { destruct Hk as [Hk|Hk]; apply lookup_lt_Some in Hk; exact Hk. }
  assert (Hrest : runPhases PDone (drop (S k) tr) = Some q).
  { destruct Hk as [Hk|Hk];
      destruct (runPhases_split _ _ _ _ _ Hrun Hk) as (q1 & q2 & _ & Hstep & Hrest);
      destruct q1; simpl in Hstep; try discriminate; injection Hstep as <-; exact Hrest. }
  destruct (drop (S k) tr) as [|ev' rest] eqn:Ed.
  - apply (f_equal length) in Ed. rewrite length_drop in Ed. simpl in Ed. lia.
  - simpl in Hrest. discriminate.
Qed.

(** X22.  When the PDF cannot be opened, [parsePdf] does nothing more and
    returns the fallback record: the name of the file, no questions and
    no course name. *)
Theorem a_document_that_cannot_be_opened_gives_the_fallback (deepOcr : bool) (w w' : W)
    (e : JsError) :
  Parse.openDocument W host w = (w', Throw e) ->
  let '(s, r) := Parse.parsePdf W host detect deepOcr w in
  Parse.trace W s = [Parse.EvOpen]
  /\ r = Normal (Parse.fallbackExam W host s e)
  /\ Parse.questions (Parse.fallbackExam W host s e) = []
  /\ Parse.courseName (Parse.fallbackExam W host s e) = None
  /\ Parse.fileName (Parse.fallbackExam W host s e) = Parse.file_name W host.
Proof.
  intros Hopen.
  unfold Parse.parsePdf, Parse.parseBody, Parse.readTextLayer.
  unfold Parse.bind at 1 2. unfold Parse.call at 1. cbn [Parse.world Parse.initLocals].
  rewrite Hopen. cbn. repeat split.
Qed.

End ParseEdges.

(** The theorem at a PDF that the PDF library rejects. *)
Lemma a_document_that_cannot_be_opened_gives_the_fallback_witness :
  Parse.openDocument unit brokenHost tt = (tt, Throw (HostError "Invalid PDF structure"))
  /\ let '(s, r) := Parse.parsePdf unit brokenHost detectA false tt in
     Parse.trace unit s = [Parse.EvOpen]
     /\ r = Normal (Parse.fallbackExam unit brokenHost s (HostError "Invalid PDF structure"))
     /\ Parse.questions (Parse.fallbackExam unit brokenHost s (HostError "Invalid PDF structure")) = []
     /\ Parse.courseName (Parse.fallbackExam unit brokenHost s (HostError "Invalid PDF structure")) = None
     /\ Parse.fileName (Parse.fallbackExam unit brokenHost s (HostError "Invalid PDF structure"))
        = Parse.file_name unit brokenHost.
Proof.
  split; [reflexivity|].
  apply (a_document_that_cannot_be_opened_gives_the_fallback unit brokenHost detectA false tt tt).
  reflexivity.
Defined.

(** The theorem at a title page with one question: the line stage is the
    fourth and last event. *)
Lemma a_successful_text_stage_ends_the_parse_witness :
  let tr := Parse.trace unit (fst (parseSimple "tenta.pdf" titlePage EmptyString)) in
  (tr !! 3%nat = Some (Parse.EvLines 1)
   \/ tr !! 3%nat = Some (Parse.EvText2 Parse.FlatRegex 1))
  /\ length tr = 4%nat.
Proof.
  split; [left; reflexivity|].
  apply (a_successful_text_stage_ends_the_parse unit
           (simpleHost "tenta.pdf" titlePage EmptyString) detectA false tt 3 0).
  left. reflexivity.
Defined.

(** The theorem at a scanned page in an environment without OCR engine:
    the parse ends after the attempt to load one. *)
Lemma without_an_engine_no_page_is_scanned_witness :
  (Parse.hasDocument unit noEngineHost = false
   \/ (forall w', snd (Parse.loadTesseract unit noEngineHost w') = None))
  /\ last (Parse.trace unit (fst (Parse.parsePdf unit noEngineHost detectA false tt)))
     = Some (Parse.EvText2 Parse.Final 0)
  /\ Forall (fun ev => usesOcrEngine ev = false)
         (Parse.trace unit (fst (Parse.parsePdf unit noEngineHost detectA false tt))).
Proof.
  assert (H : Parse.hasDocument unit noEngineHost = false
              \/ (forall w', snd (Parse.loadTesseract unit noEngineHost w') = None)).
  { right. intros w'. reflexivity. }
  split; [exact H|]. split; [vm_compute; reflexivity|].
  exact (without_an_engine_no_page_is_scanned unit noEngineHost detectA false tt H).
Defined.

(* ===================================================================== *)
(** ** Course metadata *)
(* ===================================================================== *)

(** *** Course code *)

Lemma bump_positive (code : string) (by_ : Z) (scores : list (string * Z)) :
  0 < by_ -> Forall (fun cv => 0 < snd cv) scores ->
  Forall (fun cv => 0 < snd cv) (Meta.bump code by_ scores) /\ Meta.bump code by_ scores <> [].
Proof.
  intros Hby Hs. induction Hs as [|[c v] rest Hv Hs IH]; simpl.
  - split; [constructor; [exact Hby|constructor]|discriminate].
  - destruct (String.eqb c code); simpl.
    + split; [constructor; [simpl in *; lia|exact Hs]|discriminate].
    + split; [constructor; [exact Hv|apply IH]|discriminate].
Qed.

Lemma scoreAll_positive (upper : string) (res : list Re.RegExp)
    (codeOf : Re.MatchResult -> string) (by_ : Z) :
  0 < by_ -> forall scores, Forall (fun cv => 0 < snd cv) scores ->
  Forall (fun cv => 0 < snd cv) (Meta.scoreAll upper res codeOf by_ scores)
  /\ (Meta.scoreAll upper res codeOf by_ scores = []
      <-> scores = [] /\ Forall (fun re => Re.exec_all re upper = []) res).
Proof.
  intros Hby. unfold Meta.scoreAll. induction res as [|re res IH]; intros scores Hs; simpl.
  - split; [exact Hs|]. split; [intros ->; split; [reflexivity|constructor]|tauto].
  - assert (Hin : forall ms sc, Forall (fun cv => 0 < snd cv) sc ->
               Forall (fun cv => 0 < snd cv)
                 (fold_left (fun sc m => Meta.bump (codeOf m) by_ sc) ms sc)
               /\ (fold_left (fun sc m => Meta.bump (codeOf m) by_ sc) ms sc = []
                   <-> sc = [] /\ ms = [])).
    { induction ms as [|m ms IHm]; intros sc Hsc; simpl.
      - split; [exact Hsc|tauto].
      - destruct (bump_positive (codeOf m) by_ sc Hby Hsc) as [Hb Hne].
        destruct (IHm _ Hb) as [Hall Hiff]. split; [exact Hall|].
        rewrite Hiff. split; [intros [H _]; contradiction|intros [_ H]; discriminate]. }
    destruct (Hin (Re.exec_all re upper) scores Hs) as [H1 H1'].
    destruct (IH _ H1) as [H2 H2']. split; [exact H2|].
    rewrite H2', H1'. split.
    + intros [[-> Hm] Hrest]. split; [reflexivity|]. constructor; assumption.
    + intros [-> Hall]. inversion Hall; subst. auto.
Qed.

Lemma bestCode_fold (scores : list (string * Z)) :
  forall (b : option string) (bv : Z),
    let r := fold_left
               (fun (acc : option string * Z) cs =>
                  if snd acc <? snd cs then (Some (fst cs), snd cs) else acc)
               scores (b, bv) in
    (r = (b, bv) /\ Forall (fun cv => snd cv <= bv) scores)
    \/ (exists pre c v post,
          scores = (pre ++ (c, v) :: post)%list /\ r = (Some c, v) /\ bv < v
          /\ Forall (fun cv => snd cv < v) pre /\ Forall (fun cv => snd cv <= v) post).
Proof.
  induction scores as [|[c v] rest IH]; intros b bv; simpl.
  - left. split; [reflexivity|constructor].
  - destruct (bv <? v) eqn:E.
    + apply Z.ltb_lt in E.
      destruct (IH (Some c) v)
        as [[Hr Hall]|(pre & c' & v' & post & Hs & Hr & Hlt & Hpre & Hpost)].
      * right. exists [], c, v, rest. simpl.
        split; [reflexivity|]. split; [exact Hr|]. split; [exact E|].
        split; [constructor|exact Hall].
      * right. exists ((c, v) :: pre), c', v', post.
        split; [rewrite Hs; reflexivity|]. split; [exact Hr|]. split; [lia|].
        split; [constructor; [simpl; lia|exact Hpre]|exact Hpost].
    + apply Z.ltb_ge in E.
      destruct (IH b bv)
        as [[Hr Hall]|(pre & c' & v' & post & Hs & Hr & Hlt & Hpre & Hpost)].
      * left. split; [exact Hr|]. constructor; [simpl; lia|exact Hall].
      * right. exists ((c, v) :: pre), c', v', post.
        split; [rewrite Hs; reflexivity|]. split; [exact Hr|]. split; [exact Hlt|].
        split; [constructor; [simpl; lia|exact Hpre]|exact Hpost].
Qed.

Lemma codeScores_positive (text : string) :
  Forall (fun cv => 0 < snd cv) (codeScores text)
  /\ (codeScores text = []
      <-> Forall (fun re => Re.exec_all re (Meta.toUpperCase text) = [])
                 (Meta.labelledPatterns ++ Meta.genericPatterns)).
Proof.
  unfold codeScores.
  destruct (scoreAll_positive (Meta.toUpperCase text) Meta.labelledPatterns Meta.labelledCode 5
              ltac:(lia) [] ltac:(constructor)) as [H1 H1'].
  destruct (scoreAll_positive (Meta.toUpperCase text) Meta.genericPatterns Meta.genericCode 1
              ltac:(lia) _ H1) as [H2 H2'].
  split; [exact H2|]. cbv zeta. rewrite H2', H1', Forall_app. tauto.
Qed.

(** X23.  When [detectCourseCodeFromText] returns nothing, no pattern
    matches the upper-cased text.  Otherwise it returns a code
    of the score table whose score is positive, greater than the score of
    every code entered before it and at least the score of every code
    entered after it. *)
Theorem reported_course_code_has_the_highest_score (text : string) :
  match Meta.detectCourseCodeFromText text with
  | None =>
      codeScores text = []
      /\ Forall (fun re => Re.exec_all re (Meta.toUpperCase text) = [])
                (Meta.labelledPatterns ++ Meta.genericPatterns)
  | Some code =>
      exists pre v post,
        codeScores text = (pre ++ (code, v) :: post)%list /\ 0 < v
        /\ Forall (fun cv => snd cv < v) pre /\ Forall (fun cv => snd cv <= v) post
  end.
Proof.
  destruct (codeScores_positive text) as [Hpos Hiff].
  unfold Meta.detectCourseCodeFromText, Meta.bestCode. fold (codeScores text).
  destruct (bestCode_fold (codeScores text) None (-1))
    as [[Hr Hall]|(pre & c & v & post & Hs & Hr & Hlt & Hpre & Hpost)]; cbv zeta in Hr; rewrite Hr; simpl.
  - assert (He : codeScores text = []).
    { destruct (codeScores text) as [|[c v] rest]; [reflexivity|].
      inversion Hpos; subst. inversion Hall; subst. simpl in *. lia. }
    split; [exact He|]. now apply Hiff.
  - exists pre, v, post. repeat split; try assumption.
    rewrite Hs in Hpos. apply Forall_app in Hpos. destruct Hpos as [_ Hpos].
    inversion Hpos; subst. assumption.
Qed.

(** *** Course name *)

Lemma addCandidate_ok (name : string) (delta : Z) (cs : list Meta.Candidate) :
  Forall candidateOk cs -> Forall candidateOk (Meta.addCandidate name delta cs).
Proof.
  intros Hcs. unfold Meta.addCandidate.
  set (n := Meta.replace_all Meta.reSpaces _ _).
  destruct ((String.length n <? 3)%nat || (120 <? String.length n)%nat) eqn:El; [exact Hcs|].
  destruct ((Meta.countMatches Meta.reLetter n =? 0)
            || (Meta.countMatches Meta.reLetter n <? Meta.countMatches Meta.reDigit n)) eqn:Ec;
    [exact Hcs|].
  apply orb_false_iff in El, Ec. destruct El as [El1 El2], Ec as [Ec1 Ec2].
  apply Nat.ltb_ge in El1, El2. apply Z.eqb_neq in Ec1. apply Z.ltb_ge in Ec2.
  assert (Hnn : 0 <= Meta.countMatches Meta.reLetter n) by (unfold Meta.countMatches; lia).
  destruct (Meta.isExcludedName n) eqn:Ex; apply Forall_app; (split; [exact Hcs|]);
    (constructor; [|constructor]).
  - intros H. simpl in H. lia.
  - intros _. simpl. repeat split; try assumption; lia.
Qed.

Lemma titleCandidates_ok (top : list string) :
  forall i cs, Forall candidateOk cs -> Forall candidateOk (Meta.titleCandidates i top cs).
Proof.
  induction top as [|s rest IH]; intros i cs Hcs; cbn [Meta.titleCandidates]; [exact Hcs|].
  destruct (Nat.leb 60 i); [exact Hcs|]. apply IH.
  destruct (Meta.looksTitleLike s); [now apply addCandidate_ok|exact Hcs].
Qed.

(** X24.  A name that [detectCourseName] returns is the trimmed form of a
    candidate that is not an excluded text, has 3 to 120 characters,
    holds a letter and holds no more digits than letters. *)
Theorem detected_course_name_is_never_an_excluded_text
    (text : string) (fileName courseCode : option string) (name : string) :
  Meta.detectCourseName text fileName courseCode = Some name ->
  exists n, name = Js.trim n
    /\ Meta.isExcludedName n = false
    /\ (3 <= String.length n <= 120)%nat
    /\ 0 < Meta.countMatches Meta.reLetter n
    /\ Meta.countMatches Meta.reDigit n <= Meta.countMatches Meta.reLetter n.
Proof.
  unfold Meta.detectCourseName.
  set (top := Meta.topBlock 120 _ [] 0).
  set (topJoined := Js.join _ top).
  set (code := match courseCode with Some c => _ | None => None end).
  match goal with |- match find _ (js_sort _ ?cs) with _ => _ end = _ -> _ =>
    cut (Forall candidateOk cs); [generalize cs; intros cs0 Hcs|]
  end.
  2:{ apply titleCandidates_ok.
    repeat match goal with
    | |- Forall candidateOk (match ?x with _ => _ end) => destruct x
    | |- Forall candidateOk (if ?x then _ else _) => destruct x
    | |- Forall candidateOk (Meta.addCandidate _ _ _) => apply addCandidate_ok
    | |- Forall candidateOk [] => constructor
    end. }
  destruct (find _ _) as [best|] eqn:Ef; [|discriminate]. intros [= <-].
  apply find_some in Ef. destruct Ef as [Hin Hpos]. apply Z.ltb_lt in Hpos.
  apply (Permutation_in _ (js_sort_perm Meta.cmpCandidate cs0)) in Hin.
  rewrite List.Forall_forall in Hcs. destruct (Hcs best Hin Hpos) as (H1 & H2 & H3 & H4).
  exists (Meta.cd_name best). auto.
Qed.

(** The theorem at the text "Tentamen i Algebra", "1. Derive". *)
Lemma detected_course_name_is_never_an_excluded_text_witness :
  Meta.detectCourseName ("Tentamen i Algebra" +:+ String "010" "1. Derive")
    (Some "tenta.pdf") None = Some "Algebra"
  /\ exists n, "Algebra" = Js.trim n
    /\ Meta.isExcludedName n = false
    /\ (3 <= String.length n <= 120)%nat
    /\ 0 < Meta.countMatches Meta.reLetter n
    /\ Meta.countMatches Meta.reDigit n <= Meta.countMatches Meta.reLetter n.
Proof.
  split; [vm_compute; reflexivity|].
  apply (detected_course_name_is_never_an_excluded_text
           ("Tentamen i Algebra" +:+ String "010" "1. Derive") (Some "tenta.pdf") None).
  vm_compute. reflexivity.
Defined.

(* ===================================================================== *)
(** ** The question extractor of the minimal parser *)
(* ===================================================================== *)

Lemma String_of_inj (a b : Z) : Js.String_of a = Js.String_of b -> a = b.
Proof.
  unfold Js.String_of. intros H. apply to_int_inj.
  assert (Hnn : forall n, Z.to_int n <> Decimal.Pos Decimal.Nil
                          /\ Z.to_int n <> Decimal.Neg Decimal.Nil).
  { intros [|p|p]; simpl; split; try discriminate;
      intros [= Hp]; now apply DecimalPos.Unsigned.to_uint_nonnil in Hp. }
  assert (Hs : Some (Z.to_int a) = Some (Z.to_int b)).
  { rewrite <- (NilZero.isi (Z.to_int a)), <- (NilZero.isi (Z.to_int b)); try apply Hnn.
    now rewrite H. }
  now injection Hs.
Qed.

Lemma NoDup_map_inj {A B} (f : A -> B) (l : list A) :
  (forall a b, f a = f b -> a = b) -> List.NoDup l -> List.NoDup (map f l).
Proof.
  intros Hf Hl. induction Hl as [|a l Ha Hl IH]; simpl; constructor; [|exact IH].
  intros Hin. apply in_map_iff in Hin. destruct Hin as [b [Hb Hin]].
  apply Hf in Hb. subst b. contradiction.
Qed.

Lemma onLine_props (line : string) (found : list Z) :
  List.NoDup found ->
  List.NoDup (Minimal.onLine line found)
  /\ (length (Minimal.onLine line found) <= S (length found))%nat.
Proof.
  intros Hnd. unfold Minimal.onLine.
  destruct (Minimal.lineMatch line) as [m|]; [|split; [exact Hnd|lia]].
  destruct (Js.parseInt _) as [num|]; [|split; [exact Hnd|lia]].
  destruct (existsb (Z.eqb num) found) eqn:E; [split; [exact Hnd|lia]|].
  split.
  - apply NoDup_ListNoDup. apply NoDup_app. split; [now apply NoDup_ListNoDup|].
    split; [|apply NoDup_singleton].
    intros x Hx Hx'. apply list_elem_of_In in Hx, Hx'. destruct Hx' as [<-|[]].
    assert (existsb (Z.eqb num) found = true); [|congruence].
    apply existsb_exists. exists num. split; [exact Hx|apply Z.eqb_refl].
  - rewrite length_app. simpl. lia.
Qed.

Lemma scan_props (lines : list string) :
  forall found, List.NoDup found -> (length found < 12)%nat ->
    List.NoDup (Minimal.scan lines found) /\ (length (Minimal.scan lines found) <= 12)%nat.
Proof.
  induction lines as [|line rest IH]; intros found Hnd Hlen; cbn [Minimal.scan].
  - split; [exact Hnd|lia].
  - destruct (onLine_props line found Hnd) as [Hnd1 Hlen1].
    destruct (Nat.leb 12 (length (Minimal.onLine line found))) eqn:E.
    + split; [exact Hnd1|lia].
    + apply Nat.leb_gt in E. now apply IH.
Qed.

(** X25.  The question extractor of the minimal parser returns at most 12
    questions, with pairwise distinct numbers, each with the id "q-"
    followed by its number and with 0 points. *)
Theorem minimal_extractor_gives_at_most_twelve_distinct_numbers (text : string) :
  let qs := Minimal.extractQuestionsFromText text in
  (length qs <= 12)%nat
  /\ List.NoDup (map Pdf.q_number qs)
  /\ Forall (fun q => Pdf.q_id q = "q-" +:+ Pdf.q_number q /\ Pdf.q_points q = 0) qs.
Proof.
  cbv zeta. unfold Minimal.extractQuestionsFromText.
  destruct (scan_props (map Js.trim (Js.split_lines text)) [])
    as [Hnd Hlen]; [constructor|simpl; lia|].
  set (found := Minimal.scan _ []) in *. clearbody found.
  assert (Hmap : forall l, List.NoDup l ->
            List.NoDup (map Pdf.q_number (map Minimal.questionOfNumber l))).
  { intros l Hl. rewrite map_map. simpl.
    apply NoDup_map_inj; [|exact Hl]. intros a b. apply String_of_inj. }
  assert (Hshape : forall l, Forall (fun q => Pdf.q_id q = "q-" +:+ Pdf.q_number q
                                              /\ Pdf.q_points q = 0)
                                    (map Minimal.questionOfNumber l)).
  { intros l. apply List.Forall_forall. intros q Hq. apply in_map_iff in Hq.
    destruct Hq as [n [<- _]]. split; reflexivity. }
  destruct (_ && _).
  - split; [simpl; lia|]. split; [|apply Hshape].
    apply Hmap. repeat constructor; simpl; intuition lia.
  - split; [rewrite length_map; exact Hlen|]. split; [now apply Hmap|apply Hshape].
Qed.
